(** * Waybar temperature module: sensor discovery, readings, classification

    A shallow embedding of [src/modules/temperature.cpp] and
    [include/modules/temperature.hpp], and the properties of the module's
    specification checked against it.

    Conventions of the embedding:
    - [uint16_t], [int] and [long] values are [Z]; every narrowing conversion
      is written out ([uint16_of_Z], [strtol]'s saturation);
    - [float] and [double] are IEEE-754 binary32 and binary64, as given by the
      Standard Library's executable specification [SpecFloat];
    - [Json::Value] is a small inductive type, the configuration object a
      [gmap] from member names to values;
    - the CSS classes of the label are a [gset string];
    - code that throws returns in the exception monad [Exc]; code that
      mutates the widget runs in the state-and-exception monad [M]. *)

From Stdlib Require Import ZArith QArith Qround Lia Bool Ascii String.
From Stdlib Require Import DecimalString.
From Stdlib Require DecimalPos.
From Stdlib Require Import Floats.SpecFloat.
From stdpp Require Import base option list strings gmap.

Local Open Scope Z_scope.

(** ** Fixed-width integers *)

Definition uint16_of_Z (z : Z) : Z := z mod 65536.

Definition INT_MIN : Z := -2147483648.
Definition INT_MAX : Z := 2147483647.
Definition LONG_MIN : Z := -9223372036854775808.
Definition LONG_MAX : Z := 9223372036854775807.

(** ** Floating point: binary32 and binary64 *)

Module Float.

(** [float] *)
Definition prec32 : Z := 24.
Definition emax32 : Z := 128.
(** [double] *)
Definition prec64 : Z := 53.
Definition emax64 : Z := 1024.

(** Conversion of an integer to [double] and to [float] (round to nearest,
    ties to even). *)
Definition double_of_Z (z : Z) : spec_float :=
  binary_normalize prec64 emax64 z 0 false.

Definition float_of_Z (z : Z) : spec_float :=
  binary_normalize prec32 emax32 z 0 false.

(** Narrowing of a [double] to [float], as happens when a [double]
    expression is returned from a function of return type [float]. *)
Definition float_of_double (x : spec_float) : spec_float :=
  match x with
  | S754_finite s m e =>
      binary_normalize prec32 emax32 (cond_Zopp s (Zpos m)) e false
  | _ => x
  end.

Definition ddiv : spec_float -> spec_float -> spec_float := SFdiv prec64 emax64.
Definition dmul : spec_float -> spec_float -> spec_float := SFmul prec64 emax64.
Definition dadd : spec_float -> spec_float -> spec_float := SFadd prec64 emax64.
Definition fsub : spec_float -> spec_float -> spec_float := SFsub prec32 emax32.
Definition fdiv : spec_float -> spec_float -> spec_float := SFdiv prec32 emax32.

(** The [double] literals [1.8] and [273.15]: the binary64 numbers nearest
    to 9/5 and to 5463/20. *)
Definition d1_8 : spec_float := S754_finite false 8106479329266893 (-52).
Definition d273_15 : spec_float := S754_finite false 4805305618032230 (-44).

(** [std::round]: the nearest integer, halfway cases away from zero.  The
    result is returned as the integer it denotes: for a magnitude
    [m * 2 ^ e] with a negative exponent, one half is added and the
    fraction dropped.  Infinities and NaN have no integer value; they
    cannot arise from the readings of this module and are sent to 0. *)
Definition round_magnitude (m : positive) (e : Z) : Z :=
  match e with
  | Zneg n => Z.shiftr (Zpos m + Z.shiftl 1 (Zpos n - 1)) (Zpos n)
  | _ => Z.shiftl (Zpos m) e
  end.

Definition round (x : spec_float) : Z :=
  match x with
  | S754_finite s m e => cond_Zopp s (round_magnitude m e)
  | _ => 0
  end.

End Float.

(** Conversion of an integral floating value to [uint16_t].  The language
    defines it for values in 0..65535 only.  Outside, the embedding follows
    what the compiled code does (x86-64): the value is converted to a 32-bit
    [int] first, and the low 16 bits of that are stored.  A value that fits [int]
    is thereby taken modulo 2^16; a value that does not fit converts to
    [INT_MIN] (the conversion instruction's answer for every operand out of
    range), whose low 16 bits are 0. *)
Definition int_of_rounded (z : Z) : Z :=
  if (INT_MIN <=? z) && (z <=? INT_MAX) then z else INT_MIN.

Definition uint16_of_rounded (x : spec_float) : Z :=
  uint16_of_Z (int_of_rounded (Float.round x)).

(** ** [std::strtol (s, nullptr, 10)] *)

Definition isspace (c : ascii) : bool :=
  let n := Z.of_N (N_of_ascii c) in
  (n =? 32) || ((9 <=? n) && (n <=? 13)).

Definition digit_value (c : ascii) : option Z :=
  let n := Z.of_N (N_of_ascii c) in
  if (48 <=? n) && (n <=? 57) then Some (n - 48) else None.

Fixpoint skip_spaces (s : string) : string :=
  match s with
  | String c s' => if isspace c then skip_spaces s' else s
  | EmptyString => s
  end.

(** The digits at the head of [s], accumulated onto [acc]. *)
Fixpoint leading_digits (acc : Z) (s : string) : Z :=
  match s with
  | String c s' =>
      match digit_value c with
      | Some d => leading_digits (10 * acc + d) s'
      | None => acc
      end
  | EmptyString => acc
  end.

Definition saturate_long (z : Z) : Z := Z.max LONG_MIN (Z.min LONG_MAX z).

(** Leading white space is skipped, one optional sign is read, then as many
    decimal digits as follow.  With no digit at all the result is 0; a value
    outside [long] saturates.  No end pointer is requested and [errno] is not
    looked at, so these cases are not told apart by the caller. *)
Definition strtol (s : string) : Z :=
  match skip_spaces s with
  | String "-"%char s' => saturate_long (- leading_digits 0 s')
  | String "+"%char s' => saturate_long (leading_digits 0 s')
  | s' => saturate_long (leading_digits 0 s')
  end.

(** ** Exceptions *)

Inductive exception : Type :=
  | runtime_error (what : string)
  | Json_LogicError (what : string)
  | format_error (what : string).

Inductive Exc (A : Type) : Type :=
  | Return (a : A)
  | Throw (e : exception).
Arguments Return {A} a.
Arguments Throw {A} e.

#[global] Instance Exc_ret : MRet Exc := fun A a => Return a.
#[global] Instance Exc_bind : MBind Exc := fun A B k m =>
  match m with
  | Return a => k a
  | Throw e => Throw e
  end.

(** ** The configuration: [Json::Value] *)

Module Json.

(** The kinds of value this module looks at.  Booleans, reals and objects
    nested in the configuration are never inspected by it. *)
#[warnings="-register-all"]
Inductive Value : Type :=
  | nullValue
  | intValue (z : Z)
  | stringValue (s : string)
  | arrayValue (items : list Value).

Definition isString (v : Value) : bool :=
  match v with stringValue _ => true | _ => false end.

Definition isArray (v : Value) : bool :=
  match v with arrayValue _ => true | _ => false end.

(** An integer value is an [Int] when it fits [int]. *)
Definition isInt (v : Value) : bool :=
  match v with
  | intValue z => (INT_MIN <=? z) && (z <=? INT_MAX)
  | _ => false
  end.

(** Only called under [isInt]. *)
Definition asInt (v : Value) : Z :=
  match v with intValue z => z | _ => 0 end.

Definition string_of_Z (z : Z) : string :=
  DecimalString.NilZero.string_of_int (Z.to_int z).

Definition asString (v : Value) : Exc string :=
  match v with
  | nullValue => Return ""%string
  | intValue z => Return (string_of_Z z)
  | stringValue s => Return s
  | arrayValue _ => Throw (Json_LogicError "Type is not convertible to string")
  end.

Definition elements (v : Value) : list Value :=
  match v with arrayValue items => items | _ => [] end.

(** [config_[key]] on a constant object: the member, or null. *)
Definition member (config : gmap string Value) (key : string) : Value :=
  default nullValue (config !! key).

End Json.

Abbreviation Config := (gmap string Json.Value).

(** ** The operating system, as far as the module touches it *)

(** [#if defined(__FreeBSD__)] *)
Inductive Platform : Type := Linux | FreeBSD.

(** A [std::ifstream] right after construction from a path, and what the
    first [getline] on it would deliver ([None]: the read fails and the line
    stays empty).  [good] is kept apart from [is_open] because the code tests
    both; of a stream that has just opened the two agree. *)
Record ifstream : Type := {
  is_open : bool;
  good : bool;
  first_line : option string
}.

Definition getline (file : ifstream) : string := default ""%string (first_line file).

(** A [std::filesystem::directory_entry]: [path().string()] and
    [path().filename().string()]. *)
Record directory_entry : Type := {
  path_string : string;
  filename_string : string
}.

Record System : Type := {
  fs_exists : string -> bool;
  fs_is_directory : string -> bool;
  fs_directory_iterator : string -> list directory_entry;
  fs_open : string -> ifstream;
  (** [sysctlbyname] for an [int]: [None] when the call does not return 0. *)
  sysctlbyname : string -> option Z
}.

(** ** The module object *)

Inductive SensorType : Type := TEMPERATURE | FAN | POWER.

#[global] Instance SensorType_eq_dec : EqDecision SensorType.
Proof. solve_decision. Defined.

Record Temperature : Type := {
  config_ : Config;
  format_ : string;
  sensor_type_ : SensorType;
  file_path_ : string
}.

(** Modelled from the spec: the constructor of the base class [ALabel] is not
    part of the sources at hand.  It is called with the default format
    ["{temperatureC}°C"]; by the specification the base template is "sourced
    from configuration, falling back to a built-in default pattern when
    unset". *)
Definition ALabel_format (config : Config) (default_format : string) : string :=
  match Json.member config "format" with
  | Json.stringValue s => s
  | _ => default_format
  end.

Definition default_format : string := "{temperatureC}°C".

(** ** Construction: resolving the sensor file *)

Definition is_empty (s : string) : bool :=
  match s with EmptyString => true | _ => false end.

(** The loop of [traverseAsArray] over the items of an array.  The callback
    [check_set_path] either leaves [file_path_] alone and returns false
    ([None]), or assigns it and returns true ([Some] of the assigned path). *)
Fixpoint traverse_items (check_set_path : string -> option string)
    (items : list Json.Value) : Exc (option string) :=
  match items with
  | [] => Return None
  | item :: rest =>
      path ← Json.asString item;
      match check_set_path path with
      | Some p => Return (Some p)
      | None => traverse_items check_set_path rest
      end
  end.

Definition traverseAsArray (value : Json.Value)
    (check_set_path : string -> option string) : Exc (option string) :=
  if Json.isString value then
    path ← Json.asString value; Return (check_set_path path)
  else if Json.isArray value then
    traverse_items check_set_path (Json.elements value)
  else Return None.

(** The callback for ["hwmon-path"]. *)
Definition check_hwmon_path (os : System) (path : string) : option string :=
  if negb (fs_exists os path) then None else Some path.

(** The callback for ["hwmon-path-abs"]; [input_filename] is
    [config_["input-filename"].asString()]. *)
Definition check_hwmon_path_abs (os : System) (input_filename : string)
    (path : string) : option string :=
  if negb (fs_is_directory os path) then None
  else
    match List.find (fun hwmon => String.prefix "hwmon" (filename_string hwmon))
            (fs_directory_iterator os path) with
    | Some hwmon => Some (path_string hwmon +:+ "/" +:+ input_filename)
    | None => None
    end.

Definition sensor_type_of_config (config : Config) : Exc SensorType :=
  let sensor_type := TEMPERATURE in
  if Json.isString (Json.member config "type") then
    type ← Json.asString (Json.member config "type");
    let sensor_type := if String.eqb type "temperature" then TEMPERATURE else sensor_type in
    let sensor_type := if String.eqb type "fan" then FAN else sensor_type in
    let sensor_type := if String.eqb type "power" then POWER else sensor_type in
    Return sensor_type
  else Return sensor_type.

Definition thermal_zone (config : Config) : Z :=
  if Json.isInt (Json.member config "thermal-zone")
  then Json.asInt (Json.member config "thermal-zone") else 0.

Definition thermal_zone_path (zone : Z) : string :=
  "/sys/class/thermal/thermal_zone" +:+ Json.string_of_Z zone +:+ "/temp".

(** The three resolution steps, giving [file_path_] as it stands before the
    file is probed. *)
Definition resolve_file_path (os : System) (config : Config)
    (sensor_type : SensorType) : Exc string :=
  let file_path := ""%string in
  found ← traverseAsArray (Json.member config "hwmon-path") (check_hwmon_path os);
  let file_path := default file_path found in
  file_path ←
    (if is_empty file_path && Json.isString (Json.member config "input-filename") then
       input_filename ← Json.asString (Json.member config "input-filename");
       found ← traverseAsArray (Json.member config "hwmon-path-abs")
                 (check_hwmon_path_abs os input_filename);
       Return (default file_path found)
     else Return file_path);
  if is_empty file_path && bool_decide (sensor_type = TEMPERATURE) then
    Return (thermal_zone_path (thermal_zone config))
  else Return file_path.

(** [Temperature::Temperature].  On FreeBSD the body is empty: the members
    keep their initial values ([sensor_type_{TEMPERATURE}], an empty
    [file_path_]). *)
Definition Temperature_new (platform : Platform) (os : System)
    (config : Config) : Exc Temperature :=
  let format := ALabel_format config default_format in
  match platform with
  | FreeBSD =>
      Return {| config_ := config; format_ := format;
                sensor_type_ := TEMPERATURE; file_path_ := "" |}
  | Linux =>
      sensor_type ← sensor_type_of_config config;
      file_path ← resolve_file_path os config sensor_type;
      let temp := fs_open os file_path in
      if negb (is_open temp) then
        Throw (runtime_error ("Can't open " +:+ file_path))
      else if negb (good temp) then
        Throw (runtime_error ("Can't read from " +:+ file_path))
      else
        Return {| config_ := config; format_ := format;
                  sensor_type_ := sensor_type; file_path_ := file_path |}
  end.

(** ** [Temperature::getReadings] *)

(** The [switch] at the end of the file-based branch: [reading] is the
    [long] that [strtol] returned, the result is the [float] returned. *)
Definition convert_reading (sensor_type : SensorType) (reading : Z) : spec_float :=
  match sensor_type with
  | TEMPERATURE =>
      Float.float_of_double
        (Float.ddiv (Float.double_of_Z reading) (Float.double_of_Z 1000))
  | FAN => Float.float_of_Z reading
  | POWER =>
      Float.float_of_double
        (Float.ddiv (Float.double_of_Z reading) (Float.double_of_Z 1000000))
  end.

Definition getReadings (platform : Platform) (os : System)
    (self : Temperature) : Exc spec_float :=
  match platform with
  | FreeBSD =>
      if negb (bool_decide (sensor_type_ self = TEMPERATURE)) then
        Throw (runtime_error "Only temperature sensor reading is supported in FreeBSD")
      else
        let zone := Json.string_of_Z (thermal_zone (config_ self)) in
        let convert (temp : Z) : spec_float :=
          Float.fdiv (Float.fsub (Float.float_of_Z temp) (Float.float_of_Z 2732))
                     (Float.float_of_Z 10) in
        match sysctlbyname os ("dev.cpu." +:+ zone +:+ ".temperature") with
        | Some temp => Return (convert temp)
        | None =>
            match sysctlbyname os ("hw.acpi.thermal.tz" +:+ zone +:+ ".temperature") with
            | Some temp => Return (convert temp)
            | None =>
                Throw (runtime_error
                  ("sysctl hw.acpi.thermal.tz" +:+ zone +:+ ".temperature and dev.cpu."
                   +:+ zone +:+ ".temperature failed"))
            end
        end
  | Linux =>
      let file := fs_open os (file_path_ self) in
      if negb (is_open file) then
        Throw (runtime_error ("Can't open " +:+ file_path_ self))
      else if negb (good file) then
        Throw (runtime_error ("Can't read from " +:+ file_path_ self))
      else
        let line := getline file in
        let reading := strtol line in
        Return (convert_reading (sensor_type_ self) reading)
  end.

Definition isWarning (self : Temperature) (temperature_c : Z) : bool :=
  Json.isInt (Json.member (config_ self) "warning-threshold")
  && (Json.asInt (Json.member (config_ self) "warning-threshold") <=? temperature_c).

Definition isCritical (self : Temperature) (temperature_c : Z) : bool :=
  Json.isInt (Json.member (config_ self) "critical-threshold")
  && (Json.asInt (Json.member (config_ self) "critical-threshold") <=? temperature_c).

(** ** The widget and the monad of [update] *)

(** What [update] can change: the CSS classes of [label_], the visibility of
    [event_box_], the markup and the tooltip text of [label_]. *)
Record Widget : Type := {
  style_classes : gset string;
  event_box_visible : bool;
  label_markup : string;
  label_tooltip_text : string
}.

(** State and exceptions: what was done to the widget before a throw stays
    done. *)
Definition M (A : Type) : Type := Widget -> Widget * Exc A.

#[global] Instance M_ret : MRet M := fun A a w => (w, Return a).
#[global] Instance M_bind : MBind M := fun A B k m w =>
  match m w with
  | (w', Return a) => k a w'
  | (w', Throw e) => (w', Throw e)
  end.

Definition lift {A : Type} (m : Exc A) : M A := fun w => (w, m).

Definition add_class (c : string) : M unit := fun w =>
  ({| style_classes := {[ c ]} ∪ style_classes w;
      event_box_visible := event_box_visible w;
      label_markup := label_markup w;
      label_tooltip_text := label_tooltip_text w |}, Return tt).

Definition remove_class (c : string) : M unit := fun w =>
  ({| style_classes := style_classes w ∖ {[ c ]};
      event_box_visible := event_box_visible w;
      label_markup := label_markup w;
      label_tooltip_text := label_tooltip_text w |}, Return tt).

Definition set_visible (b : bool) : M unit := fun w =>
  ({| style_classes := style_classes w;
      event_box_visible := b;
      label_markup := label_markup w;
      label_tooltip_text := label_tooltip_text w |}, Return tt).

Definition hide : M unit := set_visible false.
Definition show : M unit := set_visible true.

Definition set_markup (s : string) : M unit := fun w =>
  ({| style_classes := style_classes w;
      event_box_visible := event_box_visible w;
      label_markup := s;
      label_tooltip_text := label_tooltip_text w |}, Return tt).

Definition set_tooltip_text (s : string) : M unit := fun w =>
  ({| style_classes := style_classes w;
      event_box_visible := event_box_visible w;
      label_markup := label_markup w;
      label_tooltip_text := s |}, Return tt).

(** ** Collaborators of [update] outside the sources *)

Inductive fmt_arg : Type :=
  | arg_int (z : Z)
  | arg_string (s : string).

(** [fmt::format] on a run-time format string with named arguments (it throws
    on a format it cannot process), [ALabel::getIcon], [tooltipEnabled ()] and
    the base class's [ALabel::update]. *)
Record Collaborators : Type := {
  fmt_format : string -> list (string * fmt_arg) -> Exc string;
  getIcon : Z -> string -> Z -> string;
  tooltipEnabled : bool;
  ALabel_update : M unit
}.

(** ** [Temperature::update] *)

(** [v.isString() ? v.asString() : otherwise] *)
Definition string_or (v : Json.Value) (otherwise : string) : string :=
  match v with Json.stringValue s => s | _ => otherwise end.

(** The local variables [power], [fan_speed], [temperature_c],
    [temperature_f], [temperature_k], all [uint16_t]. *)
Record Units : Type := {
  power : Z;
  fan_speed : Z;
  temperature_c : Z;
  temperature_f : Z;
  temperature_k : Z
}.

Definition fahrenheit (readings : Z) : Z :=
  uint16_of_rounded
    (Float.dadd (Float.dmul (Float.double_of_Z readings) Float.d1_8)
                (Float.double_of_Z 32)).

Definition kelvin (readings : Z) : Z :=
  uint16_of_rounded (Float.dadd (Float.double_of_Z readings) Float.d273_15).

Definition units (sensor_type : SensorType) (readings : Z) : Units :=
  match sensor_type with
  | TEMPERATURE =>
      {| power := 0; fan_speed := 0; temperature_c := readings;
         temperature_f := fahrenheit readings; temperature_k := kelvin readings |}
  | FAN =>
      {| power := 0; fan_speed := readings; temperature_c := 0;
         temperature_f := 0; temperature_k := 0 |}
  | POWER =>
      {| power := readings; fan_speed := 0; temperature_c := 0;
         temperature_f := 0; temperature_k := 0 |}
  end.

Definition markup_args (u : Units) (icon : string) : list (string * fmt_arg) :=
  [ ("temperatureC", arg_int (temperature_c u));
    ("temperatureF", arg_int (temperature_f u));
    ("temperatureK", arg_int (temperature_k u));
    ("icon", arg_string icon);
    ("fan", arg_int (fan_speed u));
    ("power", arg_int (power u)) ]%string.

Definition tooltip_args (u : Units) : list (string * fmt_arg) :=
  [ ("temperatureC", arg_int (temperature_c u));
    ("temperatureF", arg_int (temperature_f u));
    ("temperatureK", arg_int (temperature_k u));
    ("power", arg_int (power u));
    ("fan", arg_int (fan_speed u)) ]%string.

Definition default_tooltip_format (sensor_type : SensorType) : string :=
  match sensor_type with
  | TEMPERATURE => "{temperatureC}°C"
  | FAN => "{fan} RPM"
  | POWER => "{power}W"
  end.

(** The branch on [critical] and [warning]: it changes the classes and yields
    the format to use. *)
Definition classify (self : Temperature) (critical warning : bool) : M string :=
  let format := format_ self in
  if critical then
    let format := string_or (Json.member (config_ self) "format-critical") format in
    add_class "critical";;
    mret format
  else
    remove_class "critical";;
    if warning then
      let format := string_or (Json.member (config_ self) "format-warning") format in
      add_class "warning";;
      mret format
    else
      remove_class "warning";;
      mret format.

(** The rest of [update], from the test of [format.empty ()] on. *)
Definition render (env : Collaborators) (self : Temperature) (readings : Z)
    (format : string) : M unit :=
  if is_empty format then
    hide
  else
    show;;
    let max_reading :=
      if Json.isInt (Json.member (config_ self) "critical-threshold")
      then Json.asInt (Json.member (config_ self) "critical-threshold") else 0 in
    let u := units (sensor_type_ self) readings in
    markup ← lift (fmt_format env format
                     (markup_args u (getIcon env readings "" max_reading)));
    set_markup markup;;
    (if tooltipEnabled env then
       let tooltip_format :=
         string_or (Json.member (config_ self) "tooltip-format")
                   (default_tooltip_format (sensor_type_ self)) in
       tooltip ← lift (fmt_format env tooltip_format (tooltip_args u));
       set_tooltip_text tooltip
     else mret tt);;
    ALabel_update env.

Definition update (platform : Platform) (os : System) (env : Collaborators)
    (self : Temperature) : M unit :=
  x ← lift (getReadings platform os self);
  let readings := uint16_of_rounded x in
  let critical := isCritical self readings in
  let warning := isWarning self readings in
  format ← classify self critical warning;
  render env self readings format.

(** ** The specification's formulas, in exact arithmetic *)

(** Nearest integer, halfway cases away from zero. *)
Definition Qround_half_away (q : Q) : Z :=
  if Qle_bool 0 q then Qfloor (q + (1 # 2)) else Qceiling (q - (1 # 2)).

(** "Celsius = round(r/1000); Fahrenheit = round(r/1000 × 1.8 + 32);
    Kelvin = round(r/1000 + 273.15)", each from the unrounded [r/1000]. *)
Definition spec_celsius (r : Z) : Z := Qround_half_away (r # 1000).
Definition spec_fahrenheit (r : Z) : Z :=
  Qround_half_away ((r # 1000) * (18 # 10) + inject_Z 32).
Definition spec_kelvin (r : Z) : Z :=
  Qround_half_away ((r # 1000) + (27315 # 100)).

(** "Power: raw / 1,000,000 → Watts", to the nearest integer. *)
Definition spec_watts (raw : Z) : Z := Qround_half_away (raw # 1000000).

(** Fahrenheit and Kelvin from an already rounded Celsius value. *)
Definition fahrenheit_of_celsius (c : Z) : Z :=
  Qround_half_away (inject_Z c * (18 # 10) + inject_Z 32).
Definition kelvin_of_celsius (c : Z) : Z :=
  Qround_half_away (inject_Z c + (27315 # 100)).

(** What [update] hands to [fmt::format] for a raw value [r] read by a
    sensor of kind [sensor_type]. *)
Definition rendered_units (sensor_type : SensorType) (r : Z) : Units :=
  units sensor_type (uint16_of_rounded (convert_reading sensor_type r)).

(** A line that is a base-10 integer: an optional sign and at least one
    digit, nothing else. *)
Fixpoint all_digits (s : string) : bool :=
  match s with
  | EmptyString => true
  | String c s' => match digit_value c with Some _ => all_digits s' | None => false end
  end.

Definition is_base10_integer (s : string) : bool :=
  match s with
  | String "-"%char s' | String "+"%char s' => negb (is_empty s') && all_digits s'
  | _ => negb (is_empty s) && all_digits s
  end.

(** Whether [strtol] finds a number to convert at all: after white space and
    an optional sign, a digit. *)
Definition starts_with_digit (s : string) : bool :=
  match s with
  | String c _ => match digit_value c with Some _ => true | None => false end
  | EmptyString => false
  end.

Definition has_integer_prefix (s : string) : bool :=
  match skip_spaces s with
  | String "-"%char s' | String "+"%char s' => starts_with_digit s'
  | s' => starts_with_digit s'
  end.

(** The paths named by ["hwmon-path"], in order, when every item converts to
    a string. *)
Fixpoint as_strings (items : list Json.Value) : Exc (list string) :=
  match items with
  | [] => Return []
  | item :: rest =>
      s ← Json.asString item; l ← as_strings rest; Return (s :: l)
  end.

Definition configured_paths (value : Json.Value) : Exc (list string) :=
  match value with
  | Json.stringValue s => Return [s]
  | Json.arrayValue items => as_strings items
  | _ => Return []
  end.

(** ** Sample systems, objects and collaborators *)

Definition sensor_file (line : string) : ifstream :=
  {| is_open := true; good := true; first_line := Some line |}.

Definition no_file : ifstream :=
  {| is_open := false; good := false; first_line := None |}.

(** A system whose only file is [path], holding [line]. *)
Definition single_file_system (path line : string) : System :=
  {| fs_exists := String.eqb path;
     fs_is_directory := fun _ => false;
     fs_directory_iterator := fun _ => [];
     fs_open := fun p => if String.eqb p path then sensor_file line else no_file;
     sysctlbyname := fun _ => None |}.

(** A system with no file at all, and one where [path] exists and cannot be
    opened. *)
Definition empty_system : System :=
  {| fs_exists := fun _ => false;
     fs_is_directory := fun _ => false;
     fs_directory_iterator := fun _ => [];
     fs_open := fun _ => no_file;
     sysctlbyname := fun _ => None |}.

Definition unopenable_file_system (path : string) : System :=
  {| fs_exists := String.eqb path;
     fs_is_directory := fun _ => false;
     fs_directory_iterator := fun _ => [];
     fs_open := fun _ => no_file;
     sysctlbyname := fun _ => None |}.

(** A formatter for [{name}] fields without format specifications. *)
Fixpoint simple_format (args : list (string * fmt_arg)) (field : option string)
    (s : string) : Exc string :=
  match s, field with
  | EmptyString, None => Return ""%string
  | EmptyString, Some _ => Throw (format_error "invalid format string")
  | String c s', None =>
      if Ascii.eqb c "{" then simple_format args (Some ""%string) s'
      else rest ← simple_format args None s'; Return (String c rest)
  | String c s', Some name =>
      if Ascii.eqb c "}" then
        match List.find (fun a => String.eqb (fst a) name) args with
        | Some (_, arg_int z) =>
            rest ← simple_format args None s'; Return (Json.string_of_Z z +:+ rest)
        | Some (_, arg_string t) =>
            rest ← simple_format args None s'; Return (t +:+ rest)
        | None => Throw (format_error "argument not found")
        end
      else simple_format args (Some (name +:+ String c ""%string)) s'
  end.

Definition sample_env : Collaborators :=
  {| fmt_format := fun format args => simple_format args None format;
     getIcon := fun _ _ _ => ""%string;
     tooltipEnabled := true;
     ALabel_update := mret tt |}.

Definition fresh_widget : Widget :=
  {| style_classes := ∅; event_box_visible := false;
     label_markup := ""; label_tooltip_text := "" |}.

Definition sample_path : string := "/sys/class/hwmon/hwmon0/temp1_input".

Definition sample_config (type : string) : Config :=
  {[ "type"%string := Json.stringValue type;
     "hwmon-path"%string := Json.stringValue sample_path;
     "warning-threshold"%string := Json.intValue 60;
     "critical-threshold"%string := Json.intValue 80 ]}.

Definition sample_object (sensor_type : SensorType) (type : string) : Temperature :=
  {| config_ := sample_config type; format_ := default_format;
     sensor_type_ := sensor_type; file_path_ := sample_path |}.

(** One tick on a system whose sensor file holds [line]. *)
Definition tick (self : Temperature) (line : string) : M unit :=
  update Linux (single_file_system (file_path_ self) line) sample_env self.

(** ** The claims of the specification that the code does not meet, as stated *)

(** A file that opens and from which nothing can be read: the first
    [getline] fails. *)
Definition unreadable_file : ifstream :=
  {| is_open := true; good := true; first_line := None |}.

(** A system whose only file is [path], which opens and cannot be read. *)
Definition unreadable_file_system (path : string) : System :=
  {| fs_exists := String.eqb path;
     fs_is_directory := fun _ => false;
     fs_directory_iterator := fun _ => [];
     fs_open := fun p => if String.eqb p path then unreadable_file else no_file;
     sysctlbyname := fun _ => None |}.

(** What holds of a [std::ifstream] right after its construction from a
    path: a path that does not exist does not open, and a stream that opened
    is in a good state. *)
Definition streams_as_opened (os : System) : Prop :=
  forall p,
    (fs_exists os p = false -> is_open (fs_open os p) = false)
    /\ (is_open (fs_open os p) = true -> good (fs_open os p) = true).

(** Why a resolved path [p] cannot serve as the sensor source: (a) it does
    not exist, (b) it exists and cannot be opened, (c) it opens and the first
    read fails. *)
Inductive failure_reason : Type :=
  | no_candidate_exists
  | exists_cannot_open
  | opens_first_read_fails.

Definition reason_of (os : System) (p : string) : option failure_reason :=
  if negb (fs_exists os p) then Some no_candidate_exists
  else if negb (is_open (fs_open os p)) then Some exists_cannot_open
  else match first_line (fs_open os p) with
       | None => Some opens_first_read_fails
       | Some _ => None
       end.

(** "Construction fails [...] when: (a) no candidate path exists, (b) a
    candidate path exists but cannot be opened, (c) a candidate path opens
    but the first read fails": each of the three reasons makes the
    constructor throw. *)
Definition construction_fails_for_each_reason : Prop :=
  forall os config st p r,
    streams_as_opened os ->
    sensor_type_of_config config = Return st ->
    resolve_file_path os config st = Return p ->
    reason_of os p = Some r ->
    exists e, Temperature_new Linux os config = Throw e.

(** "[...] with a descriptive, distinguishable error": two constructions
    failing for different reasons throw different errors. *)
Definition distinguishable_failures : Prop :=
  forall os1 os2 config1 config2 st1 st2 p1 p2 r1 r2 e1 e2,
    streams_as_opened os1 ->
    streams_as_opened os2 ->
    sensor_type_of_config config1 = Return st1 ->
    sensor_type_of_config config2 = Return st2 ->
    resolve_file_path os1 config1 st1 = Return p1 ->
    resolve_file_path os2 config2 st2 = Return p2 ->
    reason_of os1 p1 = Some r1 ->
    reason_of os2 p2 = Some r2 ->
    Temperature_new Linux os1 config1 = Throw e1 ->
    Temperature_new Linux os2 config2 = Throw e2 ->
    r1 <> r2 -> e1 <> e2.

(** [p] is one of the candidates configured under ["hwmon-path"]. *)
Definition configured_candidate (value : Json.Value) (p : string) : Prop :=
  value = Json.stringValue p
  \/ exists items, value = Json.arrayValue items /\ Json.stringValue p ∈ items.

(** "Whenever some configured hwmon-path candidate exists on the filesystem,
    that path is bound as the sensor source", on a system where every
    existing path opens in a good state: the constructor returns an object
    bound to an existing candidate. *)
Definition existing_candidate_is_bound : Prop :=
  forall os config p,
    configured_candidate (Json.member config "hwmon-path") p ->
    fs_exists os p = true ->
    (forall q, fs_exists os q = true ->
       is_open (fs_open os q) = true /\ good (fs_open os q) = true) ->
    exists self,
      Temperature_new Linux os config = Return self
      /\ configured_candidate (Json.member config "hwmon-path") (file_path_ self)
      /\ fs_exists os (file_path_ self) = true.

(** ["hwmon-path"] yields nothing: it is neither a string nor an array, or a
    string naming no existing path, or an array whose items all convert to
    strings none of which names an existing path. *)
Definition hwmon_path_yields_nothing (os : System) (value : Json.Value) : Prop :=
  (Json.isString value = false /\ Json.isArray value = false)
  \/ (exists p, value = Json.stringValue p /\ fs_exists os p = false)
  \/ (exists items paths,
        value = Json.arrayValue items
        /\ as_strings items = Return paths
        /\ Forall (fun q => fs_exists os q = false) paths).


(** "On the BSD-style platform, requesting any sensor kind other than
    Temperature causes a fatal error at construction time." *)
Definition unsupported_kind_fails_at_construction : Prop :=
  forall os config type,
    Json.member config "type" = Json.stringValue type ->
    type = "fan"%string \/ type = "power"%string ->
    exists e, Temperature_new FreeBSD os config = Throw e.

(** "A tick whose source line does not parse as a base-10 integer raises an
    error and produces no reading." *)
Definition malformed_line_raises : Prop :=
  forall os self line,
    is_open (fs_open os (file_path_ self)) = true ->
    good (fs_open os (file_path_ self)) = true ->
    first_line (fs_open os (file_path_ self)) = Some line ->
    is_base10_integer line = false ->
    exists e, getReadings Linux os self = Throw e.

(** "Celsius = round(r/1000), Fahrenheit = round(r/1000 * 1.8 + 32) and
    Kelvin = round(r/1000 + 273.15)" for the raw value [r]. *)
Definition units_from_unrounded_celsius (r : Z) : Prop :=
  temperature_c (rendered_units TEMPERATURE r) = spec_celsius r
  /\ temperature_f (rendered_units TEMPERATURE r) = spec_fahrenheit r
  /\ temperature_k (rendered_units TEMPERATURE r) = spec_kelvin r.

(** "raw = 1,250,000 yields Watts = 1, and raw = 999,999 yields Watts = 0." *)
Definition watts_examples : Prop :=
  power (rendered_units POWER 1250000) = 1
  /\ power (rendered_units POWER 999999) = 0.

(** ** Round to nearest, ties to even, of a quotient of integers *)

Definition rne_div (N D : Z) : Z :=
  let (q, r) := Z.div_eucl N D in
  match 2 * r ?= D with
  | Lt => q
  | Eq => if Z.even q then q else q + 1
  | Gt => q + 1
  end.

(** The binary float of precision [prec] with sign [s] and value
    [M * 2 ^ E], for a mantissa [M] between [2 ^ (prec - 1)] and [2 ^ prec]
    inclusive: a mantissa that reached [2 ^ prec] moves to the next
    exponent. *)
Definition normal_float (prec : Z) (s : bool) (M E : Z) : spec_float :=
  if M <? 2 ^ prec then S754_finite s (Z.to_pos M) E
  else S754_finite s (Z.to_pos (2 ^ (prec - 1))) (E + 1).

(** The reading of a sensor whose raw value [r] is divided by [c]:
    [r / c] computed in [double] and returned as [float]. *)
Definition quotient_reading (c r : Z) : spec_float :=
  Float.float_of_double (Float.ddiv (Float.double_of_Z r) (Float.double_of_Z c)).

(** ** Bounded checks by evaluation *)

Fixpoint all_from (P : Z -> bool) (lo : Z) (n : nat) : bool :=
  match n with
  | O => true
  | S n' => P lo && all_from P (lo + 1) n'
  end.

Definition all_below (P : Z -> bool) (n : Z) : bool := all_from P 0 (Z.to_nat n).

(** The binary64 quotient [r / c] of two positive integers, from numbers no
    longer than needed: the exponent [t] is chosen so that the quotient has 53
    digits. *)
Definition scaled_quotient (c r : Z) : spec_float :=
  let dr := Zdigits2 r in
  let dc := Zdigits2 c in
  let t := if r * 2 ^ dc <? c * 2 ^ dr then dr else dr + 1 in
  normal_float 53 false (rne_div (r * 2 ^ (53 + dc - t)) c) (t - dc - 53).

(** For a divisor [c = 2 * h]: the last raw value that should round to [k]
    does, and the first that should round to [k + 1] does. *)
Definition rounds_at (c k : Z) : bool :=
  (Float.round (Float.float_of_double (scaled_quotient c (c * k + c / 2 - 1))) =? k)
  && (Float.round (Float.float_of_double (scaled_quotient c (c * (k + 1) - c / 2)))
      =? k + 1).

(** Fahrenheit and Kelvin as [update] computes them in [double], against the
    exact values for the Celsius value [c]. *)
Definition derived_units_agree (c : Z) : bool :=
  (fahrenheit c =? (18 * c + 325) / 10) && (kelvin c =? c + 273).

(** The reading of the claims: the raw value converted to the unit of the
    sensor kind and rounded to the nearest integer, without any bound. *)
Definition true_reading (sensor_type : SensorType) (r : Z) : Z :=
  match sensor_type with
  | TEMPERATURE => spec_celsius r
  | FAN => r
  | POWER => spec_watts r
  end.

(** The raw values for which [float] holds the converted reading precisely
    enough for it to round as the exact quotient does. *)
Definition in_exact_range (sensor_type : SensorType) (r : Z) : Prop :=
  match sensor_type with
  | TEMPERATURE => -32767500 < r < 32767500
  | FAN => - 2 ^ 24 < r < 2 ^ 24
  | POWER => -31500000 < r < 31500000
  end.

(** ** Further sample systems *)

Definition hwmon_entry (dir name : string) : directory_entry :=
  {| path_string := dir +:+ "/" +:+ name; filename_string := name |}.

(** A system whose only directory is [dir], holding the entries [names]; every
    file below it opens and delivers [line]. *)
Definition directory_system (dir : string) (names : list string) (line : string) : System :=
  {| fs_exists := fun p => String.prefix dir p;
     fs_is_directory := String.eqb dir;
     fs_directory_iterator := fun p =>
       if String.eqb p dir then List.map (hwmon_entry dir) names else [];
     fs_open := fun p => if String.prefix dir p then sensor_file line else no_file;
     sysctlbyname := fun _ => None |}.

(** A system without files where the [sysctl] variable [name] reads [temp]. *)
Definition sysctl_system (name : string) (temp : Z) : System :=
  {| fs_exists := fun _ => false;
     fs_is_directory := fun _ => false;
     fs_directory_iterator := fun _ => [];
     fs_open := fun _ => no_file;
     sysctlbyname := fun n => if String.eqb n name then Some temp else None |}.

(** A machine with the coretemp driver: its hwmon directory holds a file and
    two hwmon entries.  The configuration names a directory that is not there,
    the hwmon directory, and an array where a path is expected. *)
Definition coretemp_dir : string := "/sys/devices/platform/coretemp.0/hwmon".

Definition coretemp_system : System :=
  directory_system coretemp_dir ["uevent"; "hwmon4"; "hwmon5"]%string "45000".

Definition coretemp_config : Config :=
  {[ "input-filename"%string := Json.stringValue "temp1_input";
     "hwmon-path-abs"%string :=
       Json.arrayValue [ Json.stringValue "/nowhere";
                         Json.stringValue coretemp_dir;
                         Json.arrayValue [] ] ]}.

(** Configurations whose ["hwmon-path"] mixes items of several kinds. *)
Definition mixed_paths_config : Config :=
  {[ "hwmon-path"%string :=
       Json.arrayValue [ Json.intValue 7; Json.stringValue sample_path;
                         Json.arrayValue [] ] ]}.

Definition nested_paths_config : Config :=
  {[ "hwmon-path"%string :=
       Json.arrayValue [ Json.arrayValue []; Json.stringValue sample_path ] ]}.

(** The FreeBSD reading in exact arithmetic: the [sysctl] value counts tenths
    of a kelvin, [(temp - 2732) / 10] is rounded to the nearest integer. *)
Definition freebsd_celsius (temp : Z) : Z := Qround_half_away ((temp - 2732) # 10).

Definition freebsd_object (config : Config) : Temperature :=
  {| config_ := config; format_ := ALabel_format config default_format;
     sensor_type_ := TEMPERATURE; file_path_ := "" |}.

(** The number written by the decimal digits [u], read onto [acc]. *)
Fixpoint uint_value (acc : Z) (u : Decimal.uint) : Z :=
  match u with
  | Decimal.Nil => acc
  | Decimal.D0 u' => uint_value (10 * acc + 0) u'
  | Decimal.D1 u' => uint_value (10 * acc + 1) u'
  | Decimal.D2 u' => uint_value (10 * acc + 2) u'
  | Decimal.D3 u' => uint_value (10 * acc + 3) u'
  | Decimal.D4 u' => uint_value (10 * acc + 4) u'
  | Decimal.D5 u' => uint_value (10 * acc + 5) u'
  | Decimal.D6 u' => uint_value (10 * acc + 6) u'
  | Decimal.D7 u' => uint_value (10 * acc + 7) u'
  | Decimal.D8 u' => uint_value (10 * acc + 8) u'
  | Decimal.D9 u' => uint_value (10 * acc + 9) u'
  end.

(** The least raw value that meets a threshold of [t] units, and the raw
    values up to which the reading is exact and fits 16 bits, by kind. *)
Definition raw_threshold (sensor_type : SensorType) (t : Z) : Z :=
  match sensor_type with
  | TEMPERATURE => 1000 * t - 500
  | FAN => t
  | POWER => 1000000 * t - 500000
  end.

Definition raw_limit (sensor_type : SensorType) : Z :=
  match sensor_type with
  | TEMPERATURE => 32767500
  | FAN => 65536
  | POWER => 31500000
  end.

(** A machine on which every way to a sensor is open: the file of
    [sample_path], the coretemp directory with its hwmon entries, and the
    file of thermal zone 0, each delivering a line.  The configuration names
    all three, and lists under ["hwmon-path"] a number, the existing path and
    an array. *)
Definition on_full_system (p : string) : bool :=
  String.eqb p sample_path || String.prefix coretemp_dir p
  || String.eqb p (thermal_zone_path 0).

Definition full_system : System :=
  {| fs_exists := on_full_system;
     fs_is_directory := String.eqb coretemp_dir;
     fs_directory_iterator := fun p =>
       if String.eqb p coretemp_dir
       then List.map (hwmon_entry coretemp_dir) ["uevent"; "hwmon4"; "hwmon5"]%string
       else [];
     fs_open := fun p => if on_full_system p then sensor_file "45000" else no_file;
     sysctlbyname := fun _ => None |}.

Definition full_config : Config :=
  {[ "hwmon-path"%string :=
       Json.arrayValue [ Json.intValue 7; Json.stringValue sample_path;
                         Json.arrayValue [] ];
     "hwmon-path-abs"%string := Json.stringValue coretemp_dir;
     "input-filename"%string := Json.stringValue "temp1_input";
     "thermal-zone"%string := Json.intValue 0 ]}.

(** The same configuration without ["hwmon-path"], and without the scan
    either. *)
Definition scan_config : Config :=
  {[ "hwmon-path-abs"%string := Json.stringValue coretemp_dir;
     "input-filename"%string := Json.stringValue "temp1_input";
     "thermal-zone"%string := Json.intValue 0 ]}.

Definition zone_config : Config :=
  {[ "thermal-zone"%string := Json.intValue 0 ]}.

(** A temperature sensor with a template of its own for each state. *)
Definition themed_config : Config :=
  {[ "hwmon-path"%string := Json.stringValue sample_path;
     "warning-threshold"%string := Json.intValue 60;
     "critical-threshold"%string := Json.intValue 80;
     "format-warning"%string := Json.stringValue "WARM {temperatureC}";
     "format-critical"%string := Json.stringValue "HOT {temperatureC}" ]}.

Definition themed_object : Temperature :=
  {| config_ := themed_config; format_ := default_format;
     sensor_type_ := TEMPERATURE; file_path_ := sample_path |}.

(** * Properties *)

(** ** Fixed-width integers *)

Lemma int_of_rounded_small (z : Z) :
  INT_MIN <= z <= INT_MAX -> int_of_rounded z = z.
Proof.
  unfold int_of_rounded. intros H.
  destruct (Z.leb_spec INT_MIN z), (Z.leb_spec z INT_MAX); simpl; lia.
Qed.

Lemma uint16_of_rounded_small (x : spec_float) :
  INT_MIN <= Float.round x <= INT_MAX ->
  uint16_of_rounded x = Float.round x mod 65536.
Proof.
  intros H. unfold uint16_of_rounded, uint16_of_Z. now rewrite int_of_rounded_small.
Qed.

(** ** Construction *)

Lemma is_empty_true (s : string) : is_empty s = true <-> s = ""%string.
Proof. destruct s; simpl; split; congruence. Qed.

Lemma is_empty_false (s : string) : is_empty s = false <-> s <> ""%string.
Proof. destruct s; simpl; split; congruence. Qed.

Lemma is_empty_append_slash (a b : string) : is_empty (a +:+ "/" +:+ b) = false.
Proof. destruct a; reflexivity. Qed.

Lemma traverse_items_hwmon_path os items candidates :
  as_strings items = Return candidates ->
  traverse_items (check_hwmon_path os) items
  = Return (List.find (fs_exists os) candidates).
Proof.
  revert candidates. induction items as [|item rest IH]; intros candidates Hc; simpl in *.
  - injection Hc as <-. reflexivity.
  - destruct (Json.asString item) as [s|e]; simpl in *; [|discriminate].
    destruct (as_strings rest) as [l|e]; simpl in *; [|discriminate].
    injection Hc as <-. simpl. unfold check_hwmon_path at 1.
    destruct (fs_exists os s); simpl; [reflexivity|]. now apply IH.
Qed.

Lemma traverseAsArray_hwmon_path os value candidates :
  configured_paths value = Return candidates ->
  traverseAsArray value (check_hwmon_path os)
  = Return (List.find (fs_exists os) candidates).
Proof.
  destruct value as [|z|s|items]; simpl; intros Hc.
  - injection Hc as <-. reflexivity.
  - injection Hc as <-. reflexivity.
  - injection Hc as <-. unfold traverseAsArray; simpl. unfold check_hwmon_path.
    destruct (fs_exists os s); reflexivity.
  - unfold traverseAsArray; simpl. now apply traverse_items_hwmon_path.
Qed.

Lemma sensor_type_of_config_returns config :
  exists st, sensor_type_of_config config = Return st.
Proof.
  unfold sensor_type_of_config.
  destruct (Json.member config "type") as [|z|s|items]; simpl; eauto.
Qed.

Lemma check_hwmon_path_abs_nonempty os f path q :
  check_hwmon_path_abs os f path = Some q -> is_empty q = false.
Proof.
  unfold check_hwmon_path_abs. destruct (negb _); [discriminate|].
  destruct (List.find _ _); [|discriminate].
  intros [= <-]. apply is_empty_append_slash.
Qed.

Lemma traverse_items_abs_nonempty os f items q :
  traverse_items (check_hwmon_path_abs os f) items = Return (Some q) ->
  is_empty q = false.
Proof.
  induction items as [|item rest IH]; simpl; [discriminate|].
  destruct (Json.asString item) as [s|e]; simpl; [|discriminate].
  destruct (check_hwmon_path_abs os f s) eqn:E.
  - intros [= <-]. eapply check_hwmon_path_abs_nonempty; eauto.
  - exact IH.
Qed.

Lemma traverseAsArray_abs_nonempty os f value q :
  traverseAsArray value (check_hwmon_path_abs os f) = Return (Some q) ->
  is_empty q = false.
Proof.
  unfold traverseAsArray. destruct value as [|z|s|items]; simpl; try discriminate.
  - intros [= H]. eapply check_hwmon_path_abs_nonempty; eauto.
  - apply traverse_items_abs_nonempty.
Qed.

Lemma traverse_items_skips check (items1 : list Json.Value) (paths1 : list string)
    (rest : list Json.Value) :
  as_strings items1 = Return paths1 ->
  Forall (fun q => check q = None) paths1 ->
  traverse_items check (items1 ++ rest) = traverse_items check rest.
Proof.
  revert paths1. induction items1 as [|item items1 IH]; intros paths1 Hs Hn; simpl in *.
  - reflexivity.
  - destruct (Json.asString item) as [s|e]; simpl in *; [|discriminate].
    destruct (as_strings items1) as [l|e]; simpl in *; [|discriminate].
    injection Hs as <-. inversion Hn as [|? ? Hq Hl]; subst.
    rewrite Hq. now apply (IH l).
Qed.

Lemma check_hwmon_path_missing os (paths : list string) :
  Forall (fun q => fs_exists os q = false) paths ->
  Forall (fun q => check_hwmon_path os q = None) paths.
Proof.
  intros H. eapply Forall_impl; [exact H|].
  intros q Hq. unfold check_hwmon_path. now rewrite Hq.
Qed.

Lemma hwmon_path_yields_nothing_traverse os value :
  hwmon_path_yields_nothing os value ->
  traverseAsArray value (check_hwmon_path os) = Return None.
Proof.
  unfold traverseAsArray.
  intros [[Hs Ha] | [(p & -> & Hp) | (items & paths & -> & Hs & Hn)]].
  - now rewrite Hs, Ha.
  - simpl. unfold check_hwmon_path. now rewrite Hp.
  - simpl. rewrite <- (app_nil_r items).
    rewrite (traverse_items_skips _ _ paths [] Hs); [reflexivity|].
    now apply check_hwmon_path_missing.
Qed.

Lemma first_existing_traverse os value items1 paths1 item p items2 :
  value = Json.stringValue p /\ items1 = []
  \/ value = Json.arrayValue (items1 ++ item :: items2)
     /\ Json.asString item = Return p ->
  as_strings items1 = Return paths1 ->
  Forall (fun q => fs_exists os q = false) paths1 ->
  fs_exists os p = true ->
  traverseAsArray value (check_hwmon_path os) = Return (Some p).
Proof.
  intros Hv Hs Hn Hp. unfold traverseAsArray.
  destruct Hv as [[-> _] | [-> Hi]]; simpl.
  - unfold check_hwmon_path. now rewrite Hp.
  - rewrite (traverse_items_skips _ _ paths1 _ Hs) by now apply check_hwmon_path_missing.
    simpl. rewrite Hi. simpl. unfold check_hwmon_path at 1. now rewrite Hp.
Qed.

(** C5 (as amended): the items of ["hwmon-path"] are gone through first and
    in order, each converted to a string.  When the items before the first
    one naming an existing (non-empty) path all convert, that path is the
    resolved source for every sensor kind, whatever follows it in the list
    and whatever ["hwmon-path-abs"], ["input-filename"] and ["thermal-zone"]
    hold: it is bound when it opens in a good state, and when it does not
    open construction fails, without any fallback.  The directory scan
    decides only when ["hwmon-path"] yields nothing, and the thermal-zone
    path is used only when the scan gives nothing either. *)
Theorem hwmon_path_resolution_order os config :
  (forall items1 paths1 item p items2,
     Json.member config "hwmon-path" = Json.stringValue p /\ items1 = []
     \/ Json.member config "hwmon-path" = Json.arrayValue (items1 ++ item :: items2)
        /\ Json.asString item = Return p ->
     as_strings items1 = Return paths1 ->
     Forall (fun q => fs_exists os q = false) paths1 ->
     fs_exists os p = true ->
     p <> ""%string ->
     (forall sensor_type, resolve_file_path os config sensor_type = Return p)
     /\ (is_open (fs_open os p) = true -> good (fs_open os p) = true ->
         exists self, Temperature_new Linux os config = Return self
                      /\ file_path_ self = p)
     /\ (is_open (fs_open os p) = false ->
         Temperature_new Linux os config
         = Throw (runtime_error ("Can't open " +:+ p))))
  /\ (hwmon_path_yields_nothing os (Json.member config "hwmon-path") ->
      forall sensor_type,
        (forall f q,
           Json.member config "input-filename" = Json.stringValue f ->
           traverseAsArray (Json.member config "hwmon-path-abs")
             (check_hwmon_path_abs os f) = Return (Some q) ->
           resolve_file_path os config sensor_type = Return q)
        /\ (Json.isString (Json.member config "input-filename") = false
            \/ (exists f, Json.member config "input-filename" = Json.stringValue f
                          /\ traverseAsArray (Json.member config "hwmon-path-abs")
                               (check_hwmon_path_abs os f) = Return None) ->
            resolve_file_path os config sensor_type
            = Return (if bool_decide (sensor_type = TEMPERATURE)
                      then thermal_zone_path (thermal_zone config) else ""%string))).
Proof.
  split.
  - intros items1 paths1 item p items2 Hv Hs Hn Hp Hne.
    pose proof (first_existing_traverse os _ _ _ _ _ _ Hv Hs Hn Hp) as Ht.
    apply is_empty_false in Hne.
    assert (Hres : forall st, resolve_file_path os config st = Return p).
    { intros st. unfold resolve_file_path. rewrite Ht. simpl.
      now rewrite Hne; simpl; rewrite Hne. }
    destruct (sensor_type_of_config_returns config) as [st Hst].
    split; [exact Hres|]. split.
    + intros Ho Hg. unfold Temperature_new. rewrite Hst. simpl. rewrite (Hres st). simpl.
      rewrite Ho, Hg. simpl. eexists. split; reflexivity.
    + intros Ho. unfold Temperature_new. rewrite Hst. simpl. rewrite (Hres st). simpl.
      now rewrite Ho.
  - intros Hnone sensor_type.
    pose proof (hwmon_path_yields_nothing_traverse os _ Hnone) as Ht. split.
    + intros f q Hf Hq. unfold resolve_file_path. rewrite Ht, Hf. simpl.
      rewrite Hq. simpl. rewrite (traverseAsArray_abs_nonempty _ _ _ _ Hq). reflexivity.
    + intros Habs. unfold resolve_file_path. rewrite Ht. simpl.
      destruct Habs as [Hf | (f & Hf & Hq)].
      * rewrite Hf. simpl. destruct (bool_decide _); reflexivity.
      * rewrite Hf. simpl. rewrite Hq. simpl. destruct (bool_decide _); reflexivity.
Qed.

Lemma hwmon_path_resolution_order_witness :
  (exists self, Temperature_new Linux full_system full_config = Return self
                /\ file_path_ self = sample_path)
  /\ resolve_file_path full_system scan_config TEMPERATURE
     = Return (coretemp_dir +:+ "/hwmon4/temp1_input")
  /\ resolve_file_path full_system zone_config TEMPERATURE
     = Return (thermal_zone_path 0).
Proof.
  split; [|split].
  - destruct (proj1 (hwmon_path_resolution_order full_system full_config)
                [Json.intValue 7] ["7"%string] (Json.stringValue sample_path)
                sample_path [Json.arrayValue []])
      as (_ & Hbound & _).
    + right. split; [vm_compute; reflexivity | reflexivity].
    + reflexivity.
    + constructor; [reflexivity | constructor].
    + reflexivity.
    + discriminate.
    + apply Hbound; reflexivity.
  - apply (proj1 (proj2 (hwmon_path_resolution_order full_system scan_config)
                    ltac:(left; split; vm_compute; reflexivity) TEMPERATURE)
             "temp1_input"%string).
    + vm_compute. reflexivity.
    + vm_compute. reflexivity.
  - apply (proj2 (proj2 (hwmon_path_resolution_order full_system zone_config)
                    ltac:(left; split; vm_compute; reflexivity) TEMPERATURE)).
    left. vm_compute. reflexivity.
Defined.

(** C5, as stated, fails: with ["hwmon-path"] holding an array and then an
    existing path, a configured candidate exists, opens and is good, and the
    constructor binds nothing: it ends with the error of the conversion of
    the first item. *)
Lemma existing_candidate_not_always_bound : ~ existing_candidate_is_bound.
Proof.
  intros H.
  destruct (H (single_file_system sample_path "45000") nested_paths_config sample_path)
    as (self & Hself & _).
  - right. exists [Json.arrayValue []; Json.stringValue sample_path].
    split; [vm_compute; reflexivity|].
    apply list_elem_of_further, list_elem_of_here.
  - reflexivity.
  - intros q Hq. change (String.eqb sample_path q = true) in Hq.
    apply String.eqb_eq in Hq. subst q. split; reflexivity.
  - vm_compute in Hself. discriminate Hself.
Qed.

Lemma cant_open_is_not_cant_read (p p' : string) :
  runtime_error ("Can't open " +:+ p) <> runtime_error ("Can't read from " +:+ p').
Proof. cbv [String.append]. discriminate. Qed.

Lemma cant_open_names_the_path (p p' : string) :
  runtime_error ("Can't open " +:+ p) = runtime_error ("Can't open " +:+ p') -> p = p'.
Proof. cbv [String.append]. fold String.append. congruence. Qed.

(** C8 (as amended): the constructor tests the stream it opened and reads
    nothing from it.  A resolved path that does not open makes it throw
    "Can't open <path>", the same error whether the path is missing or is
    there and cannot be opened; the error names the path and nothing else.
    A path that opens in a good state constructs the object, whatever a
    first read would give, a failure included.  The second test, for a
    stream that opened and is not good, throws "Can't read from <path>",
    which no "Can't open" error equals. *)
Theorem construction_fails_when_not_open os config sensor_type p :
  sensor_type_of_config config = Return sensor_type ->
  resolve_file_path os config sensor_type = Return p ->
  (is_open (fs_open os p) = false ->
   Temperature_new Linux os config = Throw (runtime_error ("Can't open " +:+ p)))
  /\ (is_open (fs_open os p) = true -> good (fs_open os p) = true ->
      Temperature_new Linux os config
      = Return {| config_ := config; format_ := ALabel_format config default_format;
                  sensor_type_ := sensor_type; file_path_ := p |})
  /\ (is_open (fs_open os p) = true -> good (fs_open os p) = false ->
      Temperature_new Linux os config
      = Throw (runtime_error ("Can't read from " +:+ p)))
  /\ (forall p',
        runtime_error ("Can't open " +:+ p) = runtime_error ("Can't open " +:+ p') ->
        p = p')
  /\ (forall p',
        runtime_error ("Can't open " +:+ p) <> runtime_error ("Can't read from " +:+ p')).
Proof.
  intros Hst Hp.
  assert (E : Temperature_new Linux os config
              = if negb (is_open (fs_open os p)) then
                  Throw (runtime_error ("Can't open " +:+ p))
                else if negb (good (fs_open os p)) then
                  Throw (runtime_error ("Can't read from " +:+ p))
                else
                  Return {| config_ := config;
                            format_ := ALabel_format config default_format;
                            sensor_type_ := sensor_type; file_path_ := p |}).
  { unfold Temperature_new. rewrite Hst. simpl. rewrite Hp. reflexivity. }
  rewrite E. repeat split.
  - now intros ->.
  - now intros -> ->.
  - now intros -> ->.
  - apply cant_open_names_the_path.
  - apply cant_open_is_not_cant_read.
Qed.

Lemma construction_fails_when_not_open_witness :
  Temperature_new Linux empty_system zone_config
  = Throw (runtime_error ("Can't open " +:+ thermal_zone_path 0))
  /\ Temperature_new Linux (unopenable_file_system (thermal_zone_path 0)) zone_config
     = Throw (runtime_error ("Can't open " +:+ thermal_zone_path 0))
  /\ Temperature_new Linux (unreadable_file_system (thermal_zone_path 0)) zone_config
     = Return {| config_ := zone_config;
                 format_ := ALabel_format zone_config default_format;
                 sensor_type_ := TEMPERATURE; file_path_ := thermal_zone_path 0 |}.
Proof.
  split; [|split].
  - apply (construction_fails_when_not_open empty_system zone_config TEMPERATURE
             (thermal_zone_path 0)); vm_compute; reflexivity.
  - apply (construction_fails_when_not_open (unopenable_file_system (thermal_zone_path 0))
             zone_config TEMPERATURE (thermal_zone_path 0)); vm_compute; reflexivity.
  - apply (construction_fails_when_not_open (unreadable_file_system (thermal_zone_path 0))
             zone_config TEMPERATURE (thermal_zone_path 0)); vm_compute; reflexivity.
Defined.

Lemma streams_as_opened_empty_system : streams_as_opened empty_system.
Proof. intros p. split; [reflexivity | discriminate]. Qed.

Lemma streams_as_opened_unopenable (path : string) :
  streams_as_opened (unopenable_file_system path).
Proof. intros p. split; [reflexivity | discriminate]. Qed.

Lemma streams_as_opened_unreadable (path : string) :
  streams_as_opened (unreadable_file_system path).
Proof.
  intros p. simpl. rewrite (String.eqb_sym p path).
  destruct (String.eqb path p); split; try reflexivity; discriminate.
Qed.

(** C8, as stated, fails twice.  A path that opens and whose first read
    fails constructs without any error.  And with nothing but the thermal
    zone to go by, a system without the thermal-zone file (no candidate
    exists) and a system where that file exists and cannot be opened make
    the constructor throw the same error. *)
Lemma construction_failures_not_as_claimed :
  ~ construction_fails_for_each_reason /\ ~ distinguishable_failures.
Proof.
  split.
  - intros H.
    destruct (H (unreadable_file_system (thermal_zone_path 0)) zone_config TEMPERATURE
                (thermal_zone_path 0) opens_first_read_fails
                (streams_as_opened_unreadable _)) as [e He]; try (vm_compute; reflexivity).
    vm_compute in He. discriminate He.
  - intros H.
    refine (H empty_system (unopenable_file_system (thermal_zone_path 0))
              zone_config zone_config
              TEMPERATURE TEMPERATURE (thermal_zone_path 0) (thermal_zone_path 0)
              no_candidate_exists exists_cannot_open
              (runtime_error ("Can't open " +:+ thermal_zone_path 0))
              (runtime_error ("Can't open " +:+ thermal_zone_path 0))
              streams_as_opened_empty_system (streams_as_opened_unopenable _)
              _ _ _ _ _ _ _ _ _ _); try (vm_compute; reflexivity).
    discriminate.
Qed.

(** ** The FreeBSD build *)

(** C6 (as amended): on FreeBSD the constructor checks nothing and always
    returns an object; the rejection of a kind other than TEMPERATURE is in
    [getReadings], which throws on every call for an object of kind FAN or
    POWER, whatever the sensors of the system answer. *)
Theorem freebsd_kind_check_is_in_getReadings os config format path :
  (exists self, Temperature_new FreeBSD os config = Return self)
  /\ getReadings FreeBSD os
       {| config_ := config; format_ := format; sensor_type_ := FAN; file_path_ := path |}
     = Throw (runtime_error "Only temperature sensor reading is supported in FreeBSD")
  /\ getReadings FreeBSD os
       {| config_ := config; format_ := format; sensor_type_ := POWER; file_path_ := path |}
     = Throw (runtime_error "Only temperature sensor reading is supported in FreeBSD").
Proof.
  split; [|split]; try reflexivity.
  unfold Temperature_new. eexists. reflexivity.
Qed.

(** C6, as stated, fails: a configuration asking for a fan sensor is
    constructed without error on FreeBSD. *)
Lemma freebsd_fan_constructs : ~ unsupported_kind_fails_at_construction.
Proof.
  intros H.
  destruct (H empty_system (sample_config "fan") "fan"%string eq_refl (or_introl eq_refl))
    as [e He].
  discriminate He.
Qed.

(** ** Reading the sensor file *)

Lemma leading_digits_no_digit acc s :
  starts_with_digit s = false -> leading_digits acc s = acc.
Proof.
  destruct s as [|c s']; simpl; [reflexivity|].
  destruct (digit_value c); [discriminate | reflexivity].
Qed.

Lemma saturate_long_0 : saturate_long 0 = 0.
Proof. reflexivity. Qed.

Lemma strtol_no_integer_prefix s : has_integer_prefix s = false -> strtol s = 0.
Proof.
  unfold has_integer_prefix, strtol.
  destruct (skip_spaces s) as [|c s']; [reflexivity|].
  destruct (Ascii.eqb_spec c "-"%char) as [->|Hm].
  { intros H. now rewrite (leading_digits_no_digit _ _ H). }
  destruct (Ascii.eqb_spec c "+"%char) as [->|Hp].
  { intros H. now rewrite (leading_digits_no_digit _ _ H). }
  intros H.
  assert (E : leading_digits 0 (String c s') = 0).
  { apply leading_digits_no_digit.
    destruct c as [[] [] [] [] [] [] [] []]; try exact H; congruence. }
  destruct c as [[] [] [] [] [] [] [] []]; try (rewrite E; reflexivity); congruence.
Qed.

Lemma leading_digits_garbage t :
  starts_with_digit t = false ->
  forall s acc, all_digits s = true ->
  leading_digits acc (s +:+ t) = leading_digits acc s.
Proof.
  intros Ht. induction s as [|c s IH]; intros acc Hs; simpl.
  - now apply leading_digits_no_digit.
  - simpl in Hs. destruct (digit_value c); [|discriminate]. now apply IH.
Qed.

Lemma digit_not_space c d : digit_value c = Some d -> isspace c = false.
Proof.
  unfold digit_value, isspace.
  destruct (_ && _) eqn:E; [|discriminate]. intros _. lia.
Qed.

Lemma strtol_ignores_garbage s t :
  is_base10_integer s = true -> starts_with_digit t = false ->
  strtol (s +:+ t) = strtol s.
Proof.
  intros Hs Ht. destruct s as [|c s']; [discriminate|].
  assert (Hsp : isspace c = false).
  { destruct (Ascii.eqb_spec c "-"%char) as [->|]; [reflexivity|].
    destruct (Ascii.eqb_spec c "+"%char) as [->|]; [reflexivity|].
    assert (Hd : all_digits (String c s') = true).
    { destruct c as [[] [] [] [] [] [] [] []]; try exact Hs; congruence. }
    simpl in Hd. destruct (digit_value c) eqn:E; [|discriminate].
    eapply digit_not_space; eauto. }
  unfold strtol. change (String c s' +:+ t) with (String c (s' +:+ t)).
  simpl skip_spaces. rewrite Hsp.
  destruct (Ascii.eqb_spec c "-"%char) as [->|Hm].
  { simpl in Hs. apply andb_prop in Hs as [_ Hs]. now rewrite leading_digits_garbage. }
  destruct (Ascii.eqb_spec c "+"%char) as [->|Hp].
  { simpl in Hs. apply andb_prop in Hs as [_ Hs]. now rewrite leading_digits_garbage. }
  assert (Hd : all_digits (String c s') = true).
  { destruct c as [[] [] [] [] [] [] [] []]; try exact Hs; congruence. }
  assert (E : leading_digits 0 (String c (s' +:+ t)) = leading_digits 0 (String c s')).
  { change (String c (s' +:+ t)) with (String c s' +:+ t).
    now apply leading_digits_garbage. }
  destruct c as [[] [] [] [] [] [] [] []]; try (rewrite E; reflexivity); congruence.
Qed.

(** C7 (as amended): a line that is not a base-10 integer raises nothing.
    Once the file is open and good, [getReadings] returns a reading for every
    line: the conversion of what [strtol] makes of it, which is 0 when no
    number starts the line, and the leading integer when text follows one. *)
Theorem malformed_line_is_read_as_number os self line :
  is_open (fs_open os (file_path_ self)) = true ->
  good (fs_open os (file_path_ self)) = true ->
  first_line (fs_open os (file_path_ self)) = Some line ->
  getReadings Linux os self
  = Return (convert_reading (sensor_type_ self) (strtol line))
  /\ (has_integer_prefix line = false -> strtol line = 0)
  /\ (forall s t, line = s +:+ t -> is_base10_integer s = true ->
        starts_with_digit t = false -> strtol line = strtol s).
Proof.
  intros Ho Hg Hl. split; [|split].
  - unfold getReadings, getline. now rewrite Ho, Hg, Hl.
  - apply strtol_no_integer_prefix.
  - intros s t -> Hs Ht. now apply strtol_ignores_garbage.
Qed.

Lemma malformed_line_is_read_as_number_witness :
  getReadings Linux (single_file_system sample_path "45C")
    (sample_object TEMPERATURE "temperature")
  = Return (convert_reading TEMPERATURE (strtol "45C"))
  /\ strtol "45C" = strtol "45".
Proof.
  destruct (malformed_line_is_read_as_number
              (single_file_system sample_path "45C")
              (sample_object TEMPERATURE "temperature") "45C"
              eq_refl eq_refl eq_refl) as (H1 & _ & H3).
  split; [exact H1 | exact (H3 "45"%string "C"%string eq_refl eq_refl eq_refl)].
Defined.

(** C7, as stated, fails: the line "abc" is not a base-10 integer and
    [getReadings] returns the reading 0 for it. *)
Lemma malformed_line_yields_zero : ~ malformed_line_raises.
Proof.
  intros H.
  destruct (H (single_file_system sample_path "abc")
              (sample_object TEMPERATURE "temperature") "abc"%string
              eq_refl eq_refl eq_refl eq_refl) as [e He].
  discriminate He.
Qed.

(** ** Classification, classes and visibility *)

Lemma update_unfold platform os env self x w :
  getReadings platform os self = Return x ->
  update platform os env self w
  = (format ← classify self (isCritical self (uint16_of_rounded x))
                (isWarning self (uint16_of_rounded x));
     render env self (uint16_of_rounded x) format) w.
Proof. intros H. unfold update, lift, mbind, M_bind. now rewrite H. Qed.

Lemma classify_keeps_rest self critical warning w :
  exists classes format,
    classify self critical warning w
    = ({| style_classes := classes;
          event_box_visible := event_box_visible w;
          label_markup := label_markup w;
          label_tooltip_text := label_tooltip_text w |}, Return format).
Proof. destruct critical, warning; simpl; eauto. Qed.

(** The critical branch adds "critical" and removes nothing. *)
Lemma classify_critical_keeps_warning self warning w :
  "warning"%string ∈ style_classes w ->
  {[ "critical"%string; "warning"%string ]} ⊆ style_classes (classify self true warning w).1.
Proof.
  intros H. simpl. intros c Hc.
  apply elem_of_union in Hc as [Hc|Hc]; apply elem_of_singleton in Hc; subst c.
  - apply elem_of_union_l, elem_of_singleton. reflexivity.
  - apply elem_of_union_r, H.
Qed.

(** C3 fails on the code: a tick classified Warning (reading 65 against the
    thresholds 60 and 80) followed by a tick classified Critical (reading 85)
    leaves both "warning" and "critical" on the label. *)
Theorem warning_class_survives_critical_tick :
  let self := sample_object TEMPERATURE "temperature" in
  let w1 := (tick self "65000" fresh_widget).1 in
  let w2 := (tick self "85000" w1).1 in
  elements (style_classes w1) = [ "warning"%string ]
  /\ isCritical self 85 = true
  /\ elements (style_classes w2) = [ "warning"%string; "critical"%string ].
Proof. vm_compute. repeat split. Qed.

Lemma update_after_classify platform os env self x w w1 format :
  getReadings platform os self = Return x ->
  classify self (isCritical self (uint16_of_rounded x))
    (isWarning self (uint16_of_rounded x)) w = (w1, Return format) ->
  update platform os env self w = render env self (uint16_of_rounded x) format w1.
Proof.
  intros Hx Hc. rewrite (update_unfold _ _ _ _ _ _ Hx).
  unfold mbind at 1. unfold M_bind at 1. now rewrite Hc.
Qed.

Lemma render_keeps_classes env self readings format w :
  (forall w', style_classes (ALabel_update env w').1 = style_classes w') ->
  style_classes (render env self readings format w).1 = style_classes w.
Proof.
  intros Hparent. unfold render.
  destruct (is_empty format); [reflexivity|].
  unfold mbind, M_bind, lift, show, set_visible, set_markup, set_tooltip_text. simpl.
  destruct (fmt_format env format _) as [markup|e]; simpl; [|reflexivity].
  destruct (tooltipEnabled env); simpl.
  - destruct (fmt_format env _ _) as [tooltip|e]; simpl; [|reflexivity].
    destruct (ALabel_update env _) as [w' r] eqn:E.
    specialize (Hparent ltac:(match type of E with ALabel_update _ ?a = _ => exact a end)).
    rewrite E in Hparent. simpl in Hparent. destruct r; simpl; exact Hparent.
  - unfold mret, M_ret. simpl.
    destruct (ALabel_update env _) as [w' r] eqn:E.
    specialize (Hparent ltac:(match type of E with ALabel_update _ ?a = _ => exact a end)).
    rewrite E in Hparent. simpl in Hparent. destruct r; simpl; exact Hparent.
Qed.

(** C2 fails on the code in its style half.  On a tick whose reading meets
    both thresholds the critical template is the one rendered, the string of
    ["format-critical"] when there is one and the base format otherwise,
    whatever ["format-warning"] holds; and the class "critical" is added.
    But the critical branch removes no class: the classes after the tick are
    those before it and "critical", so that a "warning" left by an earlier
    tick stays active beside "critical". *)
Theorem critical_tick_keeps_warning_style platform os env self x w :
  getReadings platform os self = Return x ->
  isCritical self (uint16_of_rounded x) = true ->
  isWarning self (uint16_of_rounded x) = true ->
  (forall w', style_classes (ALabel_update env w').1 = style_classes w') ->
  let styled :=
    {| style_classes := {[ "critical"%string ]} ∪ style_classes w;
       event_box_visible := event_box_visible w;
       label_markup := label_markup w;
       label_tooltip_text := label_tooltip_text w |} in
  (forall s,
     Json.member (config_ self) "format-critical" = Json.stringValue s ->
     update platform os env self w = render env self (uint16_of_rounded x) s styled)
  /\ (Json.isString (Json.member (config_ self) "format-critical") = false ->
      update platform os env self w
      = render env self (uint16_of_rounded x) (format_ self) styled)
  /\ style_classes (update platform os env self w).1
     = {[ "critical"%string ]} ∪ style_classes w
  /\ ("warning"%string ∈ style_classes w ->
      "critical"%string ∈ style_classes (update platform os env self w).1
      /\ "warning"%string ∈ style_classes (update platform os env self w).1).
Proof.
  intros Hx Hc Hw Hparent styled.
  assert (E : update platform os env self w
              = render env self (uint16_of_rounded x)
                  (string_or (Json.member (config_ self) "format-critical") (format_ self))
                  styled).
  { rewrite (update_unfold _ _ _ _ _ _ Hx), Hc, Hw. reflexivity. }
  assert (Hcl : style_classes (update platform os env self w).1
                = {[ "critical"%string ]} ∪ style_classes w).
  { rewrite E. now rewrite (render_keeps_classes _ _ _ _ _ Hparent). }
  split; [|split; [|split]].
  - intros s Hs. rewrite E, Hs. reflexivity.
  - intros Hs. rewrite E.
    destruct (Json.member (config_ self) "format-critical"); try reflexivity.
    discriminate Hs.
  - exact Hcl.
  - intros Hin. rewrite Hcl. split.
    + apply elem_of_union_l, elem_of_singleton. reflexivity.
    + apply elem_of_union_r, Hin.
Qed.

Lemma critical_tick_keeps_warning_style_witness :
  let w1 := (update Linux (single_file_system sample_path "65000") sample_env
               themed_object fresh_widget).1 in
  let w2 := (update Linux (single_file_system sample_path "85000") sample_env
               themed_object w1).1 in
  label_markup w1 = "WARM 65"%string
  /\ label_markup w2 = "HOT 85"%string
  /\ "critical"%string ∈ style_classes w2
  /\ "warning"%string ∈ style_classes w2.
Proof.
  cbv zeta.
  set (w1 := (update Linux (single_file_system sample_path "65000") sample_env
                themed_object fresh_widget).1).
  destruct (critical_tick_keeps_warning_style Linux
              (single_file_system sample_path "85000") sample_env themed_object
              (convert_reading TEMPERATURE 85000) w1
              eq_refl eq_refl eq_refl (fun _ => eq_refl)) as (Hs & _ & _ & Hboth).
  split; [vm_compute; reflexivity|].
  split.
  - rewrite (Hs "HOT {temperatureC}"%string eq_refl). vm_compute. reflexivity.
  - apply Hboth. apply elem_of_elements. vm_compute. apply list_elem_of_here.
Defined.

(** C4: once the reading is there, an empty selected format hides the event
    box and leaves markup and tooltip as they were; a format that is not
    empty shows the event box, whether or not formatting then succeeds. The
    classification only decides which format is selected. *)
Theorem empty_format_hides platform os env self x w :
  getReadings platform os self = Return x ->
  (forall w', event_box_visible (ALabel_update env w').1 = event_box_visible w') ->
  exists classes format,
    classify self (isCritical self (uint16_of_rounded x))
      (isWarning self (uint16_of_rounded x)) w
    = ({| style_classes := classes;
          event_box_visible := event_box_visible w;
          label_markup := label_markup w;
          label_tooltip_text := label_tooltip_text w |}, Return format)
    /\ (format = ""%string ->
        update platform os env self w
        = ({| style_classes := classes;
              event_box_visible := false;
              label_markup := label_markup w;
              label_tooltip_text := label_tooltip_text w |}, Return tt))
    /\ (format <> ""%string ->
        event_box_visible (update platform os env self w).1 = true).
Proof.
  intros Hx Hparent.
  destruct (classify_keeps_rest self (isCritical self (uint16_of_rounded x))
              (isWarning self (uint16_of_rounded x)) w) as (classes & format & Hc).
  exists classes, format. split; [exact Hc|].
  rewrite (update_after_classify _ _ _ _ _ _ _ _ Hx Hc). split.
  - intros ->. reflexivity.
  - intros Hne. apply is_empty_false in Hne. unfold render. rewrite Hne.
    unfold mbind, M_bind, lift, show, set_visible, set_markup, set_tooltip_text. simpl.
    destruct (fmt_format env format _) as [markup|e]; simpl; [|reflexivity].
    destruct (tooltipEnabled env); simpl.
    + destruct (fmt_format env _ _) as [tooltip|e]; simpl; [|reflexivity].
      now rewrite Hparent.
    + unfold mret, M_ret. simpl.
      destruct (ALabel_update env _) as [w' r] eqn:E.
      specialize (Hparent ltac:(match type of E with ALabel_update _ ?a = _ => exact a end)).
      rewrite E in Hparent. simpl in Hparent. destruct r; simpl; exact Hparent.
Qed.

Lemma empty_format_hides_witness :
  event_box_visible
    (update Linux (single_file_system sample_path "45123") sample_env
       (sample_object TEMPERATURE "temperature") fresh_widget).1 = true.
Proof.
  destruct (empty_format_hides Linux (single_file_system sample_path "45123")
              sample_env (sample_object TEMPERATURE "temperature")
              (convert_reading TEMPERATURE 45123) fresh_widget
              eq_refl (fun _ => eq_refl)) as (classes & format & Hc & _ & Hshow).
  apply Hshow. vm_compute in Hc. injection Hc as _ <-. discriminate.
Defined.

(** * Properties of the floating-point operations *)

Lemma rne_div_eq (N D : Z) :
  rne_div N D
  = match 2 * (N mod D) ?= D with
    | Lt => N / D
    | Eq => if Z.even (N / D) then N / D else N / D + 1
    | Gt => N / D + 1
    end.
Proof.
  unfold rne_div, Z.div, Z.modulo. now destruct (Z.div_eucl N D) as [q r].
Qed.

Lemma digits2_pos_bounds (p : positive) :
  2 ^ (Zpos (digits2_pos p) - 1) <= Zpos p < 2 ^ Zpos (digits2_pos p).
Proof.
  induction p as [p IH|p IH|]; simpl digits2_pos.
  - rewrite Pos2Z.inj_succ.
    replace (Z.succ (Zpos (digits2_pos p)) - 1) with (Z.succ (Zpos (digits2_pos p) - 1)) by lia.
    rewrite !Z.pow_succ_r by lia. lia.
  - rewrite Pos2Z.inj_succ.
    replace (Z.succ (Zpos (digits2_pos p)) - 1) with (Z.succ (Zpos (digits2_pos p) - 1)) by lia.
    rewrite !Z.pow_succ_r by lia. lia.
  - simpl. lia.
Qed.

Lemma pow2_bounds_unique (x a b : Z) :
  0 <= a -> 0 <= b ->
  2 ^ a <= x < 2 ^ (a + 1) -> 2 ^ b <= x < 2 ^ (b + 1) -> a = b.
Proof.
  intros Ha Hb [H1 H2] [H3 H4].
  destruct (Z.lt_trichotomy a b) as [H|[H|H]]; [|exact H|].
  - assert (2 ^ (a + 1) <= 2 ^ b) by (apply Z.pow_le_mono_r; lia). lia.
  - assert (2 ^ (b + 1) <= 2 ^ a) by (apply Z.pow_le_mono_r; lia). lia.
Qed.

Lemma Zdigits2_unique (x d : Z) :
  0 < d -> 2 ^ (d - 1) <= x < 2 ^ d -> Zdigits2 x = d.
Proof.
  intros Hd Hx.
  assert (0 < x) by (pose proof (Z.pow_pos_nonneg 2 (d - 1)); lia).
  destruct x as [|p|p]; try lia. simpl.
  pose proof (digits2_pos_bounds p) as Hp.
  assert (Zpos (digits2_pos p) - 1 = d - 1); [|lia].
  apply (pow2_bounds_unique (Zpos p)); try lia.
  - now replace (Zpos (digits2_pos p) - 1 + 1) with (Zpos (digits2_pos p)) by lia.
  - now replace (d - 1 + 1) with d by lia.
Qed.

(** *** What a shift record says about the quotient it truncates *)

(** [mrs] is the truncation of [N / D]: its mantissa is the quotient, its
    round and sticky bits tell where the remainder lies. *)
Definition truncates (N D : Z) (mrs : shr_record) : Prop :=
  shr_m mrs = N / D
  /\ match shr_r mrs, shr_s mrs with
     | false, false => N mod D = 0
     | false, true => 0 < 2 * (N mod D) < D
     | true, false => 2 * (N mod D) = D
     | true, true => D < 2 * (N mod D)
     end.

Lemma truncates_exact (m : Z) :
  truncates m 1 {| shr_m := m; shr_r := false; shr_s := false |}.
Proof. split; simpl; [now rewrite Z.div_1_r | apply Z.mod_1_r]. Qed.

Lemma truncates_shr_1 (N D : Z) (mrs : shr_record) :
  0 <= N -> 0 < D -> truncates N D mrs -> truncates N (D * 2) (shr_1 mrs).
Proof.
  intros HN HD [Hm Hrs].
  assert (Hq : N / (D * 2) = N / D / 2) by (rewrite Z.div_div; lia).
  assert (Hr : N mod (D * 2) = N mod D + D * ((N / D) mod 2))
    by (apply Z.rem_mul_r; lia).
  pose proof (Z.mod_pos_bound N D HD) as Hb.
  pose proof (Z.div_pos N D HN HD) as Hq0.
  destruct mrs as [m r s]. simpl in Hm, Hrs. subst m.
  unfold truncates. rewrite Hq, Hr.
  destruct (N / D) as [|[p|p|]|p] eqn:E; try lia; simpl shr_1; cbn [shr_m shr_r shr_s].
  - split; [reflexivity|]. change (0 mod 2) with 0. destruct r, s; simpl; lia.
  - change (Zpos p~1) with (2 * Zpos p + 1).
    replace ((2 * Zpos p + 1) / 2) with (Zpos p) by (first [symmetry; apply Z.div_unique with 1; lia | apply Z.div_unique with 1; lia]).
    replace ((2 * Zpos p + 1) mod 2) with 1 by (first [symmetry; apply Z.mod_unique with (Zpos p); lia | apply Z.mod_unique with (Zpos p); lia]).
    split; [reflexivity|]. destruct r, s; simpl; lia.
  - change (Zpos p~0) with (2 * Zpos p).
    replace (2 * Zpos p / 2) with (Zpos p) by (first [symmetry; apply Z.div_unique with 0; lia | apply Z.div_unique with 0; lia]).
    replace ((2 * Zpos p) mod 2) with 0 by (first [symmetry; apply Z.mod_unique with (Zpos p); lia | apply Z.mod_unique with (Zpos p); lia]).
    split; [reflexivity|]. destruct r, s; simpl; lia.
  - split; [reflexivity|]. change (1 mod 2) with 1. destruct r, s; simpl; lia.
Qed.

Lemma pow2_xO (n : positive) : 2 ^ Zpos n~0 = 2 ^ Zpos n * 2 ^ Zpos n.
Proof. rewrite <- Z.pow_add_r by lia. apply (f_equal (Z.pow 2)). lia. Qed.

Lemma pow2_xI (n : positive) : 2 ^ Zpos n~1 = 2 * (2 ^ Zpos n * 2 ^ Zpos n).
Proof.
  rewrite <- Z.pow_add_r, <- Z.pow_succ_r by lia. apply (f_equal (Z.pow 2)). lia.
Qed.

Lemma truncates_iter_shr_1 (n : positive) :
  forall N D mrs, 0 <= N -> 0 < D -> truncates N D mrs ->
  truncates N (D * 2 ^ Zpos n) (SpecFloat.iter_pos shr_1 n mrs).
Proof.
  induction n as [n IH|n IH|]; intros N D mrs HN HD H; simpl SpecFloat.iter_pos.
  - pose proof (Z.pow_pos_nonneg 2 (Zpos n) ltac:(lia) ltac:(lia)) as Hp.
    replace (D * 2 ^ Zpos n~1) with (D * 2 * 2 ^ Zpos n * 2 ^ Zpos n)
      by (rewrite pow2_xI; ring).
    apply IH; [lia|nia|]. apply IH; [lia|lia|]. now apply truncates_shr_1.
  - pose proof (Z.pow_pos_nonneg 2 (Zpos n) ltac:(lia) ltac:(lia)) as Hp.
    replace (D * 2 ^ Zpos n~0) with (D * 2 ^ Zpos n * 2 ^ Zpos n)
      by (rewrite pow2_xO; ring).
    apply IH; [lia|nia|]. now apply IH.
  - rewrite Z.pow_1_r. now apply truncates_shr_1.
Qed.

Lemma truncates_round (N D : Z) (mrs : shr_record) :
  0 < D -> truncates N D mrs ->
  round_nearest_even (shr_m mrs) (loc_of_shr_record mrs) = rne_div N D.
Proof.
  intros HD [Hm Hrs]. destruct mrs as [m r s]. simpl in *. subst m. rewrite rne_div_eq.
  destruct r, s; simpl;
    destruct (Z.compare_spec (2 * (N mod D)) D); try lia; reflexivity.
Qed.

Lemma truncates_new_location (N D : Z) :
  0 < D ->
  truncates N D (shr_record_of_loc (N / D) (new_location D (N mod D))).
Proof.
  intros HD. pose proof (Z.mod_pos_bound N D HD) as Hb.
  unfold new_location, truncates.
  destruct (Z.even D) eqn:Hev.
  - unfold new_location_even.
    destruct (N mod D =? 0) eqn:E; [apply Z.eqb_eq in E|apply Z.eqb_neq in E].
    + cbn [shr_record_of_loc shr_m shr_r shr_s]; split; auto.
    + destruct (Z.compare_spec (2 * (N mod D)) D);
        cbn [shr_record_of_loc shr_m shr_r shr_s]; split; auto; lia.
  - unfold new_location_odd.
    destruct (N mod D =? 0) eqn:E; [apply Z.eqb_eq in E|apply Z.eqb_neq in E].
    + cbn [shr_record_of_loc shr_m shr_r shr_s]; split; auto.
    + assert (Hodd : Z.odd D = true) by (rewrite <- Z.negb_even, Hev; reflexivity).
      apply Z.odd_spec in Hodd as [k Hk].
      destruct (Z.compare_spec (2 * (N mod D) + 1) D);
        cbn [shr_record_of_loc shr_m shr_r shr_s]; split; auto; lia.
Qed.

Lemma truncates_shr_record_of_loc (N D : Z) (mrs : shr_record) :
  truncates N D mrs ->
  shr_record_of_loc (shr_m mrs) (loc_of_shr_record mrs) = mrs.
Proof. destruct mrs as [m [] []]; reflexivity. Qed.

Lemma rne_div_bounds (N D : Z) : N / D <= rne_div N D <= N / D + 1.
Proof.
  rewrite rne_div_eq. destruct (2 * (N mod D) ?= D); [destruct (Z.even _)| |]; lia.
Qed.

Lemma shr_m_shr_record_of_loc (m : Z) (l : location) :
  shr_m (shr_record_of_loc m l) = m.
Proof. destruct l as [|[]]; reflexivity. Qed.

Lemma loc_of_shr_record_of_loc (m : Z) (l : location) :
  loc_of_shr_record (shr_record_of_loc m l) = l.
Proof. destruct l as [|[]]; reflexivity. Qed.

Section Rounding.

Variables prec emax : Z.
Hypothesis Hprec : 0 < prec.

Lemma fexp_normal (e : Z) :
  SpecFloat.emin prec emax <= e - prec -> fexp prec emax e = e - prec.
Proof. unfold fexp. lia. Qed.

(** A mantissa of exactly [prec] digits, not inexact, within the exponent
    range, is stored as it is. *)
Lemma binary_round_aux_exact (s : bool) (m : positive) (e : Z) :
  Zpos (digits2_pos m) = prec ->
  SpecFloat.emin prec emax <= e -> e <= emax - prec ->
  binary_round_aux prec emax s (Zpos m) e loc_Exact = S754_finite s m e.
Proof.
  intros Hd He1 He2. unfold binary_round_aux, shr_fexp. simpl Zdigits2.
  rewrite Hd, fexp_normal by lia.
  replace (prec + e - prec - e) with 0 by lia. simpl.
  rewrite Hd, fexp_normal by lia.
  replace (prec + e - prec - e) with 0 by lia. simpl.
  destruct (Z.leb_spec e (emax - prec)); [reflexivity | lia].
Qed.

(** Rounding a truncated quotient [N / D] of at least [prec] digits, in
    the range of the normal numbers. *)
Lemma binary_round_aux_normal (s : bool) (mx ex : Z) (lx : location) (N D : Z) :
  0 <= N -> 0 < D ->
  truncates N D (shr_record_of_loc mx lx) ->
  prec <= Zdigits2 mx ->
  SpecFloat.emin prec emax <= Zdigits2 mx + ex - prec ->
  Zdigits2 mx + ex - prec + 1 <= emax - prec ->
  binary_round_aux prec emax s mx ex lx
  = normal_float prec s (rne_div N (D * 2 ^ (Zdigits2 mx - prec)))
      (ex + (Zdigits2 mx - prec)).
Proof.
  intros HN HD Ht Hd Hlo Hhi.
  set (d := Zdigits2 mx) in *. set (n := d - prec).
  assert (Hmx : mx = N / D) by (destruct Ht as [Hm _]; now rewrite shr_m_shr_record_of_loc in Hm).
  assert (Hmxpos : 0 < mx).
  { pose proof (Z.div_pos N D HN HD). destruct mx as [|p|p]; simpl in d; subst d; lia. }
  assert (Hmxb : 2 ^ (d - 1) <= mx < 2 ^ d).
  { destruct mx as [|p|p]; try lia. apply digits2_pos_bounds. }
  assert (Hn : 0 <= n) by (unfold n; lia).
  assert (Hpn : 0 < 2 ^ n) by (apply Z.pow_pos_nonneg; lia).
  (* the first shift *)
  assert (Hshift : exists mrs,
             shr_fexp prec emax mx ex lx = (mrs, ex + n)
             /\ truncates N (D * 2 ^ n) mrs).
  { unfold shr_fexp. fold d. rewrite fexp_normal by lia.
    replace (d + ex - prec - ex) with n by (unfold n; lia).
    destruct n as [|p|p] eqn:En; try lia.
    - exists (shr_record_of_loc mx lx). split; [simpl; f_equal; lia|].
      now rewrite Z.pow_0_r, Z.mul_1_r.
    - exists (SpecFloat.iter_pos shr_1 p (shr_record_of_loc mx lx)).
      split; [reflexivity|]. now apply truncates_iter_shr_1. }
  destruct Hshift as (mrs & Hs & Htr).
  unfold binary_round_aux. rewrite Hs.
  assert (HDn : 0 < D * 2 ^ n) by nia.
  rewrite (truncates_round _ _ _ HDn Htr).
  set (M := rne_div N (D * 2 ^ n)).
  (* the rounded mantissa has prec digits, or is 2 ^ prec *)
  assert (HM : 2 ^ (prec - 1) <= M <= 2 ^ prec).
  { pose proof (rne_div_bounds N (D * 2 ^ n)) as Hb. fold M in Hb.
    rewrite <- Z.div_div, <- Hmx in Hb by lia.
    assert (2 ^ (prec - 1) <= mx / 2 ^ n).
    { apply Z.div_le_lower_bound; [lia|].
      rewrite <- Z.pow_add_r by lia.
      replace (n + (prec - 1)) with (d - 1) by (unfold n; lia). lia. }
    assert (mx / 2 ^ n < 2 ^ prec).
    { apply Z.div_lt_upper_bound; [lia|].
      rewrite <- Z.pow_add_r by lia.
      replace (n + prec) with d by (unfold n; lia). lia. }
    lia. }
  assert (0 < 2 ^ (prec - 1)) by (apply Z.pow_pos_nonneg; lia).
  unfold normal_float. fold n. fold M.
  destruct (Z.ltb_spec M (2 ^ prec)) as [Hlt|Hge].
  - (* no carry *)
    assert (HdM : Zdigits2 M = prec) by (apply Zdigits2_unique; lia).
    unfold shr_fexp. rewrite HdM, fexp_normal by (unfold n; lia).
    replace (prec + (ex + n) - prec - (ex + n)) with 0 by lia. simpl.
    destruct M as [|p|p]; try lia. simpl.
    destruct (Z.leb_spec (ex + n) (emax - prec)); [reflexivity | unfold n in *; lia].
  - (* carry into the next binade *)
    assert (HMeq : M = 2 ^ prec) by lia.
    assert (HdM : Zdigits2 M = prec + 1).
    { apply Zdigits2_unique; [lia|].
      replace (prec + 1 - 1) with prec by lia. rewrite Z.pow_add_r by lia. lia. }
    unfold shr_fexp. rewrite HdM, fexp_normal by (unfold n; lia).
    replace (prec + 1 + (ex + n) - prec - (ex + n)) with 1 by lia.
    cbn [shr SpecFloat.iter_pos].
    pose proof (truncates_shr_1 M 1 _ ltac:(lia) ltac:(lia) (truncates_exact M)) as [Hh _].
    cbn [shr_record_of_loc]. rewrite Hh.
    replace (M / (1 * 2)) with (2 ^ (prec - 1)).
    + destruct (2 ^ (prec - 1)) as [|p|p] eqn:E2; try lia. simpl.
      destruct (Z.leb_spec (ex + n + 1) (emax - prec)); [reflexivity | unfold n in *; lia].
    + rewrite HMeq. replace prec with (1 + (prec - 1)) at 2 by lia.
      rewrite Z.pow_add_r by lia. change (2 ^ 1) with 2. change (1 * 2) with 2.
      symmetry. rewrite Z.mul_comm. apply Z.div_mul. lia.
Qed.

End Rounding.

Lemma digits2_pos_iter_xO (p k : positive) :
  digits2_pos (Pos.iter xO p k) = (digits2_pos p + k)%positive.
Proof.
  induction k as [|k IH] using Pos.peano_ind.
  - simpl. lia.
  - rewrite Pos.iter_succ. simpl. rewrite IH. lia.
Qed.

Lemma Zpos_iter_xO (p k : positive) :
  Zpos (Pos.iter xO p k) = Zpos p * 2 ^ Zpos k.
Proof.
  induction k as [|k IH] using Pos.peano_ind.
  - simpl. lia.
  - rewrite Pos.iter_succ, Pos2Z.inj_xO, IH, Pos2Z.inj_succ, Z.pow_succ_r by lia. ring.
Qed.

Section Operations.

Variables prec emax : Z.
Hypothesis Hprec : 0 < prec.
Hypothesis Hemax : prec < emax.

(** Conversion of a positive integer of at most [prec] digits: exact. *)
Lemma binary_round_exact (s : bool) (p : positive) :
  Zpos (digits2_pos p) <= prec ->
  exists m,
    binary_round prec emax s p 0
    = S754_finite s m (Zpos (digits2_pos p) - prec)
    /\ Zpos m = Zpos p * 2 ^ (prec - Zpos (digits2_pos p))
    /\ Zpos (digits2_pos m) = prec.
Proof.
  intros Hd. unfold binary_round, shl_align.
  rewrite Z.add_0_r, fexp_normal by (unfold SpecFloat.emin; lia).
  rewrite Z.sub_0_r.
  destruct (Zpos (digits2_pos p) - prec) as [|k|k] eqn:E; try lia.
  - exists p. rewrite binary_round_aux_exact; try (unfold SpecFloat.emin; lia).
    replace (prec - Zpos (digits2_pos p)) with 0 by lia.
    split; [reflexivity|]. split; lia.
  - exists (Pos.iter xO p k).
    assert (Hk : Zpos k = prec - Zpos (digits2_pos p)) by lia.
    assert (Hdk : Zpos (digits2_pos (Pos.iter xO p k)) = prec).
    { rewrite digits2_pos_iter_xO, Pos2Z.inj_add. lia. }
    rewrite binary_round_aux_exact; try (unfold SpecFloat.emin; lia).
    split; [reflexivity|]. split; [|exact Hdk].
    rewrite Zpos_iter_xO, Hk. reflexivity.
Qed.

Lemma SFdiv_core_binary_normal (m1 m2 : positive) (e1 e2 : Z) :
  Zpos (digits2_pos m1) = prec -> Zpos (digits2_pos m2) = prec ->
  SpecFloat.emin prec emax <= e1 - e2 - prec ->
  SFdiv_core_binary prec emax (Zpos m1) e1 (Zpos m2) e2
  = ((Zpos m1 * 2 ^ prec) / Zpos m2, e1 - e2 - prec,
     new_location (Zpos m2) ((Zpos m1 * 2 ^ prec) mod Zpos m2)).
Proof.
  intros Hd1 Hd2 Hlo. unfold SFdiv_core_binary. simpl Zdigits2. rewrite Hd1, Hd2.
  replace (prec + e1 - (prec + e2)) with (e1 - e2) by lia.
  rewrite fexp_normal by lia.
  rewrite Z.min_l by lia.
  replace (e1 - e2 - (e1 - e2 - prec)) with prec by lia.
  destruct prec as [|pp|pp] eqn:Epp; try lia.
  rewrite Z.shiftl_mul_pow2 by lia.
  unfold Z.div, Z.modulo.
  destruct (Z.div_eucl (Zpos m1 * 2 ^ Zpos pp) (Zpos m2)) as [q r]. reflexivity.
Qed.

(** Quotient of two normal numbers. *)
Lemma SFdiv_normal (s1 s2 : bool) (m1 m2 : positive) (e1 e2 : Z) :
  Zpos (digits2_pos m1) = prec -> Zpos (digits2_pos m2) = prec ->
  SpecFloat.emin prec emax <= e1 - e2 - prec ->
  e1 - e2 + 2 <= emax - prec ->
  let N := Zpos m1 * 2 ^ prec in
  let n := Zdigits2 (N / Zpos m2) - prec in
  SFdiv prec emax (S754_finite s1 m1 e1) (S754_finite s2 m2 e2)
  = normal_float prec (xorb s1 s2) (rne_div N (Zpos m2 * 2 ^ n)) (e1 - e2 - prec + n)
  /\ 0 <= n <= 1.
Proof.
  intros Hd1 Hd2 Hlo Hhi N n.
  pose proof (digits2_pos_bounds m1) as Hb1. rewrite Hd1 in Hb1.
  pose proof (digits2_pos_bounds m2) as Hb2. rewrite Hd2 in Hb2.
  assert (Hp1 : 0 < 2 ^ (prec - 1)) by (apply Z.pow_pos_nonneg; lia).
  assert (Hpp : 2 ^ prec = 2 * 2 ^ (prec - 1)).
  { replace prec with (1 + (prec - 1)) at 1 by lia. now rewrite Z.pow_add_r by lia. }
  assert (Hq : 2 ^ (prec - 1) <= N / Zpos m2 < 2 ^ (prec + 1)).
  { split.
    - apply Z.div_le_lower_bound; [lia|]. unfold N. nia.
    - apply Z.div_lt_upper_bound; [lia|]. unfold N.
      rewrite Z.pow_add_r, Z.pow_1_r by lia. nia. }
  assert (Hn : 0 <= n <= 1).
  { unfold n.
    destruct (Z.lt_ge_cases (N / Zpos m2) (2 ^ prec)) as [Hlt|Hge].
    - rewrite (Zdigits2_unique _ prec); lia.
    - rewrite (Zdigits2_unique _ (prec + 1)); try lia.
      now replace (prec + 1 - 1) with prec by lia. }
  split; [|exact Hn].
  unfold SFdiv. rewrite SFdiv_core_binary_normal by assumption. fold N.
  rewrite (binary_round_aux_normal prec emax Hprec _ _ _ _ N (Zpos m2)); fold n.
  - f_equal.
  - unfold N. lia.
  - lia.
  - apply truncates_new_location. lia.
  - lia.
  - lia.
  - lia.
Qed.

(** Conversion of a positive number, given by a mantissa of at least
    [prec] digits, to precision [prec]. *)
Lemma binary_round_normal (s : bool) (m : positive) (e : Z) :
  prec <= Zpos (digits2_pos m) ->
  SpecFloat.emin prec emax <= Zpos (digits2_pos m) + e - prec ->
  Zpos (digits2_pos m) + e - prec + 1 <= emax - prec ->
  binary_round prec emax s m e
  = normal_float prec s (rne_div (Zpos m) (2 ^ (Zpos (digits2_pos m) - prec)))
      (e + (Zpos (digits2_pos m) - prec)).
Proof.
  intros Hd Hlo Hhi. unfold binary_round, shl_align.
  rewrite fexp_normal by lia.
  destruct (Zpos (digits2_pos m) + e - prec - e) as [|k|k] eqn:E; try lia.
  - rewrite (binary_round_aux_normal prec emax Hprec s (Zpos m) e loc_Exact (Zpos m) 1);
      simpl Zdigits2; try lia.
    + now rewrite Z.mul_1_l.
    + apply truncates_exact.
  - rewrite (binary_round_aux_normal prec emax Hprec s (Zpos m) e loc_Exact (Zpos m) 1);
      simpl Zdigits2; try lia.
    + now rewrite Z.mul_1_l.
    + apply truncates_exact.
Qed.

End Operations.

(** *** Monotonicity *)

Lemma rne_div_scale (N D k : Z) :
  0 < D -> 0 < k -> rne_div (N * k) (D * k) = rne_div N D.
Proof.
  intros HD Hk. rewrite !rne_div_eq.
  rewrite Z.div_mul_cancel_r, Z.mul_mod_distr_r by lia.
  destruct (Z.compare_spec (2 * (N mod D * k)) (D * k)),
    (Z.compare_spec (2 * (N mod D)) D); try reflexivity; nia.
Qed.

Lemma rne_div_mono (N1 N2 D : Z) :
  0 < D -> N1 <= N2 -> rne_div N1 D <= rne_div N2 D.
Proof.
  intros HD HN.
  pose proof (Z.div_le_mono N1 N2 D HD HN) as Hq.
  pose proof (rne_div_bounds N1 D) as H1. pose proof (rne_div_bounds N2 D) as H2.
  destruct (Z.eq_dec (N1 / D) (N2 / D)) as [E|E]; [|lia].
  pose proof (Z_div_mod_eq_full N1 D) as E1. pose proof (Z_div_mod_eq_full N2 D) as E2.
  rewrite !rne_div_eq in *. rewrite <- E in *.
  destruct (Z.compare_spec (2 * (N1 mod D)) D), (Z.compare_spec (2 * (N2 mod D)) D);
    try destruct (Z.even (N1 / D)); nia.
Qed.

Lemma SFleb_finite_pos (m1 m2 : positive) (e1 e2 : Z) :
  e1 < e2 \/ (e1 = e2 /\ Zpos m1 <= Zpos m2) ->
  SFleb (S754_finite false m1 e1) (S754_finite false m2 e2) = true.
Proof.
  unfold SFleb, SFcompare. intros [H|[-> H]].
  - now rewrite (proj2 (Z.compare_lt_iff e1 e2) H).
  - rewrite Z.compare_refl. change (Pos.compare_cont Eq m1 m2) with (m1 ?= m2)%positive.
    destruct (Pos.compare_spec m1 m2); try reflexivity. lia.
Qed.

Lemma SFleb_finite_pos_inv (m1 m2 : positive) (e1 e2 : Z) :
  SFleb (S754_finite false m1 e1) (S754_finite false m2 e2) = true ->
  e1 < e2 \/ (e1 = e2 /\ Zpos m1 <= Zpos m2).
Proof.
  unfold SFleb, SFcompare. destruct (Z.compare_spec e1 e2) as [->|H|H]; try discriminate.
  - change (Pos.compare_cont Eq m1 m2) with (m1 ?= m2)%positive.
    destruct (Pos.compare_spec m1 m2); try discriminate; intros _; right; split; lia.
  - intros _. now left.
Qed.

(** A positive normal number of precision [prec] with exponent in
    [elo..ehi]. *)
Lemma normal_float_is_normal (prec M E : Z) :
  0 < prec -> 2 ^ (prec - 1) <= M <= 2 ^ prec ->
  exists m e, normal_float prec false M E = S754_finite false m e
              /\ Zpos (digits2_pos m) = prec /\ E <= e <= E + 1.
Proof.
  intros Hp HM. unfold normal_float.
  assert (0 < 2 ^ (prec - 1)) by (apply Z.pow_pos_nonneg; lia).
  assert (Hpp : 2 ^ prec = 2 * 2 ^ (prec - 1)).
  { replace prec with (1 + (prec - 1)) at 1 by lia. now rewrite Z.pow_add_r by lia. }
  destruct (Z.ltb_spec M (2 ^ prec)).
  - exists (Z.to_pos M), E. split; [reflexivity|]. split; [|lia].
    change (Zpos (digits2_pos (Z.to_pos M))) with (Zdigits2 (Zpos (Z.to_pos M))).
    rewrite Z2Pos.id by lia. apply Zdigits2_unique; lia.
  - exists (Z.to_pos (2 ^ (prec - 1))), (E + 1). split; [reflexivity|]. split; [|lia].
    change (Zpos (digits2_pos (Z.to_pos (2 ^ (prec - 1)))))
      with (Zdigits2 (Zpos (Z.to_pos (2 ^ (prec - 1))))).
    rewrite Z2Pos.id by lia. apply Zdigits2_unique; lia.
Qed.

Lemma normal_float_le (prec M1 E1 M2 E2 : Z) :
  0 < prec ->
  2 ^ (prec - 1) <= M1 <= 2 ^ prec -> 2 ^ (prec - 1) <= M2 <= 2 ^ prec ->
  E1 < E2 \/ (E1 = E2 /\ M1 <= M2) ->
  SFleb (normal_float prec false M1 E1) (normal_float prec false M2 E2) = true.
Proof.
  intros Hp H1 H2 Hle. unfold normal_float.
  assert (0 < 2 ^ (prec - 1)) by (apply Z.pow_pos_nonneg; lia).
  destruct (Z.ltb_spec M1 (2 ^ prec)), (Z.ltb_spec M2 (2 ^ prec));
    apply SFleb_finite_pos; rewrite !Z2Pos.id by lia; lia.
Qed.

(** The exponent at which a quotient has [prec] digits grows with the
    numerator. *)
Lemma quotient_exponent_mono (prec D X1 X2 t1 t2 : Z) :
  0 < prec -> 0 < D -> X1 <= X2 -> 0 <= t1 -> 0 <= t2 ->
  2 ^ (prec - 1) * (D * 2 ^ t1) <= X1 ->
  X2 < 2 ^ prec * (D * 2 ^ t2) ->
  t1 <= t2.
Proof.
  intros Hp HD HX Ht1 Ht2 H1 H2.
  assert (Hpp : 2 ^ prec = 2 * 2 ^ (prec - 1)).
  { replace prec with (1 + (prec - 1)) at 1 by lia. now rewrite Z.pow_add_r by lia. }
  assert (0 < 2 ^ (prec - 1)) by (apply Z.pow_pos_nonneg; lia).
  assert (Hlt : 2 ^ t1 < 2 ^ (t2 + 1)).
  { rewrite Z.pow_add_r, Z.pow_1_r by lia.
    assert (0 < 2 ^ t1) by (apply Z.pow_pos_nonneg; lia).
    assert (0 < 2 ^ t2) by (apply Z.pow_pos_nonneg; lia).
    nia. }
  apply Z.pow_lt_mono_r_iff in Hlt; lia.
Qed.

(** *** The operations of the module on binary64 and binary32 *)

Lemma Zdigits2_bounds (r : Z) :
  0 < r -> 0 < Zdigits2 r /\ 2 ^ (Zdigits2 r - 1) <= r < 2 ^ Zdigits2 r.
Proof.
  intros Hr. destruct r as [|p|p]; try lia. simpl. split; [lia|].
  apply digits2_pos_bounds.
Qed.

Lemma Zdigits2_le (r prec : Z) : 0 < r < 2 ^ prec -> 0 <= prec -> Zdigits2 r <= prec.
Proof.
  intros Hr Hp. destruct (Zdigits2_bounds r) as [Hd [Hlo _]]; [lia|].
  destruct (Z.le_gt_cases (Zdigits2 r) prec) as [H|H]; [exact H|].
  assert (2 ^ prec <= 2 ^ (Zdigits2 r - 1)) by (apply Z.pow_le_mono_r; lia). lia.
Qed.

Lemma double_of_Z_pos (r : Z) :
  0 < r < 2 ^ 53 ->
  exists m,
    Float.double_of_Z r = S754_finite false m (Zdigits2 r - 53)
    /\ Zpos m = r * 2 ^ (53 - Zdigits2 r)
    /\ Zpos (digits2_pos m) = 53.
Proof.
  intros Hr. pose proof (Zdigits2_le r 53 Hr ltac:(lia)) as Hd.
  destruct r as [|p|p]; try lia.
  exact (binary_round_exact 53 1024 ltac:(lia) ltac:(lia) false p Hd).
Qed.

(** [r / c] in binary64, for integers below 2^53: the nearest number with
    53 digits at the exponent [t - 106] (a scale at which the quotient has
    53 digits). *)
Lemma ddiv_double_of_Z (c r : Z) :
  0 < c < 2 ^ 53 -> 0 < r < 2 ^ 53 ->
  let C := c * 2 ^ (53 - Zdigits2 c) in
  exists t,
    0 <= t <= 54
    /\ 2 ^ 52 * (C * 2 ^ t) <= r * 2 ^ 106 < 2 ^ 53 * (C * 2 ^ t)
    /\ Float.ddiv (Float.double_of_Z r) (Float.double_of_Z c)
       = normal_float 53 false (rne_div (r * 2 ^ 106) (C * 2 ^ t))
           (t - Zdigits2 c - 53).
Proof.
  intros Hc Hr C.
  destruct (double_of_Z_pos r Hr) as (m1 & E1 & Hm1 & Hd1).
  destruct (double_of_Z_pos c Hc) as (mc & Ec & Hmc & Hdc).
  destruct (Zdigits2_bounds r ltac:(lia)) as [Hdr0 Hdrb].
  destruct (Zdigits2_bounds c ltac:(lia)) as [Hdc0 Hdcb].
  pose proof (Zdigits2_le r 53 Hr ltac:(lia)) as Hdr.
  pose proof (Zdigits2_le c 53 Hc ltac:(lia)) as Hdcl.
  set (dr := Zdigits2 r) in *. set (dc := Zdigits2 c) in *.
  destruct (SFdiv_normal 53 1024 ltac:(lia) ltac:(lia) false false m1 mc (dr - 53) (dc - 53)
              Hd1 Hdc ltac:(unfold SpecFloat.emin; lia) ltac:(lia)) as [Hdiv Hn].
  set (N := Zpos m1 * 2 ^ 53) in *.
  set (n := Zdigits2 (N / Zpos mc) - 53) in *.
  fold C in Hmc.
  assert (HN : N = r * 2 ^ (106 - dr)).
  { unfold N. rewrite Hm1, <- Z.mul_assoc, <- Z.pow_add_r by lia.
    do 2 f_equal. lia. }
  assert (HC : 0 < C) by lia.
  assert (Hpdr : 0 < 2 ^ dr) by (apply Z.pow_pos_nonneg; lia).
  assert (Hpn : 0 < 2 ^ n) by (apply Z.pow_pos_nonneg; lia).
  assert (HX : r * 2 ^ 106 = N * 2 ^ dr).
  { rewrite HN, <- Z.mul_assoc, <- Z.pow_add_r by lia. do 2 f_equal. lia. }
  assert (Ht : 2 ^ (dr + n) = 2 ^ n * 2 ^ dr) by (rewrite <- Z.pow_add_r by lia; f_equal; lia).
  exists (dr + n). split; [lia|]. split.
  - (* the quotient has 53 + n digits *)
    assert (Hq0 : 0 < N / Zpos mc).
    { apply Z.div_str_pos. split; [lia|].
      pose proof (digits2_pos_bounds m1) as B1. rewrite Hd1 in B1.
      pose proof (digits2_pos_bounds mc) as Bc. rewrite Hdc in Bc.
      unfold N. lia. }
    destruct (Zdigits2_bounds (N / Zpos mc) Hq0) as [_ Hqb].
    replace (Zdigits2 (N / Zpos mc)) with (53 + n) in Hqb by (unfold n; lia).
    replace (53 + n - 1) with (52 + n) in Hqb by lia.
    rewrite !Z.pow_add_r in Hqb by lia.
    rewrite Hmc in Hqb.
    assert (H1 : 2 ^ 52 * 2 ^ n * C <= N).
    { assert (H := Z.mul_div_le N C HC). nia. }
    assert (H2 : N < 2 ^ 53 * 2 ^ n * C).
    { assert (H := Z.mod_pos_bound N C HC). pose proof (Z_div_mod_eq_full N C). nia. }
    rewrite HX, Ht. nia.
  - rewrite E1, Ec. fold dr dc. unfold Float.ddiv, Float.prec64, Float.emax64.
    rewrite Hdiv. simpl xorb. rewrite Hmc. f_equal.
    + rewrite HX, Ht, Z.mul_assoc. symmetry. apply rne_div_scale; nia.
    + lia.
Qed.

(** The same quotient, computed from shorter numbers. *)
Lemma scaled_quotient_exponent (c r dc dr : Z) :
  0 < dc <= 53 -> 0 < dr ->
  2 ^ (dc - 1) <= c < 2 ^ dc -> 2 ^ (dr - 1) <= r < 2 ^ dr ->
  let t := if r * 2 ^ dc <? c * 2 ^ dr then dr else dr + 1 in
  let C := c * 2 ^ (53 - dc) in
  2 ^ 52 * (C * 2 ^ t) <= r * 2 ^ 106 < 2 ^ 53 * (C * 2 ^ t).
Proof.
  intros Hdc Hdr Hc Hr. cbv zeta.
  assert (HA : 2 ^ dc = 2 * 2 ^ (dc - 1)).
  { rewrite <- Z.pow_succ_r by lia. f_equal. lia. }
  assert (HB : 2 ^ dr = 2 * 2 ^ (dr - 1)).
  { rewrite <- Z.pow_succ_r by lia. f_equal. lia. }
  assert (HAP : 2 ^ dc * 2 ^ (53 - dc) = 2 ^ 53).
  { rewrite <- Z.pow_add_r by lia. f_equal. lia. }
  assert (HP : 0 < 2 ^ (53 - dc)) by (apply Z.pow_pos_nonneg; lia).
  assert (HA' : 0 < 2 ^ (dc - 1)) by (apply Z.pow_pos_nonneg; lia).
  assert (HB' : 0 < 2 ^ (dr - 1)) by (apply Z.pow_pos_nonneg; lia).
  assert (H106 : r * 2 ^ 106 = 2 ^ 52 * (2 ^ (53 - dc) * (2 * r * 2 ^ dc))).
  { replace (2 ^ (53 - dc) * (2 * r * 2 ^ dc))
      with (2 * r * (2 ^ dc * 2 ^ (53 - dc))) by ring.
    rewrite HAP. change (2 ^ 106) with (2 ^ 52 * (2 * 2 ^ 53)). ring. }
  assert (H53 : forall x, 2 ^ 53 * x = 2 ^ 52 * (2 * x)).
  { intros x. change (2 ^ 53) with (2 ^ 52 * 2). ring. }
  rewrite H106, H53.
  set (A := 2 ^ dc) in *. set (B := 2 ^ dr) in *. set (P := 2 ^ (53 - dc)) in *.
  set (A' := 2 ^ (dc - 1)) in *. set (B' := 2 ^ (dr - 1)) in *.
  assert (H52 : 0 < 2 ^ 52) by reflexivity.
  destruct (Z.ltb_spec (r * A) (c * B)) as [Hlt|Hge].
  - fold B. split.
    + apply Z.mul_le_mono_nonneg_l; [lia|].
      replace (c * P * B) with (P * (c * B)) by ring.
      apply Z.mul_le_mono_nonneg_l; [lia|].
      assert (c * B <= A * B) by (apply Z.mul_le_mono_nonneg_r; lia).
      assert (A * B <= A * (2 * r)) by (apply Z.mul_le_mono_nonneg_l; lia).
      lia.
    + apply Z.mul_lt_mono_pos_l; [lia|].
      replace (2 * (c * P * B)) with (P * (2 * (c * B))) by ring.
      apply Z.mul_lt_mono_pos_l; lia.
  - assert (HB1 : 2 ^ (dr + 1) = 2 * B).
    { unfold B. rewrite Z.pow_add_r, Z.pow_1_r by lia. ring. }
    rewrite HB1. split.
    + apply Z.mul_le_mono_nonneg_l; [lia|].
      replace (c * P * (2 * B)) with (P * (2 * (c * B))) by ring.
      apply Z.mul_le_mono_nonneg_l; lia.
    + apply Z.mul_lt_mono_pos_l; [lia|].
      replace (2 * (c * P * (2 * B))) with (P * (2 * (2 * c) * B)) by ring.
      apply Z.mul_lt_mono_pos_l; [lia|].
      assert (r * A < B * A) by (apply Z.mul_lt_mono_pos_r; lia).
      assert (B * A <= B * (2 * c)) by (apply Z.mul_le_mono_nonneg_l; lia).
      lia.
Qed.

Lemma ddiv_scaled_quotient (c r : Z) :
  0 < c < 2 ^ 53 -> 0 < r < 2 ^ 53 ->
  Float.ddiv (Float.double_of_Z r) (Float.double_of_Z c) = scaled_quotient c r.
Proof.
  intros Hc Hr.
  destruct (ddiv_double_of_Z c r Hc Hr) as (t' & Ht' & Hb' & E).
  destruct (Zdigits2_bounds r ltac:(lia)) as [Hdr0 Hdrb].
  destruct (Zdigits2_bounds c ltac:(lia)) as [Hdc0 Hdcb].
  pose proof (Zdigits2_le r 53 Hr ltac:(lia)) as Hdr.
  pose proof (Zdigits2_le c 53 Hc ltac:(lia)) as Hdc.
  pose proof (scaled_quotient_exponent c r (Zdigits2 c) (Zdigits2 r)
                (conj Hdc0 Hdc) Hdr0 Hdcb Hdrb) as Hb.
  unfold scaled_quotient. cbv zeta in Hb.
  set (dr := Zdigits2 r) in *. set (dc := Zdigits2 c) in *.
  set (t := if r * 2 ^ dc <? c * 2 ^ dr then dr else dr + 1) in *.
  set (C := c * 2 ^ (53 - dc)) in *.
  assert (HP : 0 < 2 ^ (53 - dc)) by (apply Z.pow_pos_nonneg; lia).
  assert (Ht : 0 <= t <= 54) by (unfold t; destruct (_ <? _); lia).
  assert (HC : 0 < C) by (unfold C; apply Z.mul_pos_pos; lia).
  assert (Heq : t' = t).
  { apply Z.le_antisymm.
    - apply (quotient_exponent_mono 53 C (r * 2 ^ 106) (r * 2 ^ 106));
        first [lia | change (53 - 1) with 52; lia].
    - apply (quotient_exponent_mono 53 C (r * 2 ^ 106) (r * 2 ^ 106));
        first [lia | change (53 - 1) with 52; lia]. }
  rewrite E, Heq. f_equal.
  assert (Hk : 0 < 2 ^ (53 - dc + t)) by (apply Z.pow_pos_nonneg; lia).
  replace (r * 2 ^ 106) with (r * 2 ^ (53 + dc - t) * 2 ^ (53 - dc + t)).
  - replace (C * 2 ^ t) with (c * 2 ^ (53 - dc + t)).
    + apply rne_div_scale; lia.
    + unfold C. rewrite <- Z.mul_assoc, <- Z.pow_add_r by lia. reflexivity.
  - rewrite <- Z.mul_assoc, <- Z.pow_add_r by lia. do 2 f_equal. lia.
Qed.

Lemma float_of_double_normal (m : positive) (e : Z) :
  Zpos (digits2_pos m) = 53 -> -178 <= e <= 74 ->
  Float.float_of_double (S754_finite false m e)
  = normal_float 24 false (rne_div (Zpos m) (2 ^ 29)) (e + 29).
Proof.
  intros Hd He. unfold Float.float_of_double. simpl cond_Zopp.
  unfold binary_normalize, Float.prec32, Float.emax32.
  rewrite (binary_round_normal 24 128 ltac:(lia)) by (rewrite Hd; unfold SpecFloat.emin; lia).
  rewrite Hd. reflexivity.
Qed.

Lemma rne_div_digits (prec N D : Z) :
  0 < prec -> 0 < D -> 2 ^ (prec - 1) * D <= N < 2 ^ prec * D ->
  2 ^ (prec - 1) <= rne_div N D <= 2 ^ prec.
Proof.
  intros Hp HD HN. pose proof (rne_div_bounds N D) as Hb.
  assert (2 ^ (prec - 1) <= N / D) by (apply Z.div_le_lower_bound; lia).
  assert (N / D < 2 ^ prec) by (apply Z.div_lt_upper_bound; lia).
  lia.
Qed.

(** The quotient in binary64 grows with the numerator. *)
Lemma ddiv_double_of_Z_mono (c r1 r2 : Z) :
  0 < c < 2 ^ 53 -> 0 < r1 -> r1 <= r2 -> r2 < 2 ^ 53 ->
  exists m1 e1 m2 e2,
    Float.ddiv (Float.double_of_Z r1) (Float.double_of_Z c) = S754_finite false m1 e1
    /\ Float.ddiv (Float.double_of_Z r2) (Float.double_of_Z c) = S754_finite false m2 e2
    /\ Zpos (digits2_pos m1) = 53 /\ Zpos (digits2_pos m2) = 53
    /\ -106 <= e1 <= 2 /\ -106 <= e2 <= 2
    /\ (e1 < e2 \/ (e1 = e2 /\ Zpos m1 <= Zpos m2)).
Proof.
  intros Hc Hr1 Hle Hr2.
  destruct (ddiv_double_of_Z c r1 Hc ltac:(lia)) as (t1 & Ht1 & Hb1 & E1).
  destruct (ddiv_double_of_Z c r2 Hc ltac:(lia)) as (t2 & Ht2 & Hb2 & E2).
  destruct (Zdigits2_bounds c ltac:(lia)) as [Hdc0 Hdcb].
  pose proof (Zdigits2_le c 53 Hc ltac:(lia)) as Hdcl.
  set (C := c * 2 ^ (53 - Zdigits2 c)) in *.
  assert (HC : 0 < C).
  { unfold C. assert (0 < 2 ^ (53 - Zdigits2 c)) by (apply Z.pow_pos_nonneg; lia). nia. }
  assert (Hp1 : 0 < 2 ^ t1) by (apply Z.pow_pos_nonneg; lia).
  assert (Hp2 : 0 < 2 ^ t2) by (apply Z.pow_pos_nonneg; lia).
  assert (HM1 := rne_div_digits 53 (r1 * 2 ^ 106) (C * 2 ^ t1) ltac:(lia) ltac:(nia)).
  assert (HM2 := rne_div_digits 53 (r2 * 2 ^ 106) (C * 2 ^ t2) ltac:(lia) ltac:(nia)).
  change (53 - 1) with 52 in HM1, HM2.
  specialize (HM1 Hb1). specialize (HM2 Hb2).
  assert (Ht : t1 <= t2).
  { apply (quotient_exponent_mono 53 C (r1 * 2 ^ 106) (r2 * 2 ^ 106));
      first [lia | change (53 - 1) with 52; lia]. }
  assert (Hord : t1 - Zdigits2 c - 53 < t2 - Zdigits2 c - 53
                 \/ (t1 - Zdigits2 c - 53 = t2 - Zdigits2 c - 53
                     /\ rne_div (r1 * 2 ^ 106) (C * 2 ^ t1)
                        <= rne_div (r2 * 2 ^ 106) (C * 2 ^ t2))).
  { destruct (Z.eq_dec t1 t2) as [->|Hne]; [right|left; lia].
    split; [reflexivity|]. apply rne_div_mono; [nia|lia]. }
  pose proof (normal_float_le 53 _ _ _ _ ltac:(lia) HM1 HM2 Hord) as Hleb.
  destruct (normal_float_is_normal 53 _ (t1 - Zdigits2 c - 53) ltac:(lia) HM1)
    as (m1 & e1 & N1 & D1 & B1).
  destruct (normal_float_is_normal 53 _ (t2 - Zdigits2 c - 53) ltac:(lia) HM2)
    as (m2 & e2 & N2 & D2 & B2).
  rewrite N1, N2 in Hleb. apply SFleb_finite_pos_inv in Hleb.
  exists m1, e1, m2, e2. rewrite E1, E2. repeat split; try assumption; lia.
Qed.

Lemma float_of_double_mono (m1 m2 : positive) (e1 e2 : Z) :
  Zpos (digits2_pos m1) = 53 -> Zpos (digits2_pos m2) = 53 ->
  -178 <= e1 <= 74 -> -178 <= e2 <= 74 ->
  e1 < e2 \/ (e1 = e2 /\ Zpos m1 <= Zpos m2) ->
  exists n1 f1 n2 f2,
    Float.float_of_double (S754_finite false m1 e1) = S754_finite false n1 f1
    /\ Float.float_of_double (S754_finite false m2 e2) = S754_finite false n2 f2
    /\ Zpos (digits2_pos n1) = 24 /\ Zpos (digits2_pos n2) = 24
    /\ (f1 < f2 \/ (f1 = f2 /\ Zpos n1 <= Zpos n2)).
Proof.
  intros Hd1 Hd2 He1 He2 Hord.
  pose proof (digits2_pos_bounds m1) as B1. rewrite Hd1 in B1.
  pose proof (digits2_pos_bounds m2) as B2. rewrite Hd2 in B2.
  change (53 - 1) with 52 in B1, B2.
  assert (HM1 := rne_div_digits 24 (Zpos m1) (2 ^ 29) ltac:(lia) ltac:(lia) ltac:(lia)).
  assert (HM2 := rne_div_digits 24 (Zpos m2) (2 ^ 29) ltac:(lia) ltac:(lia) ltac:(lia)).
  assert (Hord' : e1 + 29 < e2 + 29
                  \/ (e1 + 29 = e2 + 29
                      /\ rne_div (Zpos m1) (2 ^ 29) <= rne_div (Zpos m2) (2 ^ 29))).
  { destruct Hord as [H|[H Hm]]; [left; lia|right]. split; [lia|].
    apply rne_div_mono; lia. }
  pose proof (normal_float_le 24 _ _ _ _ ltac:(lia) HM1 HM2 Hord') as Hleb.
  destruct (normal_float_is_normal 24 _ (e1 + 29) ltac:(lia) HM1) as (n1 & f1 & N1 & D1 & _).
  destruct (normal_float_is_normal 24 _ (e2 + 29) ltac:(lia) HM2) as (n2 & f2 & N2 & D2 & _).
  rewrite N1, N2 in Hleb. apply SFleb_finite_pos_inv in Hleb.
  exists n1, f1, n2, f2.
  rewrite !float_of_double_normal by assumption. rewrite N1, N2.
  repeat split; assumption.
Qed.

Lemma round_magnitude_scaled (m : positive) (e K : Z) :
  0 <= K -> 0 <= e + K ->
  Float.round_magnitude m e = (2 * (Zpos m * 2 ^ (e + K)) + 2 ^ K) / 2 ^ (K + 1).
Proof.
  intros HK HeK. unfold Float.round_magnitude.
  assert (HpK : 0 < 2 ^ K) by (apply Z.pow_pos_nonneg; lia).
  destruct e as [|p|n].
  - rewrite Z.shiftl_mul_pow2 by lia.
    rewrite Z.add_0_l, Z.pow_0_r, Z.mul_1_r, Z.pow_add_r, Z.pow_1_r by lia.
    apply Z.div_unique with (2 ^ K); lia.
  - rewrite Z.shiftl_mul_pow2 by lia.
    assert (Hpp : 0 < 2 ^ Zpos p) by (apply Z.pow_pos_nonneg; lia).
    rewrite (Z.pow_add_r 2 (Zpos p) K), (Z.pow_add_r 2 K 1), Z.pow_1_r by lia.
    apply Z.div_unique with (2 ^ K); nia.
  - rewrite Z.shiftr_div_pow2, Z.shiftl_mul_pow2, Z.mul_1_l by lia.
    assert (Hn : 2 ^ Zpos n = 2 * 2 ^ (Zpos n - 1)).
    { rewrite <- Z.pow_succ_r by lia. f_equal. lia. }
    assert (Hsplit : 2 ^ K = 2 ^ Zpos n * 2 ^ (Zneg n + K)).
    { rewrite <- Z.pow_add_r by lia. f_equal. lia. }
    assert (Hpn : 0 < 2 ^ (Zneg n + K)) by (apply Z.pow_pos_nonneg; lia).
    assert (Hp1 : 0 < 2 ^ (Zpos n - 1)) by (apply Z.pow_pos_nonneg; lia).
    rewrite (Z.pow_add_r 2 K 1), Z.pow_1_r by lia.
    rewrite Hsplit.
    replace (2 * (Zpos m * 2 ^ (Zneg n + K)) + 2 ^ Zpos n * 2 ^ (Zneg n + K))
      with ((Zpos m + 2 ^ (Zpos n - 1)) * (2 * 2 ^ (Zneg n + K))) by (rewrite Hn; ring).
    replace (2 ^ Zpos n * 2 ^ (Zneg n + K) * 2)
      with (2 ^ Zpos n * (2 * 2 ^ (Zneg n + K))) by ring.
    rewrite Z.div_mul_cancel_r; [reflexivity|lia|lia].
Qed.

Lemma round_magnitude_mono (m1 m2 : positive) (e1 e2 : Z) :
  Zpos (digits2_pos m1) = 24 -> Zpos (digits2_pos m2) = 24 ->
  e1 < e2 \/ (e1 = e2 /\ Zpos m1 <= Zpos m2) ->
  Float.round_magnitude m1 e1 <= Float.round_magnitude m2 e2.
Proof.
  intros Hd1 Hd2 Hord.
  pose proof (digits2_pos_bounds m1) as B1. rewrite Hd1 in B1.
  pose proof (digits2_pos_bounds m2) as B2. rewrite Hd2 in B2.
  change (24 - 1) with 23 in B1, B2.
  set (K := Z.max 0 (Z.max (- e1) (- e2))).
  rewrite (round_magnitude_scaled m1 e1 K), (round_magnitude_scaled m2 e2 K) by (unfold K; lia).
  apply Z.div_le_mono; [apply Z.pow_pos_nonneg; lia|].
  assert (Hp1 : 0 < 2 ^ (e1 + K)) by (apply Z.pow_pos_nonneg; unfold K; lia).
  destruct Hord as [H|[-> H]]; [|nia].
  assert (Hs : 2 ^ (e2 + K) = 2 ^ (e2 - e1) * 2 ^ (e1 + K)).
  { rewrite <- Z.pow_add_r by (unfold K; lia). f_equal. lia. }
  assert (2 ^ 1 <= 2 ^ (e2 - e1)) by (apply Z.pow_le_mono_r; lia).
  rewrite Hs. change (2 ^ 24) with (2 * 2 ^ 23) in B1. change (2 ^ 1) with 2 in *. nia.
Qed.

Lemma quotient_reading_0 (c : Z) :
  0 < c < 2 ^ 53 -> quotient_reading c 0 = S754_zero false.
Proof.
  intros Hc. unfold quotient_reading.
  destruct (double_of_Z_pos c Hc) as (mc & Ec & _). now rewrite Ec.
Qed.

Lemma round_magnitude_nonneg (m : positive) (e : Z) : 0 <= Float.round_magnitude m e.
Proof.
  rewrite (round_magnitude_scaled m e (Z.max 0 (- e))) by lia.
  assert (0 < 2 ^ (e + Z.max 0 (- e))) by (apply Z.pow_pos_nonneg; lia).
  assert (0 < 2 ^ Z.max 0 (- e)) by (apply Z.pow_pos_nonneg; lia).
  apply Z.div_pos; [lia|]. apply Z.pow_pos_nonneg; lia.
Qed.

(** The rounded quotient grows with the raw value. *)
Lemma quotient_reading_mono (c r1 r2 : Z) :
  0 < c < 2 ^ 53 -> 0 <= r1 -> r1 <= r2 -> r2 < 2 ^ 53 ->
  Float.round (quotient_reading c r1) <= Float.round (quotient_reading c r2).
Proof.
  intros Hc Hr1 Hle Hr2.
  assert (Hpos : forall r, 0 < r < 2 ^ 53 -> 0 <= Float.round (quotient_reading c r)).
  { intros r Hr.
    destruct (ddiv_double_of_Z_mono c r r Hc ltac:(lia) ltac:(lia) ltac:(lia))
      as (m1 & e1 & m2 & e2 & E1 & E2 & D1 & D2 & B1 & B2 & H).
    destruct (float_of_double_mono m1 m2 e1 e2 D1 D2 ltac:(lia) ltac:(lia) H)
      as (n1 & f1 & n2 & f2 & F1 & F2 & G).
    unfold quotient_reading. rewrite E1, F1. simpl. apply round_magnitude_nonneg. }
  destruct (Z.eq_dec r1 0) as [->|Hne].
  - rewrite quotient_reading_0 by assumption. simpl.
    destruct (Z.eq_dec r2 0) as [->|Hne2].
    + rewrite quotient_reading_0 by assumption. simpl. lia.
    + apply Hpos. lia.
  - destruct (ddiv_double_of_Z_mono c r1 r2 Hc ltac:(lia) Hle Hr2)
      as (m1 & e1 & m2 & e2 & E1 & E2 & D1 & D2 & B1 & B2 & H).
    destruct (float_of_double_mono m1 m2 e1 e2 D1 D2 ltac:(lia) ltac:(lia) H)
      as (n1 & f1 & n2 & f2 & F1 & F2 & G1 & G2 & H').
    unfold quotient_reading. rewrite E1, E2, F1, F2. simpl.
    now apply round_magnitude_mono.
Qed.

(** *** Negative raw values *)

Lemma binary_round_aux_opp (prec emax : Z) (m e : Z) (l : location) :
  binary_round_aux prec emax true m e l
  = SFopp (binary_round_aux prec emax false m e l).
Proof.
  unfold binary_round_aux.
  destruct (shr_fexp prec emax m e l) as [mrs' e'].
  destruct (shr_fexp prec emax _ e' loc_Exact) as [mrs'' e''].
  destruct (shr_m mrs''); try reflexivity.
  destruct (e'' <=? emax - prec); reflexivity.
Qed.

Lemma binary_round_opp (prec emax : Z) (m : positive) (e : Z) :
  binary_round prec emax true m e = SFopp (binary_round prec emax false m e).
Proof.
  unfold binary_round. destruct (shl_align m e _) as [mz ez].
  apply binary_round_aux_opp.
Qed.

Lemma round_opp (x : spec_float) : Float.round (SFopp x) = - Float.round x.
Proof. destruct x as [s|s| |[] m e]; simpl; lia. Qed.

Lemma quotient_reading_opp (c r : Z) :
  0 < c < 2 ^ 53 -> 0 < r < 2 ^ 53 ->
  Float.round (quotient_reading c (- r)) = - Float.round (quotient_reading c r).
Proof.
  intros Hc Hr. rewrite <- round_opp. f_equal.
  destruct (ddiv_double_of_Z_mono c r r Hc ltac:(lia) ltac:(lia) ltac:(lia))
    as (m1 & e1 & m2 & e2 & E1 & E2 & D1 & D2 & B1 & B2 & H).
  destruct (double_of_Z_pos r Hr) as (m & Er & _).
  destruct (double_of_Z_pos c Hc) as (mc & Ec & _).
  assert (Eneg : Float.double_of_Z (- r) = S754_finite true m (Zdigits2 r - 53)).
  { destruct r as [|p|p]; try lia.
    change (Float.double_of_Z (- Zpos p)) with (binary_round 53 1024 true p 0).
    rewrite binary_round_opp.
    change (binary_round 53 1024 false p 0) with (Float.double_of_Z (Zpos p)).
    now rewrite Er. }
  unfold quotient_reading in *. rewrite Eneg, Er, Ec in *.
  assert (Ediv : Float.ddiv (S754_finite true m (Zdigits2 r - 53)) (S754_finite false mc (Zdigits2 c - 53))
                 = SFopp (Float.ddiv (S754_finite false m (Zdigits2 r - 53))
                            (S754_finite false mc (Zdigits2 c - 53)))).
  { unfold Float.ddiv, SFdiv.
    destruct (SFdiv_core_binary _ _ _ _ _ _) as [[mz ez] lz].
    apply binary_round_aux_opp. }
  rewrite Ediv, E1. simpl SFopp.
  unfold Float.float_of_double. simpl cond_Zopp. unfold binary_normalize.
  apply binary_round_opp.
Qed.

(** *** From the check of the end points to every raw value *)

Lemma all_from_spec (P : Z -> bool) (n : nat) :
  forall lo, all_from P lo n = true ->
  forall k, lo <= k < lo + Z.of_nat n -> P k = true.
Proof.
  induction n as [|n IH]; intros lo H k Hk; [lia|].
  simpl in H. apply andb_prop in H as [H1 H2].
  destruct (Z.eq_dec k lo) as [->|Hne]; [exact H1|].
  apply (IH (lo + 1)); [exact H2 | lia].
Qed.

Lemma all_below_spec (P : Z -> bool) (n : Z) :
  all_below P n = true -> forall k, 0 <= k < n -> P k = true.
Proof.
  intros H k Hk. apply (all_from_spec P (Z.to_nat n) 0 H). lia.
Qed.

Lemma rounds_to_nearest (c K : Z) :
  2 < c < 2 ^ 26 -> c mod 2 = 0 -> 0 <= K < 2 ^ 26 ->
  all_below (rounds_at c) K = true ->
  forall r, 0 <= r < c * K - c / 2 ->
  Float.round (quotient_reading c r) = (r + c / 2) / c.
Proof.
  intros Hc Heven HK Hall r Hr.
  pose proof (all_below_spec _ _ Hall) as Hk.
  set (h := c / 2) in *.
  assert (Hch : c = 2 * h) by (unfold h; pose proof (Z_div_mod_eq_full c 2); lia).
  set (k := (r + h) / c).
  assert (Hrk : c * k <= r + h < c * k + c).
  { unfold k. pose proof (Z_div_mod_eq_full (r + h) c).
    pose proof (Z.mod_pos_bound (r + h) c ltac:(lia)). lia. }
  assert (Hk0 : 0 <= k) by (unfold k; apply Z.div_pos; lia).
  assert (HkK : k < K) by nia.
  assert (Hc53 : 0 < c < 2 ^ 53) by lia.
  assert (Hbig : c * K < 2 ^ 53).
  { assert (c * K < 2 ^ 26 * 2 ^ 26) by nia. lia. }
  assert (Hup : Float.round (quotient_reading c r) <= k).
  { specialize (Hk k ltac:(lia)). unfold rounds_at in Hk. fold h in Hk.
    apply andb_prop in Hk as [Hk _]. apply Z.eqb_eq in Hk.
    rewrite <- ddiv_scaled_quotient in Hk by nia.
    fold (quotient_reading c (c * k + h - 1)) in Hk. rewrite <- Hk.
    apply quotient_reading_mono; try lia; nia. }
  assert (Hlow : k <= Float.round (quotient_reading c r)).
  { destruct (Z.eq_dec k 0) as [E0|Hne].
    - rewrite E0.
      pose proof (quotient_reading_mono c 0 r Hc53 ltac:(lia) ltac:(lia) ltac:(nia)) as H0.
      now rewrite quotient_reading_0 in H0.
    - specialize (Hk (k - 1) ltac:(lia)). unfold rounds_at in Hk. fold h in Hk.
      apply andb_prop in Hk as [_ Hk]. apply Z.eqb_eq in Hk.
      replace (k - 1 + 1) with k in Hk by lia.
      rewrite <- ddiv_scaled_quotient in Hk by nia.
      fold (quotient_reading c (c * k - h)) in Hk. rewrite <- Hk at 1.
      apply quotient_reading_mono; try lia; nia. }
  lia.
Qed.

(** The literals are the correctly rounded quotients. *)
Example d1_8_is_nearest :
  Float.ddiv (Float.double_of_Z 9) (Float.double_of_Z 5) = Float.d1_8.
Proof. reflexivity. Qed.

Example d273_15_is_nearest :
  Float.ddiv (Float.double_of_Z 27315) (Float.double_of_Z 100) = Float.d273_15.
Proof. reflexivity. Qed.

(** *** The three conversions of [convert_reading] *)

Lemma float_of_Z_exact (r : Z) :
  - 2 ^ 24 < r < 2 ^ 24 -> Float.round (Float.float_of_Z r) = r.
Proof.
  assert (Hpos : forall p, Zpos p < 2 ^ 24 ->
            Float.round (Float.float_of_Z (Zpos p)) = Zpos p).
  { intros p Hp.
    pose proof (Zdigits2_le (Zpos p) 24 ltac:(lia) ltac:(lia)) as Hd. simpl in Hd.
    destruct (binary_round_exact 24 128 ltac:(lia) ltac:(lia) false p Hd)
      as (m & E & Hm & _).
    change (Float.float_of_Z (Zpos p)) with (binary_round 24 128 false p 0).
    rewrite E. simpl Float.round.
    set (K := 24 - Zpos (digits2_pos p)) in *.
    rewrite (round_magnitude_scaled m _ K) by (unfold K; lia).
    replace (Zpos (digits2_pos p) - 24 + K) with 0 by (unfold K; lia).
    rewrite Z.pow_0_r, Z.mul_1_r, Hm, Z.pow_add_r, Z.pow_1_r by (unfold K; lia).
    assert (0 < 2 ^ K) by (apply Z.pow_pos_nonneg; unfold K; lia).
    symmetry. apply Z.div_unique with (2 ^ K); lia. }
  intros Hr. destruct r as [|p|p].
  - reflexivity.
  - apply Hpos. lia.
  - change (Float.float_of_Z (Zneg p)) with (binary_round 24 128 true p 0).
    rewrite binary_round_opp, round_opp.
    change (binary_round 24 128 false p 0) with (Float.float_of_Z (Zpos p)).
    rewrite Hpos; lia.
Qed.

Lemma celsius_end_points : all_below (rounds_at 1000) 32768 = true.
Proof. vm_cast_no_check (eq_refl true). Qed.

Lemma watts_end_points : all_below (rounds_at 1000000) 32 = true.
Proof. vm_cast_no_check (eq_refl true). Qed.

Lemma round_celsius (r : Z) :
  0 <= r < 32767500 ->
  Float.round (convert_reading TEMPERATURE r) = (r + 500) / 1000.
Proof.
  intros Hr.
  apply (rounds_to_nearest 1000 32768); try lia;
    [reflexivity | exact celsius_end_points | change (1000 / 2) with 500; lia].
Qed.

Lemma round_celsius_neg (r : Z) :
  -32767500 < r < 0 ->
  Float.round (convert_reading TEMPERATURE r) = - ((- r + 500) / 1000).
Proof.
  intros Hr. replace r with (- - r) at 1 by lia.
  change (convert_reading TEMPERATURE (- - r)) with (quotient_reading 1000 (- - r)).
  rewrite quotient_reading_opp by lia. f_equal.
  apply (round_celsius (- r)). lia.
Qed.

Lemma round_watts (raw : Z) :
  0 <= raw < 31500000 ->
  Float.round (convert_reading POWER raw) = (raw + 500000) / 1000000.
Proof.
  intros Hr.
  apply (rounds_to_nearest 1000000 32); try lia;
    [reflexivity | exact watts_end_points | change (1000000 / 2) with 500000; lia].
Qed.

(** ** The formulas in exact arithmetic, as integer quotients *)

Lemma Qround_half_away_frac (n : Z) (d : positive) :
  Qround_half_away (n # d)
  = if 0 <=? n then (2 * n + Zpos d) / (2 * Zpos d)
    else - ((2 * (- n) + Zpos d) / (2 * Zpos d)).
Proof.
  unfold Qround_half_away, Qle_bool, Qceiling, Qfloor, Qminus, Qplus, Qopp. simpl.
  rewrite Z.mul_0_l, Z.mul_1_r, Pos2Z.inj_mul.
  destruct (0 <=? n); [apply (f_equal2 Z.div); lia|].
  apply (f_equal Z.opp). apply (f_equal2 Z.div); lia.
Qed.

Lemma spec_celsius_nonneg r : 0 <= r -> spec_celsius r = (r + 500) / 1000.
Proof.
  intros H. unfold spec_celsius. rewrite Qround_half_away_frac.
  destruct (0 <=? r) eqn:E; [|lia].
  replace (2 * r + 1000) with (2 * (r + 500)) by lia.
  now rewrite Z.div_mul_cancel_l.
Qed.

Lemma spec_celsius_neg r : r < 0 -> spec_celsius r = - ((- r + 500) / 1000).
Proof.
  intros H. unfold spec_celsius. rewrite Qround_half_away_frac.
  destruct (0 <=? r) eqn:E; [lia|].
  replace (2 * - r + 1000) with (2 * (- r + 500)) by lia.
  now rewrite Z.div_mul_cancel_l.
Qed.

Lemma spec_watts_nonneg raw : 0 <= raw -> spec_watts raw = (raw + 500000) / 1000000.
Proof.
  intros H. unfold spec_watts. rewrite Qround_half_away_frac.
  destruct (0 <=? raw) eqn:E; [|lia].
  replace (2 * raw + 1000000) with (2 * (raw + 500000)) by lia.
  now rewrite Z.div_mul_cancel_l.
Qed.

Lemma fahrenheit_of_celsius_nonneg c :
  0 <= c -> fahrenheit_of_celsius c = (18 * c + 325) / 10.
Proof.
  intros H. unfold fahrenheit_of_celsius.
  change (inject_Z c * (18 # 10) + inject_Z 32)%Q
    with ((c * 18 * 1 + 32 * Zpos (1 * 10)) # (1 * 10 * 1)).
  rewrite Qround_half_away_frac.
  change (Zpos (1 * 10 * 1)) with 10. change (Zpos (1 * 10)) with 10.
  destruct (0 <=? _) eqn:E; [|lia].
  replace (2 * (c * 18 * 1 + 32 * 10) + 10) with (2 * (18 * c + 325)) by lia.
  now rewrite Z.div_mul_cancel_l.
Qed.

Lemma kelvin_of_celsius_nonneg c : 0 <= c -> kelvin_of_celsius c = c + 273.
Proof.
  intros H. unfold kelvin_of_celsius.
  change (inject_Z c + (27315 # 100))%Q with ((c * 100 + 27315 * 1) # (1 * 100)).
  rewrite Qround_half_away_frac.
  change (Zpos (1 * 100)) with 100.
  destruct (0 <=? _) eqn:E; [|lia].
  replace (2 * (c * 100 + 27315 * 1) + 100) with (130 + (c + 273) * 200) by lia.
  rewrite Z.div_add by lia. reflexivity.
Qed.

Lemma round_watts_neg (raw : Z) :
  -31500000 < raw < 0 ->
  Float.round (convert_reading POWER raw) = - ((- raw + 500000) / 1000000).
Proof.
  intros Hr. replace raw with (- - raw) at 1 by lia.
  change (convert_reading POWER (- - raw)) with (quotient_reading 1000000 (- - raw)).
  rewrite quotient_reading_opp by lia. f_equal.
  apply (round_watts (- raw)). lia.
Qed.

Lemma spec_watts_neg raw : raw < 0 -> spec_watts raw = - ((- raw + 500000) / 1000000).
Proof.
  intros H. unfold spec_watts. rewrite Qround_half_away_frac.
  destruct (0 <=? raw) eqn:E; [lia|].
  replace (2 * - raw + 1000000) with (2 * (- raw + 500000)) by lia.
  now rewrite Z.div_mul_cancel_l.
Qed.

(** In the exact range the rounded reading is the true reading. *)
Lemma round_convert_reading (sensor_type : SensorType) (r : Z) :
  in_exact_range sensor_type r ->
  Float.round (convert_reading sensor_type r) = true_reading sensor_type r.
Proof.
  destruct sensor_type; unfold in_exact_range, true_reading; intros Hr.
  - destruct (Z.lt_ge_cases r 0).
    + rewrite round_celsius_neg, spec_celsius_neg; lia.
    + rewrite round_celsius, spec_celsius_nonneg; lia.
  - apply (float_of_Z_exact r). exact Hr.
  - destruct (Z.lt_ge_cases r 0).
    + rewrite round_watts_neg, spec_watts_neg; lia.
    + rewrite round_watts, spec_watts_nonneg; lia.
Qed.

Lemma derived_units_checked : all_below derived_units_agree 32768 = true.
Proof. vm_cast_no_check (eq_refl true). Qed.

Lemma derived_units_exact (c : Z) :
  0 <= c < 32768 ->
  fahrenheit c = fahrenheit_of_celsius c /\ kelvin c = kelvin_of_celsius c.
Proof.
  intros Hc.
  pose proof (all_below_spec _ _ derived_units_checked c ltac:(lia)) as H.
  unfold derived_units_agree in H. apply andb_prop in H as [HF HK].
  apply Z.eqb_eq in HF, HK.
  rewrite fahrenheit_of_celsius_nonneg, kelvin_of_celsius_nonneg by lia. now split.
Qed.

Lemma getReadings_linux os self :
  is_open (fs_open os (file_path_ self)) = true ->
  good (fs_open os (file_path_ self)) = true ->
  getReadings Linux os self
  = Return (convert_reading (sensor_type_ self)
              (strtol (getline (fs_open os (file_path_ self))))).
Proof. intros Ho Hg. unfold getReadings. now rewrite Ho, Hg. Qed.

(** ** The derived units *)

(** C1 (as amended): for a raw temperature [r] from 0 up to 32767499,
    Celsius is [r / 1000] rounded to the nearest integer; that integer is the
    reading the tick classifies and renders, and Fahrenheit and Kelvin are
    rounded from it, not from [r / 1000]. *)
Theorem units_from_rounded_celsius os env self w r :
  sensor_type_ self = TEMPERATURE ->
  is_open (fs_open os (file_path_ self)) = true ->
  good (fs_open os (file_path_ self)) = true ->
  strtol (getline (fs_open os (file_path_ self))) = r ->
  0 <= r < 32767500 ->
  update Linux os env self w
  = (format ← classify self (isCritical self (spec_celsius r))
                (isWarning self (spec_celsius r));
     render env self (spec_celsius r) format) w
  /\ units TEMPERATURE (spec_celsius r)
     = {| power := 0; fan_speed := 0;
          temperature_c := spec_celsius r;
          temperature_f := fahrenheit_of_celsius (spec_celsius r);
          temperature_k := kelvin_of_celsius (spec_celsius r) |}.
Proof.
  intros Hst Ho Hg Hl Hr.
  assert (Hc : 0 <= spec_celsius r < 32768).
  { rewrite spec_celsius_nonneg by lia. split.
    - apply Z.div_pos; lia.
    - apply Z.div_lt_upper_bound; lia. }
  assert (Hv : uint16_of_rounded (convert_reading TEMPERATURE r) = spec_celsius r).
  { unfold uint16_of_rounded, uint16_of_Z.
    rewrite (round_convert_reading TEMPERATURE) by (simpl; lia).
    simpl true_reading.
    rewrite int_of_rounded_small by (unfold INT_MIN, INT_MAX; lia).
    apply Z.mod_small. lia. }
  split.
  - rewrite (update_unfold _ _ _ _ _ _ (getReadings_linux os self Ho Hg)).
    now rewrite Hst, Hl, Hv.
  - destruct (derived_units_exact _ Hc) as [HF HK].
    unfold units. now rewrite HF, HK.
Qed.

Lemma units_from_rounded_celsius_witness :
  units TEMPERATURE (spec_celsius 45400)
  = {| power := 0; fan_speed := 0; temperature_c := 45;
       temperature_f := 113; temperature_k := 318 |}.
Proof.
  exact (proj2 (units_from_rounded_celsius
                  (single_file_system sample_path "45400") sample_env
                  (sample_object TEMPERATURE "temperature") fresh_widget 45400
                  eq_refl eq_refl eq_refl eq_refl ltac:(lia))).
Defined.

(** C1, as stated, fails: the raw value 45400 is rendered as 45 °C, 113 °F
    and 318 K, where the formulas on the unrounded 45.4 give 114 °F and
    319 K. *)
Lemma units_not_from_unrounded_celsius : ~ units_from_unrounded_celsius 45400.
Proof. intros (_ & HF & _). vm_compute in HF. discriminate HF. Qed.

(** C9 (as amended): Watts is [raw / 1000000] rounded to the nearest integer
    (halfway cases away from zero), for raw values from 0 up to 31499999; so
    1250000 gives 1 W, and 999999 gives 1 W as well. *)
Theorem watts_round_to_nearest (raw : Z) :
  0 <= raw < 31500000 ->
  rendered_units POWER raw
  = {| power := spec_watts raw; fan_speed := 0; temperature_c := 0;
       temperature_f := 0; temperature_k := 0 |}
  /\ spec_watts raw = (raw + 500000) / 1000000.
Proof.
  intros Hr. split; [|apply spec_watts_nonneg; lia].
  assert (Hw : 0 <= spec_watts raw < 32).
  { rewrite spec_watts_nonneg by lia. split.
    - apply Z.div_pos; lia.
    - apply Z.div_lt_upper_bound; lia. }
  unfold rendered_units, units, uint16_of_rounded, uint16_of_Z.
  rewrite (round_convert_reading POWER) by (simpl; lia). simpl true_reading.
  rewrite int_of_rounded_small by (unfold INT_MIN, INT_MAX; lia).
  rewrite Z.mod_small; [reflexivity | lia].
Qed.

Lemma watts_round_to_nearest_witness :
  power (rendered_units POWER 1250000) = 1 /\ power (rendered_units POWER 999999) = 1.
Proof.
  split.
  - rewrite (proj1 (watts_round_to_nearest 1250000 ltac:(lia))). reflexivity.
  - rewrite (proj1 (watts_round_to_nearest 999999 ltac:(lia))). reflexivity.
Defined.

(** C9, as stated, fails: the raw value 999999 is shown as 1 W, not 0 W. *)
Lemma watts_999999_is_1 : ~ watts_examples.
Proof. intros [_ H]. vm_compute in H. discriminate H. Qed.

(** Beyond the exact range a [float] cannot tell 32.499999 from 32.5, nor
    32768.499 from 32768.5: the raw value 32499999 is shown as 33 W, and
    32768499 as 32769 °C. *)
Example watts_32499999 :
  power (rendered_units POWER 32499999) = 33 /\ spec_watts 32499999 = 32.
Proof. split; reflexivity. Qed.

Example celsius_32768499 :
  temperature_c (rendered_units TEMPERATURE 32768499) = 32769
  /\ spec_celsius 32768499 = 32768.
Proof. split; reflexivity. Qed.

(** ** The 16-bit reading *)




(** A sensor at -5 °C is shown as 65531 °C and styled critical; a fan at
    70000 RPM is shown as 4464 RPM. *)
Example sub_zero_reading :
  let w := (tick (sample_object TEMPERATURE "temperature") "-5000" fresh_widget).1 in
  label_markup w = "65531°C"%string /\ elements (style_classes w) = [ "critical"%string ].
Proof. vm_compute. split; reflexivity. Qed.

Example fast_fan_reading :
  fan_speed (rendered_units FAN 70000) = 4464.
Proof. reflexivity. Qed.

(** * Further properties of the code *)

(** ** The constructor *)

Lemma Temperature_new_linux_inv os config self :
  Temperature_new Linux os config = Return self ->
  exists sensor_type file_path,
    sensor_type_of_config config = Return sensor_type
    /\ resolve_file_path os config sensor_type = Return file_path
    /\ is_open (fs_open os file_path) = true
    /\ good (fs_open os file_path) = true
    /\ self = {| config_ := config; format_ := ALabel_format config default_format;
                 sensor_type_ := sensor_type; file_path_ := file_path |}.
Proof.
  unfold Temperature_new.
  destruct (sensor_type_of_config config) as [st|e]; simpl; [|discriminate].
  destruct (resolve_file_path os config st) as [p|e] eqn:Hp; simpl; [|discriminate].
  destruct (is_open (fs_open os p)) eqn:Ho; simpl; [|discriminate].
  destruct (good (fs_open os p)) eqn:Hg; simpl; [|discriminate].
  intros [= <-]. exists st, p. repeat split; assumption.
Qed.

(** X1: An object that the constructor returned on Linux can be read: on the
    same system [getReadings] throws nothing and returns the conversion of the
    first line of the file the constructor probed. *)
Theorem constructed_object_reads os config self :
  Temperature_new Linux os config = Return self ->
  config_ self = config
  /\ is_open (fs_open os (file_path_ self)) = true
  /\ good (fs_open os (file_path_ self)) = true
  /\ getReadings Linux os self
     = Return (convert_reading (sensor_type_ self)
                 (strtol (getline (fs_open os (file_path_ self))))).
Proof.
  intros H. apply Temperature_new_linux_inv in H as (st & p & _ & _ & Ho & Hg & ->).
  simpl. repeat split; try assumption.
  unfold getReadings. simpl. now rewrite Ho, Hg.
Qed.

Lemma constructed_object_reads_witness :
  exists self,
    Temperature_new Linux (single_file_system sample_path "1200") (sample_config "fan")
    = Return self
    /\ getReadings Linux (single_file_system sample_path "1200") self
       = Return (Float.float_of_Z 1200).
Proof.
  eexists. split; [reflexivity|].
  exact (proj2 (proj2 (proj2 (constructed_object_reads
                  (single_file_system sample_path "1200") (sample_config "fan") _ eq_refl)))).
Defined.

(** X2: The kind of a constructed object on Linux is FAN exactly when ["type"]
    is the string "fan", POWER exactly when it is the string "power", and
    TEMPERATURE in every other case: a missing ["type"], a value that is not a
    string, or any other spelling is accepted silently. *)
Theorem sensor_kind_from_type os config self :
  Temperature_new Linux os config = Return self ->
  (sensor_type_ self = FAN <-> Json.member config "type" = Json.stringValue "fan")
  /\ (sensor_type_ self = POWER <-> Json.member config "type" = Json.stringValue "power").
Proof.
  intros H. apply Temperature_new_linux_inv in H as (st & p & Hst & _ & _ & _ & ->).
  simpl. unfold sensor_type_of_config in Hst.
  destruct (Json.member config "type") as [|z|s|items]; simpl in Hst;
    try (injection Hst as <-; split; split; discriminate).
  destruct (String.eqb_spec s "power") as [E|Hp]; simpl in Hst.
  { subst s. injection Hst as <-. split; split; congruence. }
  destruct (String.eqb_spec s "fan") as [E|Hf]; simpl in Hst.
  { subst s. injection Hst as <-. split; split; congruence. }
  destruct (String.eqb s "temperature"); injection Hst as <-;
    split; split; congruence.
Qed.

Lemma sensor_kind_from_type_witness :
  exists self,
    Temperature_new Linux (single_file_system sample_path "1200") (sample_config "Fan")
    = Return self
    /\ sensor_type_ self <> FAN.
Proof.
  eexists. split; [reflexivity|].
  intros H.
  apply (proj1 (sensor_kind_from_type
                  (single_file_system sample_path "1200") (sample_config "Fan") _ eq_refl)) in H.
  discriminate H.
Defined.

(** X3: A fan or power sensor has no default path.  When ["hwmon-path"] names
    no existing path and the scan of ["hwmon-path-abs"] gives nothing,
    ["thermal-zone"] is not consulted: the constructor tries to open the empty
    path and, on a system where that cannot be opened, throws "Can't open "
    followed by nothing. *)
Theorem no_default_path_for_fan_and_power os config sensor_type :
  sensor_type_of_config config = Return sensor_type ->
  sensor_type <> TEMPERATURE ->
  traverseAsArray (Json.member config "hwmon-path") (check_hwmon_path os) = Return None ->
  (Json.isString (Json.member config "input-filename") = false
   \/ exists f, Json.member config "input-filename" = Json.stringValue f
                /\ traverseAsArray (Json.member config "hwmon-path-abs")
                     (check_hwmon_path_abs os f) = Return None) ->
  is_open (fs_open os "") = false ->
  resolve_file_path os config sensor_type = Return ""%string
  /\ Temperature_new Linux os config = Throw (runtime_error "Can't open ").
Proof.
  intros Hst Hk Hp Habs Ho.
  assert (Hr : resolve_file_path os config sensor_type = Return ""%string).
  { unfold resolve_file_path. rewrite Hp. simpl.
    rewrite (bool_decide_eq_false_2 _ Hk).
    destruct Habs as [Hf | (f & Hf & Hq)]; rewrite Hf; simpl; [reflexivity|].
    rewrite Hq. reflexivity. }
  split; [exact Hr|].
  unfold Temperature_new. rewrite Hst. simpl. rewrite Hr. simpl. now rewrite Ho.
Qed.

Lemma no_default_path_for_fan_and_power_witness :
  Temperature_new Linux (single_file_system (thermal_zone_path 0) "45000")
    {[ "type"%string := Json.stringValue "power" ]}
  = Throw (runtime_error "Can't open ").
Proof.
  exact (proj2 (no_default_path_for_fan_and_power
                  (single_file_system (thermal_zone_path 0) "45000")
                  {[ "type"%string := Json.stringValue "power" ]} POWER
                  eq_refl ltac:(discriminate) eq_refl (or_introl eq_refl) eq_refl)).
Defined.

Lemma member_insert_ne (config : Config) (k k' : string) (v : Json.Value) :
  k <> k' -> Json.member (<[k := v]> config) k' = Json.member config k'.
Proof. intros H. unfold Json.member. now rewrite lookup_insert_ne. Qed.

(** X4: ["hwmon-path-abs"] counts only together with ["input-filename"]: when
    the latter is not a string, the path the constructor resolves is the same
    whatever ["hwmon-path-abs"] holds, an array with items that do not convert
    to a string included. *)
Theorem hwmon_path_abs_needs_input_filename os config sensor_type v :
  Json.isString (Json.member config "input-filename") = false ->
  resolve_file_path os (<["hwmon-path-abs"%string := v]> config) sensor_type
  = resolve_file_path os config sensor_type.
Proof.
  intros Hf. unfold resolve_file_path, thermal_zone.
  rewrite (member_insert_ne _ _ "hwmon-path"), (member_insert_ne _ _ "thermal-zone"),
    !(member_insert_ne _ _ "input-filename") by discriminate.
  rewrite Hf.
  destruct (traverseAsArray _ _) as [found|e]; simpl; [|reflexivity].
  rewrite !andb_false_r. reflexivity.
Qed.

Lemma hwmon_path_abs_needs_input_filename_witness :
  resolve_file_path (directory_system "/sys/devices" ["hwmon3"%string] "45000")
    (<["hwmon-path-abs"%string := Json.stringValue "/sys/devices"]>
       {[ "thermal-zone"%string := Json.intValue 2 ]}) TEMPERATURE
  = Return (thermal_zone_path 2).
Proof.
  rewrite (hwmon_path_abs_needs_input_filename
             (directory_system "/sys/devices" ["hwmon3"%string] "45000")
             {[ "thermal-zone"%string := Json.intValue 2 ]}
             TEMPERATURE (Json.stringValue "/sys/devices")).
  - vm_compute. reflexivity.
  - vm_compute. reflexivity.
Defined.

Lemma find_hwmon_entry (es1 es2 : list directory_entry) (e : directory_entry) :
  Forall (fun e' => String.prefix "hwmon" (filename_string e') = false) es1 ->
  String.prefix "hwmon" (filename_string e) = true ->
  List.find (fun hwmon => String.prefix "hwmon" (filename_string hwmon)) (es1 ++ e :: es2)
  = Some e.
Proof.
  intros H He. induction H as [|e' es1 He' _ IH]; simpl.
  - now rewrite He.
  - now rewrite He'.
Qed.

Lemma find_no_hwmon_entry (es : list directory_entry) :
  Forall (fun e' => String.prefix "hwmon" (filename_string e') = false) es ->
  List.find (fun hwmon => String.prefix "hwmon" (filename_string hwmon)) es = None.
Proof. intros H. induction H as [|e' es He' _ IH]; simpl; [|rewrite He']; auto. Qed.

(** A directory of ["hwmon-path-abs"] that gives no path: not a directory, or
    without an entry whose name starts with "hwmon". *)
Definition no_hwmon_below (os : System) (dir : string) : Prop :=
  fs_is_directory os dir = false
  \/ Forall (fun e' => String.prefix "hwmon" (filename_string e') = false)
       (fs_directory_iterator os dir).

Lemma check_hwmon_path_abs_none os f dir :
  no_hwmon_below os dir -> check_hwmon_path_abs os f dir = None.
Proof.
  unfold check_hwmon_path_abs. intros [H|H].
  - now rewrite H.
  - destruct (negb _); [reflexivity|]. now rewrite (find_no_hwmon_entry _ H).
Qed.

(** X5: The scan of ["hwmon-path-abs"].  When ["hwmon-path"] gave nothing and
    ["input-filename"] is the string [f], the directories are tried in order;
    those that are no directory or hold no entry named "hwmon..." are passed
    over, and the first entry so named in the first directory that has one
    gives the path: that entry, "/", and [f].  Whatever follows that directory
    in the array is never looked at. *)
Theorem hwmon_path_abs_scan os config sensor_type f items1 dirs1 d items2 es1 e es2 :
  traverseAsArray (Json.member config "hwmon-path") (check_hwmon_path os) = Return None ->
  Json.member config "input-filename" = Json.stringValue f ->
  Json.member config "hwmon-path-abs" = Json.stringValue d /\ items1 = []
  \/ Json.member config "hwmon-path-abs"
     = Json.arrayValue (items1 ++ Json.stringValue d :: items2) ->
  as_strings items1 = Return dirs1 ->
  Forall (no_hwmon_below os) dirs1 ->
  fs_is_directory os d = true ->
  fs_directory_iterator os d = es1 ++ e :: es2 ->
  Forall (fun e' => String.prefix "hwmon" (filename_string e') = false) es1 ->
  String.prefix "hwmon" (filename_string e) = true ->
  resolve_file_path os config sensor_type = Return (path_string e +:+ "/" +:+ f).
Proof.
  intros Hp Hf Habs Hs Hn Hd Hes Hes1 He.
  assert (Hc : check_hwmon_path_abs os f d = Some (path_string e +:+ "/" +:+ f)).
  { unfold check_hwmon_path_abs. rewrite Hd, Hes. simpl.
    now rewrite (find_hwmon_entry _ _ _ Hes1 He). }
  assert (Ht : traverseAsArray (Json.member config "hwmon-path-abs")
                 (check_hwmon_path_abs os f)
               = Return (Some (path_string e +:+ "/" +:+ f))).
  { destruct Habs as [[-> _] | ->]; unfold traverseAsArray; simpl.
    - now rewrite Hc.
    - rewrite (traverse_items_skips _ _ dirs1 _ Hs).
      + simpl. now rewrite Hc.
      + eapply Forall_impl; [exact Hn|]. intros q. apply check_hwmon_path_abs_none. }
  unfold resolve_file_path. rewrite Hp, Hf. simpl. rewrite Ht. simpl.
  now rewrite is_empty_append_slash.
Qed.

Lemma hwmon_path_abs_scan_witness :
  resolve_file_path coretemp_system coretemp_config TEMPERATURE
  = Return "/sys/devices/platform/coretemp.0/hwmon/hwmon4/temp1_input"%string.
Proof.
  apply (hwmon_path_abs_scan coretemp_system coretemp_config TEMPERATURE "temp1_input"
           [Json.stringValue "/nowhere"] ["/nowhere"%string]
           coretemp_dir [Json.arrayValue []]
           [hwmon_entry coretemp_dir "uevent"]
           (hwmon_entry coretemp_dir "hwmon4")
           [hwmon_entry coretemp_dir "hwmon5"]).
  - vm_compute. reflexivity.
  - vm_compute. reflexivity.
  - right. vm_compute. reflexivity.
  - reflexivity.
  - constructor; [left; reflexivity | constructor].
  - reflexivity.
  - reflexivity.
  - constructor; [reflexivity | constructor].
  - reflexivity.
Defined.

(** X6: The loop over ["hwmon-path"] stops at the first existing path: the
    items after it are never converted nor tested, so that what they are does
    not matter. *)
Theorem hwmon_path_stops_at_first_existing os config sensor_type items1 paths1 p items2 :
  Json.member config "hwmon-path"
  = Json.arrayValue (items1 ++ Json.stringValue p :: items2) ->
  as_strings items1 = Return paths1 ->
  Forall (fun q => fs_exists os q = false) paths1 ->
  fs_exists os p = true ->
  p <> ""%string ->
  resolve_file_path os config sensor_type = Return p.
Proof.
  intros Hm Hs Hn Hp Hne. apply is_empty_false in Hne.
  unfold resolve_file_path. rewrite Hm. unfold traverseAsArray. simpl.
  rewrite (traverse_items_skips _ _ paths1 _ Hs).
  - simpl. unfold check_hwmon_path at 1. rewrite Hp. simpl. now rewrite Hne; simpl; rewrite Hne.
  - eapply Forall_impl; [exact Hn|]. intros q Hq. unfold check_hwmon_path. now rewrite Hq.
Qed.

Lemma hwmon_path_stops_at_first_existing_witness :
  resolve_file_path (single_file_system sample_path "45000") mixed_paths_config FAN
  = Return sample_path.
Proof.
  apply (hwmon_path_stops_at_first_existing (single_file_system sample_path "45000")
           mixed_paths_config FAN [Json.intValue 7] ["7"%string] sample_path
           [Json.arrayValue []]).
  - vm_compute. reflexivity.
  - reflexivity.
  - constructor; [reflexivity | constructor].
  - reflexivity.
  - discriminate.
Defined.

(** X7: An item of ["hwmon-path"] that is itself an array cannot be converted
    to a string: when the loop reaches it, no earlier item naming an existing
    path, the constructor ends with the logic error of the conversion. *)
Theorem unconvertible_item_aborts_construction os config items1 paths1 inner items2 :
  Json.member config "hwmon-path"
  = Json.arrayValue (items1 ++ Json.arrayValue inner :: items2) ->
  as_strings items1 = Return paths1 ->
  Forall (fun q => fs_exists os q = false) paths1 ->
  Temperature_new Linux os config
  = Throw (Json_LogicError "Type is not convertible to string").
Proof.
  intros Hm Hs Hn.
  destruct (sensor_type_of_config_returns config) as [st Hst].
  unfold Temperature_new. rewrite Hst. simpl.
  unfold resolve_file_path. rewrite Hm. unfold traverseAsArray. simpl.
  rewrite (traverse_items_skips _ _ paths1 _ Hs).
  - reflexivity.
  - eapply Forall_impl; [exact Hn|]. intros q Hq. unfold check_hwmon_path. now rewrite Hq.
Qed.

Lemma unconvertible_item_aborts_construction_witness :
  Temperature_new Linux (single_file_system sample_path "45000") nested_paths_config
  = Throw (Json_LogicError "Type is not convertible to string").
Proof.
  apply (unconvertible_item_aborts_construction (single_file_system sample_path "45000")
           nested_paths_config [] [] [] [Json.stringValue sample_path]).
  - vm_compute. reflexivity.
  - reflexivity.
  - constructor.
Defined.

(** ** Failed readings *)

(** X8: A tick on Linux whose file cannot be opened, or opens into a stream
    that is not good, throws the error of [getReadings] before anything is
    done to the widget: classes, visibility, markup and tooltip stay those of
    the last tick. *)
Theorem unreadable_file_leaves_widget os env self w :
  is_open (fs_open os (file_path_ self)) && good (fs_open os (file_path_ self)) = false ->
  update Linux os env self w
  = (w, Throw (runtime_error
                 ((if is_open (fs_open os (file_path_ self))
                   then "Can't read from " else "Can't open ") +:+ file_path_ self))).
Proof.
  intros H. unfold update, lift, mbind, M_bind, getReadings.
  destruct (is_open (fs_open os (file_path_ self))); simpl in *.
  - now rewrite H.
  - reflexivity.
Qed.

Lemma unreadable_file_leaves_widget_witness :
  update Linux empty_system sample_env (sample_object FAN "fan") fresh_widget
  = (fresh_widget, Throw (runtime_error ("Can't open " +:+ sample_path))).
Proof.
  exact (unreadable_file_leaves_widget empty_system sample_env
           (sample_object FAN "fan") fresh_widget eq_refl).
Defined.

(** ** The classes of the label *)

(** X9: The classes after a tick that obtained a reading, when the base
    class's update leaves the classes alone.  "critical" is on the label
    exactly when the reading is critical.  On a tick that is not critical,
    "warning" is on it exactly when the reading is a warning; on a critical
    tick "warning" is as it was before.  No other class is added or removed. *)
Theorem classes_after_tick platform os env self x w :
  getReadings platform os self = Return x ->
  (forall w', style_classes (ALabel_update env w').1 = style_classes w') ->
  let readings := uint16_of_rounded x in
  let classes := style_classes (update platform os env self w).1 in
  ("critical"%string ∈ classes <-> isCritical self readings = true)
  /\ (isCritical self readings = false ->
      ("warning"%string ∈ classes <-> isWarning self readings = true))
  /\ (isCritical self readings = true ->
      ("warning"%string ∈ classes <-> "warning"%string ∈ style_classes w))
  /\ (forall c, c <> "critical"%string -> c <> "warning"%string ->
      (c ∈ classes <-> c ∈ style_classes w)).
Proof.
  intros Hx Hparent readings classes.
  assert (Hcl : classes
                = if isCritical self readings then {[ "critical"%string ]} ∪ style_classes w
                  else if isWarning self readings
                       then {[ "warning"%string ]} ∪ (style_classes w ∖ {[ "critical"%string ]})
                       else (style_classes w ∖ {[ "critical"%string ]}) ∖ {[ "warning"%string ]}).
  { subst classes. rewrite (update_unfold _ _ _ _ _ _ Hx). fold readings.
    unfold mbind, M_bind.
    destruct (classify self (isCritical self readings) (isWarning self readings) w)
      as [w1 r] eqn:Hc.
    unfold classify in Hc.
    destruct (isCritical self readings), (isWarning self readings);
      injection Hc as <- <-;
      rewrite (render_keeps_classes _ _ _ _ _ Hparent); reflexivity. }
  rewrite Hcl. clear Hcl classes Hx Hparent. clearbody readings.
  assert (Hne : "critical"%string <> "warning"%string) by discriminate.
  generalize dependent "warning"%string. generalize dependent "critical"%string.
  intros critical warning Hne.
  destruct (isCritical self readings), (isWarning self readings);
    repeat split; try discriminate;
    rewrite ?elem_of_union, ?elem_of_difference, ?elem_of_singleton;
    intuition congruence.
Qed.

Lemma classes_after_tick_witness :
  "critical"%string
  ∉ style_classes
      (update Linux (single_file_system sample_path "45000") sample_env
         (sample_object TEMPERATURE "temperature")
         {| style_classes := {[ "critical"%string ]}; event_box_visible := true;
            label_markup := ""; label_tooltip_text := "" |}).1.
Proof.
  intros H.
  apply (proj1 (classes_after_tick Linux (single_file_system sample_path "45000")
                  sample_env (sample_object TEMPERATURE "temperature")
                  (convert_reading TEMPERATURE 45000) _ eq_refl (fun _ => eq_refl))) in H.
  discriminate H.
Defined.

(** ** Formats that [fmt::format] rejects *)

(** X10: When the selected format is not empty and the formatter rejects it,
    the tick ends with the formatter's error after the classes were set and
    the event box shown: markup and tooltip keep their old text and the base
    class's update is not run.  When the markup is formatted and the tooltip
    format is rejected, the new markup is already on the label, and the
    tooltip keeps its old text. *)
Theorem rejected_format_keeps_text platform os env self x w w1 format e :
  getReadings platform os self = Return x ->
  let readings := uint16_of_rounded x in
  classify self (isCritical self readings) (isWarning self readings) w
  = (w1, Return format) ->
  format <> ""%string ->
  let u := units (sensor_type_ self) readings in
  let max_reading :=
    if Json.isInt (Json.member (config_ self) "critical-threshold")
    then Json.asInt (Json.member (config_ self) "critical-threshold") else 0 in
  let markup_result :=
    fmt_format env format (markup_args u (getIcon env readings "" max_reading)) in
  let tooltip_format :=
    string_or (Json.member (config_ self) "tooltip-format")
      (default_tooltip_format (sensor_type_ self)) in
  (markup_result = Throw e ->
   update platform os env self w
   = ({| style_classes := style_classes w1; event_box_visible := true;
         label_markup := label_markup w;
         label_tooltip_text := label_tooltip_text w |}, Throw e))
  /\ (forall markup,
        markup_result = Return markup ->
        tooltipEnabled env = true ->
        fmt_format env tooltip_format (tooltip_args u) = Throw e ->
        update platform os env self w
        = ({| style_classes := style_classes w1; event_box_visible := true;
              label_markup := markup;
              label_tooltip_text := label_tooltip_text w |}, Throw e)).
Proof.
  intros Hx readings Hc Hne u max_reading markup_result tooltip_format.
  rewrite (update_after_classify _ _ _ _ _ _ _ _ Hx Hc). fold readings.
  destruct (classify_keeps_rest self (isCritical self readings)
              (isWarning self readings) w) as (classes & format' & Hc').
  rewrite Hc in Hc'. injection Hc' as -> _. simpl.
  apply is_empty_false in Hne. unfold render. rewrite Hne.
  fold max_reading. fold u. fold markup_result.
  unfold mbind, M_bind, lift, show, set_visible, set_markup, set_tooltip_text. simpl.
  split.
  - intros ->. reflexivity.
  - intros markup -> Ht He. rewrite Ht. fold tooltip_format. rewrite He. reflexivity.
Qed.

Lemma rejected_format_keeps_text_witness :
  update Linux (single_file_system sample_path "45000") sample_env
    {| config_ := sample_config "temperature"; format_ := "{temperatureC";
       sensor_type_ := TEMPERATURE; file_path_ := sample_path |} fresh_widget
  = ({| style_classes := ∅ ∖ {[ "critical"%string ]} ∖ {[ "warning"%string ]};
        event_box_visible := true; label_markup := ""; label_tooltip_text := "" |},
     Throw (format_error "invalid format string")).
Proof.
  exact (proj1 (rejected_format_keeps_text Linux
                  (single_file_system sample_path "45000") sample_env
                  {| config_ := sample_config "temperature"; format_ := "{temperatureC";
                     sensor_type_ := TEMPERATURE; file_path_ := sample_path |}
                  (convert_reading TEMPERATURE 45000) fresh_widget _ _ _
                  eq_refl eq_refl ltac:(discriminate)) eq_refl).
Defined.

(** X11: With tooltips disabled a tick never changes the tooltip text,
    whatever the reading and the formats, when the base class's update leaves
    it alone. *)
Theorem tooltip_disabled_keeps_tooltip platform os env self w :
  tooltipEnabled env = false ->
  (forall w', label_tooltip_text (ALabel_update env w').1 = label_tooltip_text w') ->
  label_tooltip_text (update platform os env self w).1 = label_tooltip_text w.
Proof.
  intros Ht Hparent. unfold update.
  unfold mbind at 1. unfold M_bind at 1. unfold lift at 1.
  destruct (getReadings platform os self) as [x|e]; [|reflexivity].
  unfold mbind at 1. unfold M_bind at 1.
  destruct (classify_keeps_rest self (isCritical self (uint16_of_rounded x))
              (isWarning self (uint16_of_rounded x)) w) as (classes & format & Hc).
  rewrite Hc. unfold render. destruct (is_empty format); [reflexivity|].
  rewrite Ht.
  unfold mbind, M_bind, lift, show, set_visible, set_markup, mret, M_ret. simpl.
  destruct (fmt_format env format _) as [markup|e]; simpl; [|reflexivity].
  destruct (ALabel_update env _) as [w' r] eqn:E.
  specialize (Hparent ltac:(match type of E with ALabel_update _ ?a = _ => exact a end)).
  rewrite E in Hparent. simpl in Hparent. destruct r; simpl; exact Hparent.
Qed.

Lemma tooltip_disabled_keeps_tooltip_witness :
  label_tooltip_text
    (update Linux (single_file_system sample_path "45000")
       {| fmt_format := fun format args => simple_format args None format;
          getIcon := fun _ _ _ => ""%string;
          tooltipEnabled := false;
          ALabel_update := mret tt |}
       (sample_object TEMPERATURE "temperature") fresh_widget).1
  = ""%string.
Proof.
  exact (tooltip_disabled_keeps_tooltip Linux (single_file_system sample_path "45000")
           {| fmt_format := fun format args => simple_format args None format;
              getIcon := fun _ _ _ => ""%string;
              tooltipEnabled := false;
              ALabel_update := mret tt |}
           (sample_object TEMPERATURE "temperature") fresh_widget
           eq_refl (fun _ => eq_refl)).
Defined.

(** ** Thresholds *)

Lemma uint16_of_rounded_range (x : spec_float) : 0 <= uint16_of_rounded x < 65536.
Proof. unfold uint16_of_rounded, uint16_of_Z. apply Z.mod_pos_bound. lia. Qed.

(** X12: The reading compared with a threshold is a 16-bit unsigned number.  A
    critical threshold above 65535 is therefore never met, and one that is
    zero or negative is met by every reading; the same holds for the warning
    threshold. *)
Theorem threshold_out_of_reach self x t :
  (Json.member (config_ self) "critical-threshold" = Json.intValue t ->
   (65535 < t -> isCritical self (uint16_of_rounded x) = false)
   /\ (INT_MIN <= t <= 0 -> isCritical self (uint16_of_rounded x) = true))
  /\ (Json.member (config_ self) "warning-threshold" = Json.intValue t ->
      (65535 < t -> isWarning self (uint16_of_rounded x) = false)
      /\ (INT_MIN <= t <= 0 -> isWarning self (uint16_of_rounded x) = true)).
Proof.
  pose proof (uint16_of_rounded_range x) as Hr.
  unfold isCritical, isWarning, INT_MIN.
  split; intros ->; simpl; unfold INT_MIN, INT_MAX; split; intros Ht.
  - apply andb_false_iff. right. lia.
  - apply andb_true_iff. split; lia.
  - apply andb_false_iff. right. lia.
  - apply andb_true_iff. split; lia.
Qed.

Lemma threshold_out_of_reach_witness :
  isCritical {| config_ := {[ "critical-threshold"%string := Json.intValue (-10) ]};
                format_ := default_format; sensor_type_ := TEMPERATURE;
                file_path_ := sample_path |}
    (uint16_of_rounded (convert_reading TEMPERATURE (-30000))) = true.
Proof.
  apply (proj1 (threshold_out_of_reach
                  {| config_ := {[ "critical-threshold"%string := Json.intValue (-10) ]};
                     format_ := default_format; sensor_type_ := TEMPERATURE;
                     file_path_ := sample_path |}
                  (convert_reading TEMPERATURE (-30000)) (-10))).
  - reflexivity.
  - unfold INT_MIN. lia.
Defined.

(** X13: A threshold in terms of the raw value, for raw values from 0 up to
    [raw_limit] (excluded).  With a threshold of [t] units, such a raw value
    [r] meets it exactly from [raw_threshold] on: for a temperature sensor
    from [1000 * t - 500], half a degree below the threshold; for a power
    sensor from [1000000 * t - 500000]; for a fan from [t].  This holds for
    the critical and for the warning threshold.  (A negative raw value is not
    covered: its reading wraps around to a large one.) *)
Theorem threshold_in_raw_units self r t :
  0 <= r < raw_limit (sensor_type_ self) ->
  INT_MIN <= t <= INT_MAX ->
  let readings := uint16_of_rounded (convert_reading (sensor_type_ self) r) in
  (Json.member (config_ self) "critical-threshold" = Json.intValue t ->
   (isCritical self readings = true <-> raw_threshold (sensor_type_ self) t <= r))
  /\ (Json.member (config_ self) "warning-threshold" = Json.intValue t ->
      (isWarning self readings = true <-> raw_threshold (sensor_type_ self) t <= r)).
Proof.
  intros Hr Ht readings.
  assert (Hq : forall c h, 0 < c -> t <= (r + h) / c <-> c * t - h <= r).
  { intros c h Hc. split; intros H.
    - pose proof (Z.mul_div_le (r + h) c Hc). nia.
    - apply Z.div_le_lower_bound; lia. }
  assert (E : t <= readings <-> raw_threshold (sensor_type_ self) t <= r).
  { unfold readings, uint16_of_rounded, uint16_of_Z.
    destruct (sensor_type_ self); simpl in Hr; simpl raw_threshold.
    - rewrite round_celsius by exact Hr.
      assert (0 <= (r + 500) / 1000 < 32768)
        by (split; [apply Z.div_pos; lia | apply Z.div_lt_upper_bound; lia]).
      rewrite int_of_rounded_small by (unfold INT_MIN, INT_MAX; lia).
      rewrite Z.mod_small by lia. now apply Hq.
    - change (convert_reading FAN r) with (Float.float_of_Z r).
      rewrite float_of_Z_exact by (change (2 ^ 24) with 16777216; lia).
      rewrite int_of_rounded_small by (unfold INT_MIN, INT_MAX; lia).
      rewrite Z.mod_small; lia.
    - rewrite round_watts by exact Hr.
      assert (0 <= (r + 500000) / 1000000 < 32)
        by (split; [apply Z.div_pos; lia | apply Z.div_lt_upper_bound; lia]).
      rewrite int_of_rounded_small by (unfold INT_MIN, INT_MAX; lia).
      rewrite Z.mod_small by lia. now apply Hq. }
  unfold isCritical, isWarning, INT_MIN, INT_MAX in *.
  split; intros ->; simpl; unfold INT_MIN, INT_MAX; rewrite <- E;
    rewrite andb_true_iff, Z.leb_le;
    (split; [intros [_ H]; exact H | intros H; split; [lia | exact H]]).
Qed.

Lemma threshold_in_raw_units_witness :
  isCritical (sample_object TEMPERATURE "temperature")
    (uint16_of_rounded (convert_reading TEMPERATURE 79500)) = true.
Proof.
  apply (proj1 (threshold_in_raw_units
                  (sample_object TEMPERATURE "temperature") 79500 80
                  ltac:(simpl; lia) ltac:(unfold INT_MIN, INT_MAX; lia))).
  - reflexivity.
  - simpl. lia.
Defined.

(** ** The FreeBSD reading: [((float)temp - 2732) / 10] *)

Lemma Zdigits2_shift (n k : Z) :
  0 < n -> 0 <= k -> Zdigits2 (n * 2 ^ k) = Zdigits2 n + k.
Proof.
  intros Hn Hk. destruct (Zdigits2_bounds n Hn) as (Hd & Hlo & Hhi).
  assert (Hp : 0 < 2 ^ k) by (apply Z.pow_pos_nonneg; lia).
  apply Zdigits2_unique; [lia|].
  replace (Zdigits2 n + k - 1) with (Zdigits2 n - 1 + k) by lia.
  rewrite !Z.pow_add_r by lia. nia.
Qed.

Lemma rne_div_exact (A B : Z) : 0 < B -> rne_div (A * B) B = A.
Proof.
  intros HB. rewrite rne_div_eq, Z.mod_mul, Z.div_mul by lia.
  rewrite Z.mul_0_r. destruct (Z.compare_spec 0 B); try reflexivity; lia.
Qed.

Lemma normal_float_short (prec : Z) (s : bool) (M E : Z) :
  M < 2 ^ prec -> normal_float prec s M E = S754_finite s (Z.to_pos M) E.
Proof. intros H. unfold normal_float. destruct (Z.ltb_spec M (2 ^ prec)); [reflexivity|lia]. Qed.

(** An integer below 2^24 is a [float], however its mantissa is scaled. *)
Lemma binary_round_integer (s : bool) (n k : Z) :
  0 < n < 2 ^ 24 -> 0 <= k <= 24 ->
  binary_round 24 128 s (Z.to_pos (n * 2 ^ k)) (- k)
  = S754_finite s (Z.to_pos (n * 2 ^ (24 - Zdigits2 n))) (Zdigits2 n - 24).
Proof.
  intros Hn Hk.
  pose proof (Zdigits2_le n 24 Hn ltac:(lia)) as Hd.
  destruct (Zdigits2_bounds n ltac:(lia)) as (Hd0 & Hlo & Hhi).
  assert (Hp : 0 < 2 ^ k) by (apply Z.pow_pos_nonneg; lia).
  assert (HD : 0 < n * 2 ^ k) by nia.
  assert (HdD : Zpos (digits2_pos (Z.to_pos (n * 2 ^ k))) = Zdigits2 n + k).
  { rewrite <- (Zdigits2_shift n k) by lia.
    destruct (n * 2 ^ k) as [|p|p]; try lia. reflexivity. }
  assert (HM : n * 2 ^ (24 - Zdigits2 n) < 2 ^ 24).
  { replace 24 with (Zdigits2 n + (24 - Zdigits2 n)) at 2 by lia.
    rewrite Z.pow_add_r by lia.
    assert (0 < 2 ^ (24 - Zdigits2 n)) by (apply Z.pow_pos_nonneg; lia). nia. }
  destruct (Z.le_gt_cases 24 (Zdigits2 n + k)) as [Hlong|Hshort].
  - rewrite (binary_round_normal 24 128 ltac:(lia)); rewrite ?HdD;
      try (unfold SpecFloat.emin; lia).
    rewrite Z2Pos.id by lia.
    replace (n * 2 ^ k)
      with (n * 2 ^ (24 - Zdigits2 n) * 2 ^ (Zdigits2 n + k - 24)).
    2:{ rewrite <- Z.mul_assoc, <- Z.pow_add_r by lia. do 2 f_equal. lia. }
    rewrite rne_div_exact by (apply Z.pow_pos_nonneg; lia).
    rewrite normal_float_short by exact HM. f_equal. lia.
  - unfold binary_round, shl_align. rewrite HdD.
    rewrite (fexp_normal 24 128) by (unfold SpecFloat.emin; lia).
    destruct (Zdigits2 n + k + - k - 24 - - k) as [|j|j] eqn:E; try lia.
    assert (Hj : Zpos j = 24 - Zdigits2 n - k) by lia.
    rewrite (binary_round_aux_exact 24 128).
    + f_equal; [|lia]. apply Pos2Z.inj.
      rewrite Zpos_iter_xO, !Z2Pos.id, Hj by nia.
      rewrite <- Z.mul_assoc, <- Z.pow_add_r by lia. do 2 f_equal. lia.
    + rewrite digits2_pos_iter_xO, Pos2Z.inj_add, HdD. lia.
    + unfold SpecFloat.emin. lia.
    + lia.
Qed.

Lemma float_of_Z_pos (s : bool) (n : Z) :
  0 < n < 2 ^ 24 ->
  Float.float_of_Z (cond_Zopp s n)
  = S754_finite s (Z.to_pos (n * 2 ^ (24 - Zdigits2 n))) (Zdigits2 n - 24).
Proof.
  intros Hn. rewrite <- (binary_round_integer s n 0) by lia.
  rewrite Z.pow_0_r, Z.mul_1_r.
  destruct n as [|p|p]; try lia. destruct s; reflexivity.
Qed.

Lemma shl_align_value (m : positive) (e e' : Z) :
  e' <= e -> Zpos (fst (shl_align m e e')) = Zpos m * 2 ^ (e - e').
Proof.
  intros H. unfold shl_align. destruct (e' - e) as [|d|d] eqn:E; try lia; simpl fst.
  - replace (e - e') with 0 by lia. lia.
  - rewrite Zpos_iter_xO. do 2 f_equal. lia.
Qed.

(** The difference of two positive integers below 2^24 is computed
    exactly. *)
Lemma fsub_exact (a b : Z) :
  0 < a < 2 ^ 24 -> 0 < b < 2 ^ 24 ->
  Float.fsub (Float.float_of_Z a) (Float.float_of_Z b) = Float.float_of_Z (a - b).
Proof.
  intros Ha Hb.
  pose proof (Zdigits2_le a 24 Ha ltac:(lia)) as Hda.
  pose proof (Zdigits2_le b 24 Hb ltac:(lia)) as Hdb.
  destruct (Zdigits2_bounds a ltac:(lia)) as (Hda0 & _).
  destruct (Zdigits2_bounds b ltac:(lia)) as (Hdb0 & _).
  rewrite (float_of_Z_pos false a Ha : Float.float_of_Z a = _).
  rewrite (float_of_Z_pos false b Hb : Float.float_of_Z b = _).
  unfold Float.fsub, SFsub.
  set (ez := Z.min (Zdigits2 a - 24) (Zdigits2 b - 24)).
  rewrite !shl_align_value by (unfold ez; lia).
  assert (Hpa : 0 < 2 ^ (24 - Zdigits2 a)) by (apply Z.pow_pos_nonneg; lia).
  assert (Hpb : 0 < 2 ^ (24 - Zdigits2 b)) by (apply Z.pow_pos_nonneg; lia).
  rewrite !Z2Pos.id by nia.
  cbn [cond_Zopp].
  rewrite <- !Z.mul_assoc, <- !Z.pow_add_r by (unfold ez; lia).
  replace (24 - Zdigits2 a + (Zdigits2 a - 24 - ez)) with (- ez) by lia.
  replace (24 - Zdigits2 b + (Zdigits2 b - 24 - ez)) with (- ez) by lia.
  rewrite <- Z.mul_sub_distr_r.
  assert (Hk : 0 <= - ez <= 24) by (unfold ez; lia).
  assert (Hp : 0 < 2 ^ (- ez)) by (apply Z.pow_pos_nonneg; lia).
  destruct (Z.lt_trichotomy a b) as [Hlt | [Heq | Hgt]].
  - (* negative *)
    replace ((a - b) * 2 ^ (- ez)) with (- ((b - a) * 2 ^ (- ez))) by ring.
    assert (Hn : 0 < b - a < 2 ^ 24) by lia.
    replace (a - b) with (cond_Zopp true (b - a)) by (simpl; lia).
    rewrite float_of_Z_pos by exact Hn.
    rewrite <- (binary_round_integer true (b - a) (- ez)) by lia.
    assert (HD : 0 < (b - a) * 2 ^ (- ez)) by nia.
    destruct ((b - a) * 2 ^ (- ez)) as [|p|p] eqn:E; try lia.
    simpl. now rewrite Z.opp_involutive.
  - subst b. rewrite Z.sub_diag. reflexivity.
  - assert (Hn : 0 < a - b < 2 ^ 24) by lia.
    rewrite (float_of_Z_pos false (a - b) Hn : Float.float_of_Z (a - b) = _).
    rewrite <- (binary_round_integer false (a - b) (- ez)) by lia.
    assert (HD : 0 < (a - b) * 2 ^ (- ez)) by nia.
    destruct ((a - b) * 2 ^ (- ez)) as [|p|p] eqn:E; try lia.
    simpl. now rewrite Z.opp_involutive.
Qed.

Lemma rne_div_near (X D : Z) :
  0 < D -> 2 * X - D <= 2 * D * rne_div X D <= 2 * X + D.
Proof.
  intros HD. rewrite rne_div_eq.
  pose proof (Z.div_mod X D ltac:(lia)) as E.
  pose proof (Z.mod_pos_bound X D HD) as B.
  destruct (Z.compare_spec (2 * (X mod D)) D) as [H|H|H].
  - destruct (Z.even (X / D)); nia.
  - nia.
  - nia.
Qed.

(** A multiple of one tenth, held with [q >= 3] binary places, rounds to the
    integer nearest to the exact tenth. *)
Lemma round_tenth (n q : Z) :
  0 <= n -> 3 <= q ->
  (2 * rne_div (n * 2 ^ q) 10 + 2 ^ q) / 2 ^ (q + 1) = (n + 5) / 10.
Proof.
  intros Hn Hq.
  set (M := rne_div (n * 2 ^ q) 10).
  pose proof (rne_div_near (n * 2 ^ q) 10 ltac:(lia)) as HM. fold M in HM.
  set (a := (n + 5) / 10).
  pose proof (Z.div_mod (n + 5) 10 ltac:(lia)) as E.
  pose proof (Z.mod_pos_bound (n + 5) 10 ltac:(lia)) as B. fold a in E.
  assert (HP : exists P', 2 ^ q = 2 * P' /\ 4 <= P').
  { exists (2 ^ (q - 1)). split.
    - rewrite <- Z.pow_succ_r by lia. f_equal. lia.
    - change 4 with (2 ^ 2). apply Z.pow_le_mono_r; lia. }
  destruct HP as (P' & HP & HP').
  rewrite Z.pow_add_r, Z.pow_1_r, HP in * by lia.
  assert (H1 : (10 * a - 5) * P' <= n * P') by (apply Z.mul_le_mono_nonneg_r; lia).
  assert (H2 : n * P' <= (10 * a + 4) * P') by (apply Z.mul_le_mono_nonneg_r; lia).
  symmetry. apply Z.div_unique with (2 * M + 2 * P' - 2 * P' * 2 * a); lia.
Qed.

Lemma round_normal_float (s : bool) (M q : Z) :
  0 < M <= 2 ^ 24 -> 0 <= q ->
  Float.round (normal_float 24 s M (- q))
  = cond_Zopp s ((2 * M + 2 ^ q) / 2 ^ (q + 1)).
Proof.
  intros HM Hq. unfold normal_float.
  destruct (Z.ltb_spec M (2 ^ 24)) as [Hlt|Hge]; simpl Float.round; f_equal.
  - rewrite (round_magnitude_scaled _ _ q) by lia.
    rewrite Z2Pos.id, Z.add_opp_diag_l, Z.pow_0_r, Z.mul_1_r by lia. reflexivity.
  - rewrite (round_magnitude_scaled _ _ q) by lia.
    replace (- q + 1 + q) with 1 by lia.
    replace M with (2 ^ 24) by lia. reflexivity.
Qed.

(** Division of an integer float by ten. *)
Lemma fdiv_10 (s : bool) (n : Z) :
  0 < n < 2 ^ 24 ->
  exists q,
    3 <= q
    /\ 0 < rne_div (n * 2 ^ q) 10 <= 2 ^ 24
    /\ Float.fdiv (Float.float_of_Z (cond_Zopp s n)) (Float.float_of_Z 10)
       = normal_float 24 s (rne_div (n * 2 ^ q) 10) (- q).
Proof.
  intros Hn.
  pose proof (Zdigits2_le n 24 Hn ltac:(lia)) as Hd.
  destruct (Zdigits2_bounds n ltac:(lia)) as (Hd0 & Hlo & Hhi).
  rewrite float_of_Z_pos by exact Hn.
  change (Float.float_of_Z 10) with (S754_finite false 10485760 (-20)).
  set (m1 := Z.to_pos (n * 2 ^ (24 - Zdigits2 n))).
  assert (Hp : 0 < 2 ^ (24 - Zdigits2 n)) by (apply Z.pow_pos_nonneg; lia).
  assert (Hm1 : Zpos m1 = n * 2 ^ (24 - Zdigits2 n)) by (unfold m1; rewrite Z2Pos.id; nia).
  assert (Hd1 : Zpos (digits2_pos m1) = 24).
  { change (Zpos (digits2_pos m1)) with (Zdigits2 (Zpos m1)).
    rewrite Hm1, Zdigits2_shift by lia. lia. }
  destruct (SFdiv_normal 24 128 ltac:(lia) ltac:(lia) s false m1 10485760
              (Zdigits2 n - 24) (-20) Hd1 eq_refl
              ltac:(unfold SpecFloat.emin; lia) ltac:(lia)) as [E Hk].
  cbv zeta in E, Hk.
  set (k := Zdigits2 (Zpos m1 * 2 ^ 24 / 10485760) - 24) in *.
  exists (28 - Zdigits2 n - k).
  assert (Hpk : 0 < 2 ^ (20 + k)) by (apply Z.pow_pos_nonneg; lia).
  assert (HN : Zpos m1 * 2 ^ 24 = n * 2 ^ (28 - Zdigits2 n - k) * 2 ^ (20 + k)).
  { rewrite Hm1, <- !Z.mul_assoc, <- !Z.pow_add_r by lia. do 2 f_equal. lia. }
  assert (HD : 10485760 * 2 ^ k = 10 * 2 ^ (20 + k)).
  { rewrite Z.pow_add_r by lia. change (2 ^ 20) with 1048576. ring. }
  assert (HM : 2 ^ 23 <= rne_div (Zpos m1 * 2 ^ 24) (10485760 * 2 ^ k) <= 2 ^ 24).
  { pose proof (rne_div_bounds (Zpos m1 * 2 ^ 24) (10485760 * 2 ^ k)) as Hb.
    assert (Hq0 : 0 < Zpos m1 * 2 ^ 24 / 10485760).
    { apply Z.div_str_pos.
      pose proof (digits2_pos_bounds m1) as Hb1. rewrite Hd1 in Hb1.
      change (2 ^ (24 - 1)) with 8388608 in Hb1. change (2 ^ 24) with 16777216. lia. }
    destruct (Zdigits2_bounds _ Hq0) as (_ & Hql & Hqh).
    replace (Zdigits2 (Zpos m1 * 2 ^ 24 / 10485760)) with (24 + k) in Hql, Hqh
      by (unfold k; lia).
    assert (Hpk' : 0 < 2 ^ k) by (apply Z.pow_pos_nonneg; lia).
    rewrite <- Z.div_div in Hb by lia.
    assert (2 ^ 23 <= Zpos m1 * 2 ^ 24 / 10485760 / 2 ^ k).
    { apply Z.div_le_lower_bound; [lia|]. rewrite <- Z.pow_add_r by lia.
      replace (k + 23) with (24 + k - 1) by lia. exact Hql. }
    assert (Zpos m1 * 2 ^ 24 / 10485760 / 2 ^ k < 2 ^ 24).
    { apply Z.div_lt_upper_bound; [lia|]. rewrite <- Z.pow_add_r by lia.
      replace (k + 24) with (24 + k) by lia. exact Hqh. }
    lia. }
  rewrite HN, HD, rne_div_scale in HM, E by lia.
  change (2 ^ 23) with 8388608 in HM.
  split; [lia|]. split; [lia|].
  change Float.fdiv with (SFdiv 24 128). rewrite E, xorb_false_r. f_equal. lia.
Qed.

(** The reading on FreeBSD, for a [sysctl] value [temp] below 2^24:
    [(temp - 2732) / 10], rounded to the nearest integer. *)
Lemma round_freebsd_reading (temp : Z) :
  0 < temp < 2 ^ 24 ->
  Float.round
    (Float.fdiv (Float.fsub (Float.float_of_Z temp) (Float.float_of_Z 2732))
                (Float.float_of_Z 10))
  = Qround_half_away ((temp - 2732) # 10).
Proof.
  intros Ht. rewrite fsub_exact by (change (2 ^ 24) with 16777216 in *; lia).
  assert (Hhalf : forall n, (2 * n + 10) / (2 * 10) = (n + 5) / 10).
  { intros n. replace (2 * n + 10) with (2 * (n + 5)) by ring.
    apply Z.div_mul_cancel_l; lia. }
  rewrite Qround_half_away_frac. change (Zpos 10) with 10.
  destruct (Z.lt_trichotomy temp 2732) as [Hlt | [-> | Hgt]].
  - destruct (Z.leb_spec 0 (temp - 2732)); [lia|].
    replace (temp - 2732) with (cond_Zopp true (2732 - temp)) at 1 by (simpl; lia).
    destruct (fdiv_10 true (2732 - temp) ltac:(change (2 ^ 24) with 16777216 in *; lia))
      as (q & Hq & HM & E).
    rewrite E, round_normal_float, round_tenth by lia. simpl.
    rewrite Hhalf. do 2 f_equal. lia.
  - reflexivity.
  - destruct (Z.leb_spec 0 (temp - 2732)); [|lia].
    replace (temp - 2732) with (cond_Zopp false (temp - 2732)) at 1 by reflexivity.
    destruct (fdiv_10 false (temp - 2732) ltac:(change (2 ^ 24) with 16777216 in *; lia))
      as (q & Hq & HM & E).
    rewrite E, round_normal_float, round_tenth by lia. simpl.
    now rewrite Hhalf.
Qed.

Lemma round_freebsd_reading_0 (temp : Z) :
  0 <= temp < 2 ^ 24 ->
  Float.round
    (Float.fdiv (Float.fsub (Float.float_of_Z temp) (Float.float_of_Z 2732))
                (Float.float_of_Z 10))
  = freebsd_celsius temp.
Proof.
  intros Ht. destruct (Z.eq_dec temp 0) as [->|Hne]; [reflexivity|].
  apply round_freebsd_reading. lia.
Qed.

(** X14: On FreeBSD the reading comes from [sysctl]:
    [dev.cpu.<zone>.temperature] is asked first and
    [hw.acpi.thermal.tz<zone>.temperature] only when that fails; no file is
    opened.  For a value [temp] from 0 up to 2^24 - 1 the reading, once
    rounded, is [(temp - 2732) / 10] to the nearest integer. *)
Theorem freebsd_reading os self temp :
  sensor_type_ self = TEMPERATURE ->
  let zone := Json.string_of_Z (thermal_zone (config_ self)) in
  sysctlbyname os ("dev.cpu." +:+ zone +:+ ".temperature") = Some temp
  \/ (sysctlbyname os ("dev.cpu." +:+ zone +:+ ".temperature") = None
      /\ sysctlbyname os ("hw.acpi.thermal.tz" +:+ zone +:+ ".temperature") = Some temp) ->
  0 <= temp < 2 ^ 24 ->
  exists x,
    getReadings FreeBSD os self = Return x
    /\ Float.round x = freebsd_celsius temp.
Proof.
  intros Hk zone Hs Ht. unfold getReadings. rewrite Hk. simpl. fold zone.
  destruct Hs as [-> | [-> ->]];
    (eexists; split; [reflexivity | now apply round_freebsd_reading_0]).
Qed.

Lemma freebsd_reading_witness :
  exists x,
    getReadings FreeBSD (sysctl_system "hw.acpi.thermal.tz1.temperature" 3007)
      (freebsd_object {[ "thermal-zone"%string := Json.intValue 1 ]}) = Return x
    /\ Float.round x = 28.
Proof.
  apply (freebsd_reading (sysctl_system "hw.acpi.thermal.tz1.temperature" 3007)
           (freebsd_object {[ "thermal-zone"%string := Json.intValue 1 ]}) 3007 eq_refl).
  - right. split; reflexivity.
  - change (2 ^ 24) with 16777216. lia.
Defined.

(** X15: When both [sysctl] variables fail, the tick throws an error naming
    them and leaves the widget as it was. *)
Theorem freebsd_sysctl_failure os env self w :
  sensor_type_ self = TEMPERATURE ->
  let zone := Json.string_of_Z (thermal_zone (config_ self)) in
  sysctlbyname os ("dev.cpu." +:+ zone +:+ ".temperature") = None ->
  sysctlbyname os ("hw.acpi.thermal.tz" +:+ zone +:+ ".temperature") = None ->
  update FreeBSD os env self w
  = (w, Throw (runtime_error
                 ("sysctl hw.acpi.thermal.tz" +:+ zone +:+ ".temperature and dev.cpu."
                  +:+ zone +:+ ".temperature failed"))).
Proof.
  intros Hk zone H1 H2. unfold update, lift, mbind, M_bind, getReadings.
  rewrite Hk. simpl. fold zone. now rewrite H1, H2.
Qed.

Lemma freebsd_sysctl_failure_witness :
  update FreeBSD empty_system sample_env
    (freebsd_object {[ "thermal-zone"%string := Json.intValue 1 ]}) fresh_widget
  = (fresh_widget,
     Throw (runtime_error
              "sysctl hw.acpi.thermal.tz1.temperature and dev.cpu.1.temperature failed")).
Proof.
  exact (freebsd_sysctl_failure empty_system sample_env
           (freebsd_object {[ "thermal-zone"%string := Json.intValue 1 ]}) fresh_widget
           eq_refl eq_refl eq_refl).
Defined.

(** X16: On FreeBSD ["type"] is never read.  Every configuration constructs an
    object of kind TEMPERATURE with an empty file path, so that the check of
    the kind in [getReadings] cannot fail for it: a configuration asking for a
    fan or power sensor shows the CPU temperature. *)
Theorem freebsd_type_is_ignored os config :
  Temperature_new FreeBSD os config = Return (freebsd_object config)
  /\ forall os',
       getReadings FreeBSD os' (freebsd_object config)
       <> Throw (runtime_error "Only temperature sensor reading is supported in FreeBSD").
Proof.
  split; [reflexivity|]. intros os'. unfold getReadings. simpl.
  destruct (sysctlbyname os' _); [discriminate|].
  destruct (sysctlbyname os' _); [discriminate|].
  cbv [String.append]. discriminate.
Qed.

(** ** Reading back a decimal number *)

Lemma leading_digits_string_of_uint (u : Decimal.uint) (rest : string) :
  forall acc,
    leading_digits acc (NilEmpty.string_of_uint u +:+ rest)
    = leading_digits (uint_value acc u) rest.
Proof. induction u; intros acc; simpl; try reflexivity; apply IHu. Qed.

Lemma uint_value_of_uint_acc (u : Decimal.uint) :
  forall p, uint_value (Zpos p) u = Zpos (Pos.of_uint_acc u p).
Proof.
  induction u; intros p; simpl; try reflexivity;
    rewrite <- IHu; f_equal; lia.
Qed.

Lemma uint_value_of_uint (u : Decimal.uint) : uint_value 0 u = Z.of_N (Pos.of_uint u).
Proof.
  induction u; simpl; try reflexivity; try exact IHu;
    apply uint_value_of_uint_acc.
Qed.

Lemma uint_value_to_uint (p : positive) : uint_value 0 (Pos.to_uint p) = Zpos p.
Proof. now rewrite uint_value_of_uint, DecimalPos.Unsigned.of_to. Qed.

Lemma string_of_uint_to_uint (p : positive) :
  NilZero.string_of_uint (Pos.to_uint p) = NilEmpty.string_of_uint (Pos.to_uint p)
  /\ forall rest, starts_with_digit (NilEmpty.string_of_uint (Pos.to_uint p) +:+ rest) = true.
Proof.
  pose proof (DecimalPos.Unsigned.to_uint_nonnil p) as H.
  destruct (Pos.to_uint p); try contradiction; split; reflexivity.
Qed.

Lemma strtol_digits (s : string) :
  starts_with_digit s = true -> strtol s = saturate_long (leading_digits 0 s).
Proof.
  destruct s as [|c s']; [discriminate|]. simpl.
  destruct (digit_value c) as [d|] eqn:E; [intros _|discriminate].
  unfold strtol. simpl skip_spaces. rewrite (digit_not_space _ _ E).
  destruct c as [[] [] [] [] [] [] [] []]; vm_compute in E;
    first [discriminate E | injection E as <-; reflexivity].
Qed.

(** X17: A line that holds the decimal notation of a [long], possibly followed
    by text that does not start with a digit, is read back as that number:
    [getReadings] returns its conversion. *)
Theorem decimal_line_is_read_back os self z rest :
  is_open (fs_open os (file_path_ self)) = true ->
  good (fs_open os (file_path_ self)) = true ->
  first_line (fs_open os (file_path_ self)) = Some (Json.string_of_Z z +:+ rest) ->
  starts_with_digit rest = false ->
  LONG_MIN <= z <= LONG_MAX ->
  strtol (Json.string_of_Z z +:+ rest) = z
  /\ getReadings Linux os self = Return (convert_reading (sensor_type_ self) z).
Proof.
  intros Ho Hg Hl Hrest Hz.
  assert (Hs : strtol (Json.string_of_Z z +:+ rest) = z).
  { assert (Hsat : saturate_long z = z) by (unfold saturate_long; lia).
    unfold Json.string_of_Z. destruct z as [|p|p]; simpl.
    - unfold strtol. simpl. now rewrite (leading_digits_no_digit _ _ Hrest).
    - destruct (string_of_uint_to_uint p) as [-> Hd].
      rewrite strtol_digits by apply Hd.
      rewrite (leading_digits_string_of_uint (Pos.to_uint p) rest 0), uint_value_to_uint.
      now rewrite (leading_digits_no_digit _ _ Hrest).
    - destruct (string_of_uint_to_uint p) as [-> Hd].
      change (strtol (String "-" (NilEmpty.string_of_uint (Pos.to_uint p)) +:+ rest))
        with (saturate_long
                (- leading_digits 0 (NilEmpty.string_of_uint (Pos.to_uint p) +:+ rest))).
      rewrite (leading_digits_string_of_uint (Pos.to_uint p) rest 0), uint_value_to_uint.
      rewrite (leading_digits_no_digit _ _ Hrest). exact Hsat. }
  split; [exact Hs|].
  unfold getReadings, getline. rewrite Ho, Hg, Hl.
  cbn -[strtol convert_reading Json.string_of_Z]. now rewrite Hs.
Qed.

Lemma decimal_line_is_read_back_witness :
  getReadings Linux (single_file_system sample_path "-1500 mC")
    (sample_object TEMPERATURE "temperature")
  = Return (convert_reading TEMPERATURE (-1500)).
Proof.
  exact (proj2 (decimal_line_is_read_back (single_file_system sample_path "-1500 mC")
                  (sample_object TEMPERATURE "temperature") (-1500) " mC"
                  eq_refl eq_refl eq_refl eq_refl
                  ltac:(unfold LONG_MIN, LONG_MAX; lia))).
Defined.

(** ** The reading grows with the raw value *)

Lemma round_normal_float_up (M E : Z) :
  0 < M <= 2 ^ 24 -> 0 <= E ->
  Float.round (normal_float 24 false M E) = M * 2 ^ E.
Proof.
  intros HM HE. unfold normal_float.
  destruct (Z.ltb_spec M (2 ^ 24)) as [Hlt|Hge];
    cbv beta iota delta [Float.round cond_Zopp].
  - unfold Float.round_magnitude.
    destruct E as [|e|e]; try lia; rewrite Z.shiftl_mul_pow2, Z2Pos.id by lia; reflexivity.
  - replace M with (2 ^ 24) by lia. unfold Float.round_magnitude.
    destruct (E + 1) as [|e|e] eqn:Ee; try lia.
    rewrite Z.shiftl_mul_pow2 by lia. rewrite <- Ee, Z.pow_add_r by lia.
    change (Zpos (Z.to_pos (2 ^ (24 - 1)))) with (2 ^ 23).
    change (2 ^ 24) with (2 ^ 23 * 2 ^ 1). ring.
Qed.

(** An integer of more than 24 digits, converted to [float]: the nearest
    multiple of the right power of two. *)
Lemma round_float_of_Z_long (r : Z) :
  2 ^ 24 <= r < 2 ^ 53 ->
  let n := Zdigits2 r - 24 in
  0 < n
  /\ 2 ^ 23 <= rne_div r (2 ^ n) <= 2 ^ 24
  /\ Float.round (Float.float_of_Z r) = rne_div r (2 ^ n) * 2 ^ n.
Proof.
  intros Hr n.
  destruct (Zdigits2_bounds r ltac:(lia)) as (Hd0 & Hlo & Hhi).
  assert (Hd : 24 < Zdigits2 r).
  { destruct (Z.lt_ge_cases 24 (Zdigits2 r)) as [H|H]; [exact H|].
    assert (2 ^ Zdigits2 r <= 2 ^ 24) by (apply Z.pow_le_mono_r; lia). lia. }
  assert (Hd53 : Zdigits2 r <= 53) by (apply Zdigits2_le; lia).
  assert (Hn : 0 < n) by (unfold n; lia).
  assert (Hpn : 0 < 2 ^ n) by (apply Z.pow_pos_nonneg; lia).
  assert (HM : 2 ^ 23 <= rne_div r (2 ^ n) <= 2 ^ 24).
  { change 23 with (24 - 1). apply rne_div_digits; [lia|lia|].
    rewrite <- !Z.pow_add_r by lia.
    replace (24 - 1 + n) with (Zdigits2 r - 1) by (unfold n; lia).
    replace (24 + n) with (Zdigits2 r) by (unfold n; lia). lia. }
  split; [exact Hn|]. split; [exact HM|].
  destruct r as [|p|p]; try lia.
  change (Float.float_of_Z (Zpos p)) with (binary_round 24 128 false p 0).
  simpl Zdigits2 in *.
  rewrite (binary_round_normal 24 128 ltac:(lia)) by (unfold SpecFloat.emin; lia).
  fold n. rewrite Z.add_0_l.
  apply round_normal_float_up; [change (2 ^ 23) with 8388608 in HM|]; lia.
Qed.

Lemma round_float_of_Z_mono (r1 r2 : Z) :
  0 <= r1 -> r1 <= r2 -> r2 < 2 ^ 53 ->
  Float.round (Float.float_of_Z r1) <= Float.round (Float.float_of_Z r2).
Proof.
  intros H1 H12 H2.
  destruct (Z.lt_ge_cases r2 (2 ^ 24)) as [Hs2|Hl2].
  { rewrite !float_of_Z_exact by lia. exact H12. }
  destruct (round_float_of_Z_long r2 ltac:(lia)) as (Hn2 & HM2 & E2).
  set (n2 := Zdigits2 r2 - 24) in *.
  assert (Hp2 : 2 <= 2 ^ n2).
  { change 2 with (2 ^ 1) at 1. apply Z.pow_le_mono_r; lia. }
  destruct (Z.lt_ge_cases r1 (2 ^ 24)) as [Hs1|Hl1].
  { rewrite (float_of_Z_exact r1), E2 by lia.
    change (2 ^ 24) with (2 ^ 23 * 2) in Hs1. nia. }
  destruct (round_float_of_Z_long r1 ltac:(lia)) as (Hn1 & HM1 & E1).
  set (n1 := Zdigits2 r1 - 24) in *.
  rewrite E1, E2.
  destruct (Zdigits2_bounds r1 ltac:(lia)) as (_ & Hlo1 & Hhi1).
  destruct (Zdigits2_bounds r2 ltac:(lia)) as (_ & Hlo2 & Hhi2).
  assert (Hd : Zdigits2 r1 <= Zdigits2 r2).
  { destruct (Z.le_gt_cases (Zdigits2 r1) (Zdigits2 r2)) as [H|H]; [exact H|].
    assert (2 ^ Zdigits2 r2 <= 2 ^ (Zdigits2 r1 - 1)) by (apply Z.pow_le_mono_r; lia).
    lia. }
  assert (Hp1 : 0 < 2 ^ n1) by (apply Z.pow_pos_nonneg; lia).
  destruct (Z.eq_dec n1 n2) as [Heq|Hne].
  - rewrite Heq in *. apply Z.mul_le_mono_nonneg_r; [lia|].
    apply rne_div_mono; lia.
  - assert (Hs : 2 ^ n2 = 2 ^ (n2 - n1) * 2 ^ n1).
    { rewrite <- Z.pow_add_r by (unfold n1, n2; lia). f_equal. lia. }
    assert (2 ^ 1 <= 2 ^ (n2 - n1)) by (apply Z.pow_le_mono_r; unfold n1, n2; lia).
    set (M1 := rne_div r1 (2 ^ n1)) in *. set (M2 := rne_div r2 (2 ^ n2)) in *.
    rewrite Hs, Z.mul_assoc. apply Z.mul_le_mono_nonneg_r; [lia|].
    change (2 ^ 24) with (8388608 * 2) in HM1. change (2 ^ 23) with 8388608 in HM2.
    change (2 ^ 1) with 2 in *.
    transitivity (8388608 * 2); [lia|]. apply Z.mul_le_mono_nonneg; lia.
Qed.

(** X18: Whatever the sensor kind, a larger raw value never gives a smaller
    reading: for raw values from 0 up to 2^53 - 1 the rounded result of
    [getReadings] grows with the number read from the file, also where [float]
    no longer holds the quotient exactly. *)
Theorem reading_grows_with_raw_value (sensor_type : SensorType) (r1 r2 : Z) :
  0 <= r1 -> r1 <= r2 -> r2 < 2 ^ 53 ->
  Float.round (convert_reading sensor_type r1)
  <= Float.round (convert_reading sensor_type r2).
Proof.
  intros H1 H12 H2. destruct sensor_type.
  - apply (quotient_reading_mono 1000); [change (2 ^ 53) with 9007199254740992|..]; lia.
  - apply round_float_of_Z_mono; lia.
  - apply (quotient_reading_mono 1000000); [change (2 ^ 53) with 9007199254740992|..]; lia.
Qed.

Lemma reading_grows_with_raw_value_witness :
  Float.round (convert_reading TEMPERATURE 32768499)
  <= Float.round (convert_reading TEMPERATURE 40000000).
Proof.
  apply (reading_grows_with_raw_value TEMPERATURE 32768499 40000000);
    [| | change (2 ^ 53) with 9007199254740992]; lia.
Defined.
